(** * mygdal: geo-referenced rasters, tagged CSV tables and sample time series

    A shallow embedding of [mygdal.py] and the properties of its
    specification.

    Conventions of the embedding.
    - Python exceptions are values of [exn]; a computation that may raise
      returns a [result].
    - Floating-point numbers are [pyfloat]: an exact rational, an infinity
      or NaN.  Finite arithmetic is exact (no rounding, no overflow to
      infinity, no signed zero); integers are unbounded.  The program
      computes in 64-bit floats and 64-bit integers, which agree with this
      where no operation rounds and no integer leaves the 64-bit range: a
      property that needs an exact product, sum or quotient says where
      this is so (see [on_grid]).
    - The values of a raster are 64-bit floats, as [ReadAsArray] gives
      them for such a raster, or integers multiplied by a Python float;
      rasters of 32-bit floats are not represented.
    - Text is a [string] of bytes; only ASCII white space and ASCII case
      are interpreted.
    - The raster library, the file system, the coordinate transformation
      and [strptime] are collaborators of the program and are taken from an
      [environment].
    - The random numbers of [numpy.random] are taken from a [generator],
      whose state is passed explicitly.
    - The [close] methods of the tables are not embedded; no property
      below depends on them. *)

From Stdlib Require Import ZArith QArith Qabs Qround Qfield Bool List Ascii String Lia.
From Stdlib Require Import DecimalString.
From Stdlib Require Import Qminmax Lqa Permutation.
Import ListNotations.

Local Open Scope string_scope.
Local Open Scope list_scope.
Local Open Scope Z_scope.

(** ** Exceptions and results *)

Inductive exn : Type :=
| Exception (kind msg : string)   (* raise Exception(kind, msg) *)
| ValueError
| KeyError (key : string)
| IndexError
| TypeError
| AttributeError
| OverflowError
| OSError (filename : string).

Inductive result (A : Type) : Type :=
| Ok (a : A)
| Raise (e : exn).

Arguments Ok {A} a.
Arguments Raise {A} e.

Definition bind {A B : Type} (m : result A) (k : A -> result B) : result B :=
  match m with
  | Ok a => k a
  | Raise e => Raise e
  end.

Notation "x <- m ;; k" := (bind m (fun x => k))
  (at level 61, m at next level, right associativity).
Notation "' pat <- m ;; k" := (bind m (fun x => match x with pat => k end))
  (at level 61, pat pattern, m at next level, right associativity).

Definition of_option {A : Type} (e : exn) (o : option A) : result A :=
  match o with
  | Some a => Ok a
  | None => Raise e
  end.

(** [[f(x) for x in xs]]: the first exception stops the comprehension. *)
Fixpoint mapM {A B : Type} (f : A -> result B) (xs : list A) : result (list B) :=
  match xs with
  | [] => Ok []
  | x :: xs' => y <- f x ;; ys <- mapM f xs' ;; Ok (y :: ys)
  end.

(** ** Floating-point values *)

Inductive pyfloat : Type :=
| Fin (q : Q)
| Inf (neg : bool)
| NaN.

Definition Qzero (q : Q) : bool := Qeq_bool q 0.
Definition Qneg (q : Q) : bool := negb (Qle_bool 0 q).

Module F.

Definition of_int (z : Z) : pyfloat := Fin (inject_Z z).

Definition isfinite (a : pyfloat) : bool :=
  match a with Fin _ => true | _ => false end.

Definition neg (a : pyfloat) : pyfloat :=
  match a with
  | Fin q => Fin (- q)
  | Inf s => Inf (negb s)
  | NaN => NaN
  end.

Definition add (a b : pyfloat) : pyfloat :=
  match a, b with
  | NaN, _ | _, NaN => NaN
  | Fin x, Fin y => Fin (x + y)
  | Inf s, Fin _ | Fin _, Inf s => Inf s
  | Inf s, Inf t => if Bool.eqb s t then Inf s else NaN
  end.

Definition sub (a b : pyfloat) : pyfloat := add a (neg b).

Definition mul (a b : pyfloat) : pyfloat :=
  match a, b with
  | NaN, _ | _, NaN => NaN
  | Fin x, Fin y => Fin (x * y)
  | Inf s, Fin q | Fin q, Inf s =>
      if Qzero q then NaN else Inf (xorb s (Qneg q))
  | Inf s, Inf t => Inf (xorb s t)
  end.

(** True division; a zero divisor gives an infinity or NaN. *)
Definition div (a b : pyfloat) : pyfloat :=
  match a, b with
  | NaN, _ | _, NaN => NaN
  | Fin x, Fin y =>
      if Qzero y then (if Qzero x then NaN else Inf (Qneg x))
      else Fin (x / y)
  | Fin _, Inf _ => Fin 0
  | Inf s, Fin y => Inf (xorb s (Qneg y))
  | Inf _, Inf _ => NaN
  end.

(** [numpy.floor_divide]: the quotient rounded toward negative infinity;
    a zero divisor gives the true quotient, an infinite dividend NaN.  The
    floor is that of the quotient of the two values as they are held: it
    is the program's result when the operands are the 64-bit floats of the
    program, which a decimal fraction such as 0.1 is not. *)
Definition floor_divide (a b : pyfloat) : pyfloat :=
  match a, b with
  | NaN, _ | _, NaN => NaN
  | Fin x, Fin y =>
      if Qzero y then div a b else Fin (inject_Z (Qfloor (x / y)))
  | Fin x, Inf s =>
      if Qzero x then Fin 0
      else if Bool.eqb (Qneg x) s then Fin 0 else Fin (-1)
  | Inf _, _ => NaN
  end.

(** Comparisons; every ordered comparison with NaN is false. *)
Definition lt (a b : pyfloat) : bool :=
  match a, b with
  | NaN, _ | _, NaN => false
  | Fin x, Fin y => negb (Qle_bool y x)
  | Fin _, Inf s => negb s
  | Inf s, Fin _ => s
  | Inf s, Inf t => s && negb t
  end.

Definition gt (a b : pyfloat) : bool := lt b a.

Definition eq (a b : pyfloat) : bool :=
  match a, b with
  | Fin x, Fin y => Qeq_bool x y
  | Inf s, Inf t => Bool.eqb s t
  | _, _ => false
  end.

Definition ne (a b : pyfloat) : bool := negb (eq a b).

(** [numpy.sign] *)
Definition abs (a : pyfloat) : pyfloat :=
  match a with
  | Fin q => Fin (Qabs q)
  | Inf _ => Inf false
  | NaN => NaN
  end.

Definition sign (a : pyfloat) : pyfloat :=
  match a with
  | NaN => NaN
  | Inf s => if s then Fin (-1) else Fin 1
  | Fin q => if Qzero q then Fin 0 else if Qneg q then Fin (-1) else Fin 1
  end.

(** Conversion to an integer array element: the fraction is dropped.  The
    program converts finite values only, to 64-bit integers: values
    outside their range, which the conversion wraps, are not told apart
    here. *)
Definition to_int (a : pyfloat) : Z :=
  match a with
  | Fin q => Z.quot (Qnum q) (Zpos (Qden q))
  | _ => 0
  end.

End F.

(** ** Python's string built-ins *)

Module Py.

Definition chars (s : string) : list ascii := list_ascii_of_string s.
Definition str (l : list ascii) : string := string_of_list_ascii l.

(** White space as [str.strip()], [int()] and [float()] see it (ASCII). *)
Definition isspace (c : ascii) : bool :=
  let n := nat_of_ascii c in
  ((9 <=? n) && (n <=? 13) || (28 <=? n) && (n <=? 32))%nat.

Definition isdigit (c : ascii) : bool :=
  let n := nat_of_ascii c in ((48 <=? n) && (n <=? 57))%nat.

Definition digit (c : ascii) : Z := Z.of_nat (nat_of_ascii c) - 48.

Fixpoint lstrip_by (p : ascii -> bool) (l : list ascii) : list ascii :=
  match l with
  | c :: l' => if p c then lstrip_by p l' else l
  | [] => []
  end.

Definition strip_by (p : ascii -> bool) (l : list ascii) : list ascii :=
  rev (lstrip_by p (rev (lstrip_by p l))).

(** [s.strip()] *)
Definition strip (s : string) : string := str (strip_by isspace (chars s)).

Definition mem_char (set : list ascii) (c : ascii) : bool :=
  existsb (Ascii.eqb c) set.

(** [s.strip(cs)] *)
Definition strip_chars (s cs : string) : string :=
  str (strip_by (mem_char (chars cs)) (chars s)).

Definition lower_char (c : ascii) : ascii :=
  let n := nat_of_ascii c in
  if ((65 <=? n) && (n <=? 90))%nat then ascii_of_nat (n + 32) else c.

(** [s.lower()] *)
Definition lower (s : string) : string := str (map lower_char (chars s)).

Fixpoint is_prefix (p l : list ascii) : bool :=
  match p, l with
  | [], _ => true
  | a :: p', b :: l' => Ascii.eqb a b && is_prefix p' l'
  | _ :: _, [] => false
  end.

Fixpoint split_go (sep l : list ascii) (skip : nat) (cur : list ascii)
  : list (list ascii) :=
  match l with
  | [] => [rev cur]
  | c :: l' =>
      match skip with
      | S k => split_go sep l' k cur
      | O => if is_prefix sep l
             then rev cur :: split_go sep l' (List.length sep - 1) []
             else split_go sep l' O (c :: cur)
      end
  end.

(** [s.split(sep)]: an empty separator is a [ValueError]. *)
Definition split (s sep : string) : result (list string) :=
  match chars sep with
  | [] => Raise ValueError
  | sp => Ok (map str (split_go sp (chars s) O []))
  end.

Fixpoint find_go (sub l : list ascii) (pos : nat) : Z :=
  if is_prefix sub l then Z.of_nat pos
  else match l with
       | [] => -1
       | _ :: l' => find_go sub l' (S pos)
       end.

(** [s.find(sub, start)] for [start >= 0] *)
Definition find (s sub : string) (start : nat) : Z :=
  if (String.length s <? start)%nat then -1
  else find_go (chars sub) (skipn start (chars s)) start.

Fixpoint replace_go (old new l : list ascii) (skip : nat) : list ascii :=
  match l with
  | [] => []
  | c :: l' =>
      match skip with
      | S k => replace_go old new l' k
      | O => if is_prefix old l
             then new ++ replace_go old new l' (List.length old - 1)
             else c :: replace_go old new l' O
      end
  end.

Fixpoint intersperse (new l : list ascii) : list ascii :=
  match l with
  | [] => new
  | c :: l' => new ++ c :: intersperse new l'
  end.

(** [s.replace(old, new)] *)
Definition replace (s old new : string) : string :=
  match chars old with
  | [] => str (intersperse (chars new) (chars s))
  | o => str (replace_go o (chars new) (chars s) O)
  end.

(** [s[i:]] and [s[i:j]] for non-negative indices *)
Definition slice_from (s : string) (i : nat) : string :=
  str (skipn i (chars s)).
Definition slice (s : string) (i j : nat) : string :=
  str (skipn i (firstn j (chars s))).

(** [digit (["_"] digit)*]: the value read, the number of digits and the
    rest of the input. *)
Fixpoint digitpart_rest (l : list ascii) (acc : Z) (n : nat)
  : Z * nat * list ascii :=
  match l with
  | c :: l' =>
      if isdigit c then digitpart_rest l' (10 * acc + digit c) (S n)
      else if Ascii.eqb c "_" then
        match l' with
        | d :: l'' =>
            if isdigit d then digitpart_rest l'' (10 * acc + digit d) (S n)
            else (acc, n, l)
        | [] => (acc, n, l)
        end
      else (acc, n, l)
  | [] => (acc, n, l)
  end.

Definition digitpart (l : list ascii) : option (Z * nat * list ascii) :=
  match l with
  | c :: l' => if isdigit c then Some (digitpart_rest l' (digit c) 1%nat) else None
  | [] => None
  end.

(** An optional sign: [true] for a minus. *)
Definition sign (l : list ascii) : bool * list ascii :=
  match l with
  | c :: l' =>
      if Ascii.eqb c "-" then (true, l')
      else if Ascii.eqb c "+" then (false, l')
      else (false, l)
  | [] => (false, l)
  end.

(** [int(s)] in base ten *)
Definition int (s : string) : result Z :=
  let (neg, l) := sign (chars (strip s)) in
  match digitpart l with
  | Some (v, _, []) => Ok (if neg then - v else v)
  | _ => Raise ValueError
  end.

Definition ieq (l : list ascii) (w : string) : bool :=
  String.eqb (str (map lower_char l)) w.

(** [[digitpart] "." digitpart | digitpart ["."]]: all digits read as one
    integer and the number of digits after the point. *)
Definition number (l : list ascii) : option (Z * nat * list ascii) :=
  match digitpart l with
  | Some (ip, _, rest) =>
      match rest with
      | c :: rest' =>
          if Ascii.eqb c "." then
            match digitpart rest' with
            | Some (_, nf, rest'') =>
                Some (digitpart_rest rest' ip O)
            | None => Some (ip, O, rest')
            end
          else Some (ip, O, rest)
      | [] => Some (ip, O, rest)
      end
  | None =>
      match l with
      | c :: rest' => if Ascii.eqb c "." then digitpart rest' else None
      | [] => None
      end
  end.

(** [[("e" | "E") ["+" | "-"] digitpart]] *)
Definition exponent (l : list ascii) : option (Z * list ascii) :=
  match l with
  | c :: r =>
      if Ascii.eqb (lower_char c) "e" then
        let (eneg, r') := sign r in
        match digitpart r' with
        | Some (ev, _, r'') => Some (if eneg then - ev else ev, r'')
        | None => None
        end
      else Some (0, l)
  | [] => Some (0, l)
  end.

(** [float(s)] *)
Definition float (s : string) : result pyfloat :=
  let (neg, l) := sign (chars (strip s)) in
  if ieq l "inf" || ieq l "infinity" then Ok (Inf neg)
  else if ieq l "nan" then Ok NaN
  else
    match number l with
    | Some (m, nfrac, rest) =>
        match exponent rest with
        | Some (e, []) =>
            let q := (inject_Z m * Qpower (inject_Z 10) (e - Z.of_nat nfrac))%Q in
            Ok (Fin (Qred (if neg then - q else q)))
        | _ => Raise ValueError
        end
    | None => Raise ValueError
    end.

End Py.


(** ** The [datetime] library

    Naive date-times of the proleptic Gregorian calendar, with the ordinal
    arithmetic of the library. *)

Module Datetime.

Local Open Scope Z_scope.

Record datetime : Type := mk_datetime {
  year : Z; month : Z; day : Z;
  hour : Z; minute : Z; second : Z; microsecond : Z
}.

Record timedelta : Type := mk_timedelta {
  td_days : Z; td_seconds : Z; td_microseconds : Z
}.

Definition MINYEAR : Z := 1.
Definition MAXYEAR : Z := 9999.
Definition MAXORDINAL : Z := 3652059.

Definition is_leap (y : Z) : bool :=
  (y mod 4 =? 0) && (negb (y mod 100 =? 0) || (y mod 400 =? 0)).

Definition days_before_year (y : Z) : Z :=
  let y1 := y - 1 in y1 * 365 + y1 / 4 - y1 / 100 + y1 / 400.

Definition DAYS_IN_MONTH : list Z := [31; 28; 31; 30; 31; 30; 31; 31; 30; 31; 30; 31].

Definition days_in_month (y m : Z) : Z :=
  if (m =? 2) && is_leap y then 29
  else nth (Z.to_nat (m - 1)) DAYS_IN_MONTH 0.

Definition DAYS_BEFORE_MONTH : list Z :=
  [0; 31; 59; 90; 120; 151; 181; 212; 243; 273; 304; 334].

Definition days_before_month (y m : Z) : Z :=
  nth (Z.to_nat (m - 1)) DAYS_BEFORE_MONTH 0 +
  (if (2 <? m) && is_leap y then 1 else 0).

Definition ymd2ord (y m d : Z) : Z :=
  days_before_year y + days_before_month y m + d.

Definition DI400Y : Z := 146097.
Definition DI100Y : Z := 36524.
Definition DI4Y : Z := 1461.

Definition ord2ymd (ordinal : Z) : Z * Z * Z :=
  let n := ordinal - 1 in
  let n400 := n / DI400Y in
  let n := n mod DI400Y in
  let n100 := n / DI100Y in
  let n := n mod DI100Y in
  let n4 := n / DI4Y in
  let n := n mod DI4Y in
  let n1 := n / 365 in
  let n := n mod 365 in
  let y := n400 * 400 + 1 + n100 * 100 + n4 * 4 + n1 in
  if (n1 =? 4) || (n100 =? 4) then (y - 1, 12, 31)
  else
    let leapyear := (n1 =? 3) && (negb (n4 =? 24) || (n100 =? 3)) in
    let m := Z.shiftr (n + 50) 5 in
    let preceding :=
      nth (Z.to_nat (m - 1)) DAYS_BEFORE_MONTH 0 +
      (if (2 <? m) && leapyear then 1 else 0) in
    if n <? preceding then
      let m' := m - 1 in
      let preceding' :=
        preceding - (nth (Z.to_nat (m' - 1)) DAYS_IN_MONTH 0 +
                     (if (m' =? 2) && leapyear then 1 else 0)) in
      (y, m', n - preceding' + 1)
    else (y, m, n - preceding + 1).

(** [datetime(year, month, day)] *)
Definition make (y m d : Z) : result datetime :=
  if (MINYEAR <=? y) && (y <=? MAXYEAR) && (1 <=? m) && (m <=? 12) &&
     (1 <=? d) && (d <=? days_in_month y m)
  then Ok (mk_datetime y m d 0 0 0 0)
  else Raise ValueError.

Definition toordinal (t : datetime) : Z := ymd2ord (year t) (month t) (day t).

Definition US_PER_SECOND : Z := 1000000.
Definition US_PER_DAY : Z := 86400 * US_PER_SECOND.

Definition round_half_even (q : Q) : Z :=
  let f := Qfloor q in
  match (q - inject_Z f ?= 1 # 2)%Q with
  | Lt => f
  | Gt => f + 1
  | Eq => if Z.even f then f else f + 1
  end.

(** A duration of [us] microseconds in normal form. *)
Definition of_microseconds (us : Z) : result timedelta :=
  let d := us / US_PER_DAY in
  let r := us mod US_PER_DAY in
  if 999999999 <? Z.abs d then Raise OverflowError
  else Ok (mk_timedelta d (r / US_PER_SECOND) (r mod US_PER_SECOND)).

(** [timedelta(days=x)] for a float [x]: the duration is rounded to the
    nearest microsecond, halves to even. *)
Definition timedelta_of_days (x : pyfloat) : result timedelta :=
  match x with
  | NaN => Raise ValueError
  | Inf _ => Raise OverflowError
  | Fin q => of_microseconds (round_half_even (q * inject_Z US_PER_DAY)%Q)
  end.

(** [t + delta] *)
Definition add (t : datetime) (delta : timedelta) : result datetime :=
  let us :=
    ((hour t * 3600 + minute t * 60 + second t + td_seconds delta) * US_PER_SECOND
     + microsecond t + td_microseconds delta) in
  let days := toordinal t + td_days delta + us / US_PER_DAY in
  let r := us mod US_PER_DAY in
  let secs := r / US_PER_SECOND in
  if (0 <? days) && (days <=? MAXORDINAL) then
    let '(y, m, d) := ord2ymd days in
    Ok (mk_datetime y m d (secs / 3600) ((secs mod 3600) / 60) (secs mod 60)
                    (r mod US_PER_SECOND))
  else Raise OverflowError.

Definition key (t : datetime) : list Z :=
  [year t; month t; day t; hour t; minute t; second t; microsecond t].

Fixpoint lex_compare (a b : list Z) : comparison :=
  match a, b with
  | x :: a', y :: b' =>
      match x ?= y with
      | Eq => lex_compare a' b'
      | c => c
      end
  | [], [] => Eq
  | [], _ :: _ => Lt
  | _ :: _, [] => Gt
  end.

Definition compare (a b : datetime) : comparison := lex_compare (key a) (key b).

Definition ge (a b : datetime) : bool :=
  match compare a b with Lt => false | _ => true end.
Definition le (a b : datetime) : bool :=
  match compare a b with Gt => false | _ => true end.
Definition eqb (a b : datetime) : bool :=
  match compare a b with Eq => true | _ => false end.

End Datetime.

(** ** Module-level definitions of [mygdal.py] *)

Definition __error_stacks_length__ : string := "DiffStacksLength".
Definition __error_stacks_length_msg__ : string :=
  "The tif stacks' length are different.".
Definition __error_missing_file__ : string := "MissingFile".
Definition __error_missing_file_msg__ : string :=
  "The file %s does not exist in the file system.".
Definition __error_time_line_length__ : string := "WrongTimeLineLength".
Definition __error_time_line_length_msg__ : string :=
  "Time line length (%s) is different of stack time series length (%s).".
Definition __error_outbounds__ : string := "OutOfBounds".
Definition __error_outbounds_msg__ : string :=
  "Coordinate/pixel index out of bounds.".
Definition __error_required_tag__ : string := "RequiredTagMissing".
Definition __error_required_tag_msg__ : string :=
  "Tag '%s' is required but is missing in your file.".
Definition __error_invalid_bbox__ : string := "InvalidBoundBox".
Definition __error_invalid_bbox_msg__ : string := "Invalid bound box.".
Definition __error_bands_tags__ : string := "BandsTagsError".
Definition __error_bands_tags_msg__ : string :=
  "bands_paths and bands_factors tags must have the same length.".

(** [template % args] for a template whose only directives are [%s]. *)
Fixpoint format_go (t : list ascii) (args : list string) : list ascii :=
  match t with
  | c :: t' =>
      match t', args with
      | d :: t'', a :: args' =>
          if Ascii.eqb c "%" && Ascii.eqb d "s"
          then Py.chars a ++ format_go t'' args'
          else c :: format_go t' args
      | _, _ => c :: format_go t' args
      end
  | [] => []
  end.

Definition format (template : string) (args : list string) : string :=
  Py.str (format_go (Py.chars template) args).

Definition str_of_nat (n : nat) : string :=
  NilZero.string_of_uint (Nat.to_uint n).

(** A two-element array, or an array of rows of two elements. *)
Inductive ndarray (A : Type) : Type :=
| Vec (p : A * A)
| Rows (l : list (A * A)).

Arguments Vec {A} p.
Arguments Rows {A} l.

Definition len {A : Type} (a : ndarray A) : nat :=
  match a with
  | Vec _ => 2%nat
  | Rows l => List.length l
  end.

(** An operation applied to every row (broadcasting a pair). *)
Definition map_rows {A B : Type} (f : A * A -> B * B) (a : ndarray A) : ndarray B :=
  match a with
  | Vec p => Vec (f p)
  | Rows l => Rows (map f l)
  end.

(** [numpy.any] over the elements of a boolean array. *)
Definition any (a : ndarray bool) : bool :=
  match a with
  | Vec (b1, b2) => b1 || b2
  | Rows l => existsb (fun p => fst p || snd p) l
  end.

Definition ord_pair {A : Type} (i j : A) : A * A := (i, j).

(** Python values: what tags and table cells hold. *)
#[warnings="-register-all"]
Inductive pyval : Type :=
| VNone
| VBool (b : bool)
| VInt (z : Z)
| VFloat (f : pyfloat)
| VStr (s : string)
| VDate (d : Datetime.datetime)
| VList (l : list pyval).

(** [bool(v)] *)
Definition truthy (v : pyval) : bool :=
  match v with
  | VNone => false
  | VBool b => b
  | VInt z => negb (z =? 0)
  | VFloat (Fin q) => negb (Qzero q)
  | VFloat _ => true
  | VStr s => negb (String.eqb s "")
  | VDate _ => true
  | VList l => match l with [] => false | _ => true end
  end.

(** [v == 0] *)
Definition eq_zero (v : pyval) : bool :=
  match v with
  | VBool b => negb b
  | VInt z => z =? 0
  | VFloat (Fin q) => Qzero q
  | _ => false
  end.

(** [float(v)] *)
Definition float_of (v : pyval) : result pyfloat :=
  match v with
  | VStr s => Py.float s
  | VFloat f => Ok f
  | VInt z => Ok (F.of_int z)
  | VBool b => Ok (F.of_int (if b then 1 else 0))
  | VNone | VDate _ | VList _ => Raise TypeError
  end.

(** [v != s] for a string [s] *)
Definition ne_str (v : pyval) (s : string) : bool :=
  match v with
  | VStr s' => negb (String.eqb s' s)
  | _ => true
  end.

(** [value.replace(old, new)] *)
Definition replace_of (value old : pyval) (new : string) : result string :=
  match value with
  | VStr s =>
      match old with
      | VStr o => Ok (Py.replace s o new)
      | _ => Raise TypeError
      end
  | _ => Raise AttributeError
  end.

Definition to_float (value decimal : pyval) : result pyfloat :=
  _ <- (if ne_str decimal "."
        then replace_of value decimal "."      (* the new string is dropped *)
        else Ok "") ;;
  float_of value.

(** ** The collaborators *)

Record RasterBand : Type := {
  GetNoDataValue : option pyfloat;
  (* the value of the band at a pixel *)
  ReadBand : Z -> Z -> pyfloat
}.

Inductive GeoTransform : Type :=
| GT (c0 c1 c2 c3 c4 c5 : pyfloat).

Definition gt_index (g : GeoTransform) (i : nat) : pyfloat :=
  let '(GT c0 c1 c2 c3 c4 c5) := g in
  match i with
  | 0%nat => c0 | 1%nat => c1 | 2%nat => c2
  | 3%nat => c3 | 4%nat => c4 | _ => c5
  end.

Record Dataset : Type := {
  GetProjectionRef : string;
  RasterXSize : Z;
  RasterYSize : Z;
  GetGeoTransform : GeoTransform;
  RasterBands : list RasterBand
}.

(** [dataset.ReadAsArray(x, y, xsize=1, ysize=1)], one value per band *)
Definition ReadAsArray (d : Dataset) (x y : Z) : list pyfloat :=
  map (fun b => ReadBand b x y) (RasterBands d).

Record environment : Type := {
  (* open(filename): the lines of a text file, each with its line end *)
  open_file : string -> option (list string);
  (* gdal.Open(filename) *)
  gdal_Open : string -> option Dataset;
  (* datetime.strptime(value, format) *)
  strptime : string -> string -> option Datetime.datetime;
  (* the points transformed from one reference system to another *)
  TransformPoints : string -> string -> list (pyfloat * pyfloat) -> list (pyfloat * pyfloat)
}.

Definition to_date (E : environment) (value date_format : pyval)
  : result Datetime.datetime :=
  match value, date_format with
  | VStr v, VStr f => of_option ValueError (strptime E v f)
  | _, _ => Raise TypeError
  end.

(** ** One-dimensional numpy arrays *)

Fixpoint mapM2 {A B C : Type} (f : A -> B -> result C) (a : list A) (b : list B)
  : result (list C) :=
  match a, b with
  | x :: a', y :: b' => z <- f x y ;; zs <- mapM2 f a' b' ;; Ok (z :: zs)
  | _, _ => Ok []
  end.

(** An element-wise operation: the lengths agree, or one array has a single
    element, which is paired with every element of the other. *)
Definition broadcast2 {A B C : Type} (f : A -> B -> result C)
  (a : list A) (b : list B) : result (list C) :=
  if (List.length a =? List.length b)%nat then mapM2 f a b
  else match a, b with
       | [x], _ => mapM (f x) b
       | _, [y] => mapM (fun x => f x y) a
       | _, _ => Raise ValueError
       end.

Fixpoint select_go {A : Type} (a : list A) (mask : list bool) : list A :=
  match a, mask with
  | x :: a', m :: mask' => if m then x :: select_go a' mask' else select_go a' mask'
  | _, _ => []
  end.

(** [a[mask]] for a boolean mask *)
Definition select {A : Type} (a : list A) (mask : list bool) : result (list A) :=
  if (List.length a =? List.length mask)%nat then Ok (select_go a mask)
  else Raise IndexError.

(** ** numpy's random generator *)

(** The generator is global: [numpy.random.seed] sets its state and
    [numpy.random.rand(n, 2)] draws [n] rows of two numbers and moves it on.
    States are named by numbers. *)
Record generator : Type := {
  seeded : Z -> nat;
  rand : nat -> nat -> list (Q * Q) * nat
}.

(** [if seed: numpy.random.seed(seed)], for [seed] an integer or [None];
    the generator takes seeds from 0 to 2**32 - 1. *)
Definition seed_generator (G : generator) (state : nat) (seed : option Z)
  : result nat :=
  match seed with
  | Some s =>
      if negb (s =? 0) then
        if (0 <=? s) && (s <? 2 ^ 32) then Ok (seeded G s) else Raise ValueError
      else Ok state
  | None => Ok state
  end.

(** ** class Mygdal *)

Module Mygdal.

(* GeoTransform Constants Indexes *)
Definition GT_X : nat := 0.
Definition GT_Y : nat := 1.
Definition GT_X_UL : nat := 0.
Definition GT_X_RES : nat := 1.
Definition GT_X_SKEW : nat := 2.
Definition GT_Y_UL : nat := 3.
Definition GT_Y_SKEW : nat := 4.
Definition GT_Y_RES : nat := 5.

Record t : Type := {
  dataset : option Dataset;
  srs_wkt : string;
  width : Z;
  height : Z;
  size : Z * Z;
  geo_resolution : pyfloat * pyfloat;
  geo_skew : pyfloat * pyfloat;
  geo_ul : pyfloat * pyfloat;
  geo_lr : pyfloat * pyfloat;
  geo_size : pyfloat * pyfloat;
  geo_size_abs : pyfloat * pyfloat;
  values_nodata : list (option pyfloat)
}.

Definition pair_op {A B C : Type} (f : A -> B -> C) (a : A * A) (b : B * B) : C * C :=
  (f (fst a) (fst b), f (snd a) (snd b)).

Definition pixel_float (p : Z * Z) : pyfloat * pyfloat :=
  (F.of_int (fst p), F.of_int (snd p)).

(** One row of [geo_ul + geo_resolution * pixels + geo_skew * pixels]. *)
Definition pixel_to_geoloc (ul res skew : pyfloat * pyfloat) (p : Z * Z)
  : pyfloat * pyfloat :=
  pair_op F.add (pair_op F.add ul (pair_op F.mul res (pixel_float p)))
                (pair_op F.mul skew (pixel_float p)).

Definition pixels_to_geolocs (self : t) (pixels : option (ndarray Z))
  : ndarray pyfloat :=
  match pixels with
  | Some px =>
      if (0 <? len px)%nat
      then map_rows (pixel_to_geoloc (geo_ul self) (geo_resolution self) (geo_skew self)) px
      else Rows []
  | None => Rows []
  end.

Definition __init__ (E : environment) (filename : string) : result t :=
  match gdal_Open E filename with
  | None =>
      Raise (Exception __error_missing_file__
                       (format __error_missing_file_msg__ [filename]))
  | Some ds =>
      let w := RasterXSize ds in
      let h := RasterYSize ds in
      let geo_transform := GetGeoTransform ds in
      let res := ord_pair (gt_index geo_transform GT_X_RES)
                          (gt_index geo_transform GT_Y_RES) in
      let skew := ord_pair (gt_index geo_transform GT_Y_SKEW)
                           (gt_index geo_transform GT_X_SKEW) in
      let ul := ord_pair (gt_index geo_transform GT_X_UL)
                         (gt_index geo_transform GT_Y_UL) in
      (* pixels_to_geolocs(ord_pair(width - 1, height - 1)) *)
      let lr := pixel_to_geoloc ul res skew (ord_pair (w - 1) (h - 1)) in
      let gsize := pair_op F.sub lr ul in
      Ok {| dataset := Some ds;
            srs_wkt := GetProjectionRef ds;
            width := w;
            height := h;
            size := (w, h);
            geo_resolution := res;
            geo_skew := skew;
            geo_ul := ul;
            geo_lr := lr;
            geo_size := gsize;
            geo_size_abs := (F.abs (fst gsize), F.abs (snd gsize));
            values_nodata := map GetNoDataValue (RasterBands ds) |}
  end.

Definition close_dataset (self : t) : t :=
  {| dataset := None;
     srs_wkt := srs_wkt self; width := width self; height := height self;
     size := size self; geo_resolution := geo_resolution self;
     geo_skew := geo_skew self; geo_ul := geo_ul self; geo_lr := geo_lr self;
     geo_size := geo_size self; geo_size_abs := geo_size_abs self;
     values_nodata := values_nodata self |}.

Definition sign_pair (p : pyfloat * pyfloat) : pyfloat * pyfloat :=
  (F.sign (fst p), F.sign (snd p)).

Definition are_valid_geolocs (self : t) (geolocs : ndarray pyfloat) : bool :=
  let lower := pair_op F.mul (geo_ul self) (sign_pair (geo_resolution self)) in
  let upper := pair_op F.mul (geo_lr self) (sign_pair (geo_resolution self)) in
  any (map_rows (fun g => pair_op andb (pair_op F.lt g lower) (pair_op F.gt g upper))
                geolocs).

Definition are_valid_pixels (self : t) (pixels : ndarray Z) : bool :=
  any (map_rows (fun p => pair_op andb (pair_op Z.ltb p (0, 0))
                                       (pair_op Z.gtb p (size self)))
                pixels).

(** [a[~numpy.isfinite(a)] = 0] on one element *)
Definition zero_unless_finite (a : pyfloat) : pyfloat :=
  if F.isfinite a then a else Fin 0.

(** One row of [geolocs_to_pixels]. *)
Definition geoloc_to_pixel (self : t) (g : pyfloat * pyfloat) : Z * Z :=
  let result := pair_op F.sub g (geo_ul self) in
  let result_geo_resolution := pair_op F.floor_divide result (geo_resolution self) in
  let result_geo_skew := pair_op F.floor_divide result (geo_skew self) in
  let result_geo_resolution :=
    (zero_unless_finite (fst result_geo_resolution),
     zero_unless_finite (snd result_geo_resolution)) in
  let result_geo_skew :=
    (zero_unless_finite (fst result_geo_skew),
     zero_unless_finite (snd result_geo_skew)) in
  let sum := pair_op F.add result_geo_resolution result_geo_skew in
  (F.to_int (fst sum), F.to_int (snd sum)).

Definition geolocs_to_pixels (self : t) (geolocs : option (ndarray pyfloat))
  : ndarray Z :=
  match geolocs with
  | Some g =>
      if (0 <? len g)%nat then map_rows (geoloc_to_pixel self) g else Rows []
  | None => Rows []
  end.

Definition read_pixel_values (self : t) (pixel : Z * Z) : result (list pyfloat) :=
  match dataset self with
  | Some ds => Ok (ReadAsArray ds (fst pixel) (snd pixel))
  | None => Raise AttributeError
  end.

(** [value != nodata]; a band without a no-data value masks nothing. *)
Definition ne_nodata (v : pyfloat) (nodata : option pyfloat) : bool :=
  match nodata with
  | Some n => F.ne v n
  | None => true
  end.

Definition mask_nodata_pixel_bands (self : t) (pixel_bands : list pyfloat)
  : result (list bool) :=
  broadcast2 (fun v n => Ok (ne_nodata v n)) pixel_bands (values_nodata self).

Definition reproject_geolocs_from (E : environment) (self : t)
  (geolocs : list (pyfloat * pyfloat)) (geo_srs_wkt_from : string)
  : list (pyfloat * pyfloat) :=
  if String.eqb (srs_wkt self) geo_srs_wkt_from then geolocs
  else TransformPoints E geo_srs_wkt_from (srs_wkt self) geolocs.

(** The four checks of the sampling methods, on a pair. *)
Definition any_pair (p : bool * bool) : bool := any (Vec p).

(** [get_random_geolocs]; a box corner is [None] or a list of two numbers
    (a numpy array makes [if bbox_ul] itself an error and is not
    represented).  The result comes with the state the generator is left
    in. *)
Definition get_random_geolocs (G : generator) (state : nat) (self : t) (n : nat)
  (bbox_ul bbox_lr : option (pyfloat * pyfloat)) (seed : option Z)
  : result (list (pyfloat * pyfloat)) * nat :=
  match seed_generator G state seed with
  | Raise e => (Raise e, state)
  | Ok state =>
      let ul := geo_ul self in
      let lr := geo_lr self in
      let sign_ := sign_pair (geo_resolution self) in
      if any_pair (pair_op F.gt (pair_op F.mul ul sign_) (pair_op F.mul lr sign_))
      then (Raise (Exception __error_invalid_bbox__ __error_invalid_bbox_msg__), state)
      else
        match bbox_ul with
        | Some b =>
            if any_pair (pair_op F.lt b (pair_op F.mul ul sign_))
            then (Raise (Exception __error_outbounds__ __error_outbounds_msg__), state)
            else
              match bbox_lr with
              | Some b' =>
                  if any_pair (pair_op F.gt b' (pair_op F.mul lr sign_))
                  then (Raise (Exception __error_outbounds__ __error_outbounds_msg__),
                        state)
                  else (* lr - ul on two lists *)
                    (Raise TypeError, snd (rand G state n))
              | None =>
                  let (rows, state') := rand G state n in
                  (Ok (map (fun r =>
                              pair_op F.add b
                                (pair_op F.mul (Fin (fst r), Fin (snd r))
                                               (pair_op F.sub lr b))) rows),
                   state')
              end
        | None =>
            match bbox_lr with
            | Some b' =>
                if any_pair (pair_op F.gt b' (pair_op F.mul lr sign_))
                then (Raise (Exception __error_outbounds__ __error_outbounds_msg__), state)
                else
                  let (rows, state') := rand G state n in
                  (Ok (map (fun r =>
                              pair_op F.add ul
                                (pair_op F.mul (Fin (fst r), Fin (snd r))
                                               (pair_op F.sub b' ul))) rows),
                   state')
            | None =>
                let (rows, state') := rand G state n in
                (Ok (map (fun r =>
                            pair_op F.add ul
                              (pair_op F.mul (Fin (fst r), Fin (snd r))
                                             (pair_op F.sub lr ul))) rows),
                 state')
            end
        end
  end.

(** One row of [ul + numpy.array(rand * (lr - ul), dtype=int)]. *)
Definition random_pixel (ul lr : Z * Z) (r : Q * Q) : Z * Z :=
  pair_op Z.add ul
    (F.to_int (F.mul (Fin (fst r)) (F.of_int (fst lr - fst ul))),
     F.to_int (F.mul (Fin (snd r)) (F.of_int (snd lr - snd ul)))).

(** [get_random_pixels]; a box corner is [None] or a list of two integers. *)
Definition get_random_pixels (G : generator) (state : nat) (self : t) (n : nat)
  (bbox_ul bbox_lr : option (Z * Z)) (seed : option Z)
  : result (list (Z * Z)) * nat :=
  match seed_generator G state seed with
  | Raise e => (Raise e, state)
  | Ok state =>
      let ul := (0, 0) in
      let lr := pair_op Z.sub (size self) (1, 1) in
      if any_pair (pair_op Z.gtb ul lr)
      then (Raise (Exception __error_invalid_bbox__ __error_invalid_bbox_msg__), state)
      else
        match bbox_ul with
        | Some b =>
            if any_pair (pair_op Z.ltb b ul)
            then (Raise (Exception __error_outbounds__ __error_outbounds_msg__), state)
            else
              match bbox_lr with
              | Some b' =>
                  if any_pair (pair_op Z.gtb b' lr)
                  then (Raise (Exception __error_outbounds__ __error_outbounds_msg__),
                        state)
                  else (* lr - ul on two lists *)
                    (Raise TypeError, snd (rand G state n))
              | None =>
                  let (rows, state') := rand G state n in
                  (Ok (map (random_pixel b lr) rows), state')
              end
        | None =>
            match bbox_lr with
            | Some b' =>
                if any_pair (pair_op Z.gtb b' lr)
                then (Raise (Exception __error_outbounds__ __error_outbounds_msg__), state)
                else
                  let (rows, state') := rand G state n in
                  (Ok (map (random_pixel ul b') rows), state')
            | None =>
                let (rows, state') := rand G state n in
                (Ok (map (random_pixel ul lr) rows), state')
            end
        end
  end.

End Mygdal.

(** ** Dictionaries and lists as Python indexes them *)

Module Dict.

Definition t : Type := list (string * pyval).

Fixpoint lookup (d : t) (k : string) : option pyval :=
  match d with
  | (k', v) :: d' => if String.eqb k' k then Some v else lookup d' k
  | [] => None
  end.

(** [d[k]] *)
Definition get (d : t) (k : string) : result pyval :=
  of_option (KeyError k) (lookup d k).

(** [d[k] = v]: a present key keeps its place, a new key goes last. *)
Fixpoint set (d : t) (k : string) (v : pyval) : t :=
  match d with
  | (k', v') :: d' =>
      if String.eqb k' k then (k', v) :: d' else (k', v') :: set d' k v
  | [] => [(k, v)]
  end.

(** [k in d] *)
Definition mem (d : t) (k : string) : bool :=
  match lookup d k with Some _ => true | None => false end.

End Dict.

(** [l[i]] with Python's negative indexes. *)
Definition position {A : Type} (l : list A) (i : Z) : option nat :=
  let n := Z.of_nat (List.length l) in
  if (0 <=? i) && (i <? n) then Some (Z.to_nat i)
  else if (- n <=? i) && (i <? 0) then Some (Z.to_nat (n + i))
  else None.

Definition getitem {A : Type} (l : list A) (i : Z) : result A :=
  match position l i with
  | Some k => of_option IndexError (nth_error l k)
  | None => Raise IndexError
  end.

Fixpoint replace_nth {A : Type} (l : list A) (k : nat) (a : A) : list A :=
  match l, k with
  | _ :: l', O => a :: l'
  | x :: l', S k' => x :: replace_nth l' k' a
  | [], _ => []
  end.

(** [l[i] = a] *)
Definition setitem {A : Type} (l : list A) (i : Z) (a : A) : result (list A) :=
  match position l i with
  | Some k => Ok (replace_nth l k a)
  | None => Raise IndexError
  end.

(** A list index held by a tag. *)
Definition as_index (v : pyval) : result Z :=
  match v with
  | VInt z => Ok z
  | VBool b => Ok (if b then 1 else 0)
  | _ => Raise TypeError
  end.

(** ** class MyTCSV *)

Module MyTCSV.

Definition TAG_DELIMITER : string := "delimiter".
Definition TAG_HAS_HEADER : string := "has_header".
Definition TAG_DECIMAL : string := "decimal_point".
Definition TAG_QUOTE : string := "quote".

Record t : Type := {
  file : list string;              (* the lines not read yet *)
  __row__ : option string;
  data : list (list pyval);        (* one list per column *)
  field_names : list string;
  tags : Dict.t
}.

(** The methods a table type overrides; [__init__] and [fetch_data] call
    those of the table being built. *)
Record hooks : Type := {
  transform_tag_value : t -> string -> pyval -> result pyval;
  transform_row_data : t -> list string -> result (list pyval)
}.

Definition with_tags (self : t) (d : Dict.t) : t :=
  {| file := file self; __row__ := __row__ self; data := data self;
     field_names := field_names self; tags := d |}.

Definition with_data (self : t) (d : list (list pyval)) : t :=
  {| file := file self; __row__ := __row__ self; data := d;
     field_names := field_names self; tags := tags self |}.

Definition get_tag_value (self : t) (tag_name : string) (default : pyval)
  : result pyval :=
  match Dict.lookup (tags self) tag_name with
  | Some v => Ok v
  | None =>
      if truthy default || eq_zero default then Ok default
      else Raise (Exception __error_required_tag__
                            (format __error_required_tag_msg__ [tag_name]))
  end.

Definition has_tag_name (self : t) (tag_name : string) : bool :=
  Dict.mem (tags self) tag_name.

(** [int(v)] *)
Definition int_of (v : pyval) : result Z :=
  match v with
  | VStr s => Py.int s
  | VInt z => Ok z
  | VBool b => Ok (if b then 1 else 0)
  | VFloat (Fin q) => Ok (F.to_int (Fin q))
  | VFloat (Inf _) => Raise OverflowError
  | VFloat NaN => Raise ValueError
  | VNone | VDate _ | VList _ => Raise TypeError
  end.

Fixpoint index_go (l : list string) (x : string) (pos : Z) : result Z :=
  match l with
  | y :: l' => if String.eqb y x then Ok pos else index_go l' x (pos + 1)
  | [] => Raise ValueError
  end.

(** [self.field_names.index(v)] *)
Definition index (l : list string) (v : pyval) : result Z :=
  match v with
  | VStr s => index_go l s 0
  | _ => Raise ValueError
  end.

Definition resolve_field_ref (self : t) (field_ref : pyval) : result Z :=
  has_header <- Dict.get (tags self) TAG_HAS_HEADER ;;
  if truthy has_header then
    match int_of field_ref with
    | Raise ValueError => index (field_names self) field_ref
    | r => r
    end
  else int_of field_ref.

(** [s.split(v)] and [s.strip(v)] for a tag value [v] (never [None]). *)
Definition split_by (s : string) (v : pyval) : result (list string) :=
  match v with
  | VStr sep => Py.split s sep
  | _ => Raise TypeError
  end.

Definition strip_by (s : string) (v : pyval) : result string :=
  match v with
  | VStr cs => Ok (Py.strip_chars s cs)
  | _ => Raise TypeError
  end.

Fixpoint __fetch_tags_loop (lines : list string) (row : option string) (tgs : Dict.t)
  : result (list string * option string * Dict.t) :=
  match lines with
  | [] => Ok ([], row, tgs)
  | line :: rest =>
      let r := Py.strip line in
      match Py.chars r with
      | [] => Raise IndexError                      (* self.__row__[0] *)
      | c :: _ =>
          if Ascii.eqb c "#" then
            let tag_index := Py.find r "=" 1 in
            if negb (tag_index =? -1) then
              let tag_name := Py.strip (Py.slice r 1 (Z.to_nat tag_index)) in
              let tag_value := Py.strip (Py.slice_from r (Z.to_nat (tag_index + 1))) in
              __fetch_tags_loop rest (Some r) (Dict.set tgs tag_name (VStr tag_value))
            else __fetch_tags_loop rest (Some r) tgs
          else Ok (rest, Some r, tgs)
      end
  end.

Definition __fetch_tags__ (self : t) : result t :=
  '(rest, row, tgs) <- __fetch_tags_loop (file self) (__row__ self) [] ;;
  Ok {| file := rest; __row__ := row; data := data self;
        field_names := field_names self; tags := tgs |}.

(** [for key, value in self.tags.items(): self.tags[key] = ...] *)
Fixpoint transform_tags (H : hooks) (items : list (string * pyval)) (self : t)
  : result t :=
  match items with
  | [] => Ok self
  | (key, value) :: items' =>
      v <- transform_tag_value H self key value ;;
      transform_tags H items' (with_tags self (Dict.set (tags self) key v))
  end.

Definition __prepare_data_fetch__ (H : hooks) (self : t) : result t :=
  row_text <- of_option AttributeError (__row__ self) ;;
  delimiter <- Dict.get (tags self) TAG_DELIMITER ;;
  row <- split_by row_text delimiter ;;
  has_header <- Dict.get (tags self) TAG_HAS_HEADER ;;
  has_header_lower <- match has_header with
                      | VStr s => Ok (Py.lower s)
                      | _ => Raise AttributeError
                      end ;;
  self <- (if String.eqb has_header_lower "true" then
             quote <- Dict.get (tags self) TAG_QUOTE ;;
             names <- mapM (fun value => strip_by (Py.strip value) quote) row ;;
             match file self with
             | line :: rest =>                       (* next(self.file) *)
                 Ok {| file := rest; __row__ := Some line; data := data self;
                       field_names := field_names self ++ names;
                       tags := tags self |}
             | [] =>                                 (* StopIteration *)
                 Ok {| file := []; __row__ := Some ""; data := data self;
                       field_names := field_names self ++ names;
                       tags := tags self |}
             end
           else Ok self) ;;
  transform_tags H (tags self) self.

Definition __init__ (H : hooks) (E : environment) (filename : string)
  (delimiter has_header decimal quote : pyval) : result t :=
  lines <- of_option (OSError filename) (open_file E filename) ;;
  let self := {| file := lines; __row__ := None; data := [];
                 field_names := []; tags := [] |} in
  self <- __fetch_tags__ self ;;
  v <- get_tag_value self TAG_DELIMITER delimiter ;;
  let self := with_tags self (Dict.set (tags self) TAG_DELIMITER v) in
  v <- get_tag_value self TAG_HAS_HEADER has_header ;;
  let self := with_tags self (Dict.set (tags self) TAG_HAS_HEADER v) in
  v <- get_tag_value self TAG_DECIMAL decimal ;;
  let self := with_tags self (Dict.set (tags self) TAG_DECIMAL v) in
  v <- get_tag_value self TAG_QUOTE quote ;;
  let self := with_tags self (Dict.set (tags self) TAG_QUOTE v) in
  __prepare_data_fetch__ H self.

(** The defaults of [__init__]. *)
Definition default_delimiter : pyval := VStr ",".
Definition default_has_header : pyval := VStr "False".
Definition default_decimal : pyval := VStr ".".
Definition default_quote : pyval := VStr (String (ascii_of_nat 34) "").

Fixpoint append_row (columns : list (list pyval)) (row : list pyval)
  : result (list (list pyval)) :=
  match row, columns with
  | [], _ => Ok columns
  | c :: row', col :: columns' =>
      rest <- append_row columns' row' ;; Ok ((col ++ [c]) :: rest)
  | _ :: _, [] => Raise IndexError
  end.

Definition __process_row_data__ (H : hooks) (self : t) : result t :=
  row_text <- of_option AttributeError (__row__ self) ;;
  delimiter <- Dict.get (tags self) TAG_DELIMITER ;;
  fields <- split_by row_text delimiter ;;
  row <- transform_row_data H self fields ;;
  if (0 <? List.length (data self))%nat then
    d <- append_row (data self) row ;; Ok (with_data self d)
  else Ok (with_data self (map (fun c => [c]) row)).

Fixpoint fetch_rows (H : hooks) (lines : list string) (self : t) : result t :=
  match lines with
  | [] => Ok self
  | line :: rest =>
      let self := {| file := rest; __row__ := Some (Py.strip line);
                     data := data self; field_names := field_names self;
                     tags := tags self |} in
      self <- __process_row_data__ H self ;;
      fetch_rows H rest self
  end.

Definition fetch_data (H : hooks) (self : t) : result t :=
  self <- __process_row_data__ H self ;;
  fetch_rows H (file self) self.

Definition __transform_tag_value__ (self : t) (tag_name tag_value : pyval)
  : result pyval :=
  match tag_name with
  | VStr name =>
      if String.eqb name TAG_HAS_HEADER
      then Ok (VBool (String.eqb (Py.lower name) "true"))
      else Ok tag_value
  | _ => Ok tag_value
  end.

Fixpoint strip_fields (fields : list string) (quote : result pyval)
  : result (list string) :=
  match fields with
  | [] => Ok []
  | f :: fields' =>
      q <- quote ;;
      f' <- strip_by (Py.strip f) q ;;
      rest <- strip_fields fields' quote ;;
      Ok (f' :: rest)
  end.

Definition __transform_row_data__ (self : t) (fields : list string)
  : result (list string) :=
  strip_fields fields (Dict.get (tags self) TAG_QUOTE).

(** The table type [MyTCSV] itself. *)
Definition methods : hooks :=
  {| transform_tag_value := fun self name value =>
       __transform_tag_value__ self (VStr name) value;
     transform_row_data := fun self fields =>
       row <- __transform_row_data__ self fields ;; Ok (map VStr row) |}.

(** Keys of a dictionary: [a == b] on hashable values. *)
Definition key_number (v : pyval) : option pyfloat :=
  match v with
  | VFloat f => Some f
  | VInt z => Some (F.of_int z)
  | VBool b => Some (F.of_int (if b then 1 else 0))
  | _ => None
  end.

Definition key_eqb (a b : pyval) : bool :=
  match a, b with
  | VStr x, VStr y => String.eqb x y
  | VDate x, VDate y => Datetime.eqb x y
  | VNone, VNone => true
  | _, _ =>
      match key_number a, key_number b with
      | Some x, Some y => F.eq x y
      | _, _ => false
      end
  end.

(** [result[key] = numpy.append(result[key], i)] for a key of the
    dictionary, [result[key] = numpy.array([i])] for a new one. *)
Fixpoint group_add (result_ : list (pyval * list nat)) (key : pyval) (i : nat)
  : list (pyval * list nat) :=
  match result_ with
  | (k, indexes) :: rest =>
      if key_eqb k key then (k, indexes ++ [i]) :: rest
      else (k, indexes) :: group_add rest key i
  | [] => [(key, [i])]
  end.

Fixpoint group_rows (column : list pyval) (i : nat) (result_ : list (pyval * list nat))
  : result (list (pyval * list nat)) :=
  match column with
  | [] => Ok result_
  | key :: column' =>
      match key with
      | VList _ => Raise TypeError                 (* a list is not hashable *)
      | _ => group_rows column' (S i) (group_add result_ key i)
      end
  end.

Definition get_data_key_indexes (self : t) (field_ref : pyval)
  : result (list (pyval * list nat)) :=
  field <- resolve_field_ref self field_ref ;;
  column <- getitem (data self) field ;;
  group_rows column O [].

End MyTCSV.

(** ** Comparisons of Python values *)

Definition as_number (v : pyval) : option pyfloat :=
  match v with
  | VFloat f => Some f
  | VInt z => Some (F.of_int z)
  | VBool b => Some (F.of_int (if b then 1 else 0))
  | _ => None
  end.

(** [a >= b] *)
Definition py_ge (a b : pyval) : result bool :=
  match a, b with
  | VDate x, VDate y => Ok (Datetime.ge x y)
  | VStr x, VStr y => Ok (String.leb y x)
  | _, _ =>
      match as_number a, as_number b with
      | Some x, Some y => Ok (F.gt x y || F.eq x y)
      | _, _ => Raise TypeError
      end
  end.

(** [a <= b] *)
Definition py_le (a b : pyval) : result bool := py_ge b a.

(** [v != nodata] for an element of an array of objects *)
Definition py_ne_nodata (v : pyval) (nodata : option pyfloat) : bool :=
  match as_number v with
  | Some x => Mygdal.ne_nodata x nodata
  | None => true
  end.

(** ** class Timeline(MyTCSV) *)

Module Timeline.

Definition TAG_DATE_FIELD : string := "date_field".
Definition TAG_DATE_FORMAT : string := "date_format".
Definition TAG_DOY_FILE : string := "doy_tif_filepath".
Definition TAG_DAY_FACTOR : string := "doy_factor".

Record t : Type := {
  table : MyTCSV.t;              (* the inherited attributes *)
  doy_stack : Mygdal.t
}.

Definition __transform_tag_value__ (self : MyTCSV.t) (tag_name : string)
  (tag_value : pyval) : result pyval :=
  if String.eqb tag_name TAG_DATE_FIELD then
    i <- MyTCSV.resolve_field_ref self tag_value ;; Ok (VInt i)
  else if String.eqb tag_name TAG_DAY_FACTOR then
    decimal <- Dict.get (MyTCSV.tags self) MyTCSV.TAG_DECIMAL ;;
    f <- to_float tag_value decimal ;; Ok (VFloat f)
  else MyTCSV.__transform_tag_value__ self tag_value tag_value.

(** [result[self.tags[field]] = convert(fields[self.tags[field]], self.tags[arg])];
    [result] and [fields] are one list. *)
Definition convert_field (convert : pyval -> pyval -> result pyval)
  (self : MyTCSV.t) (field arg : string) (result_ : list pyval)
  : result (list pyval) :=
  ref <- Dict.get (MyTCSV.tags self) field ;;
  i <- as_index ref ;;
  value <- getitem result_ i ;;
  a <- Dict.get (MyTCSV.tags self) arg ;;
  v <- convert value a ;;
  setitem result_ i v.

Definition date_of (E : environment) (value date_format : pyval) : result pyval :=
  d <- to_date E value date_format ;; Ok (VDate d).

Definition number_of (value decimal : pyval) : result pyval :=
  f <- to_float value decimal ;; Ok (VFloat f).

Definition __transform_row_data__ (E : environment) (self : MyTCSV.t)
  (fields : list string) : result (list pyval) :=
  fields <- MyTCSV.__transform_row_data__ self fields ;;
  let result_ := map VStr fields in
  convert_field (date_of E) self TAG_DATE_FIELD TAG_DATE_FORMAT result_.

Definition methods (E : environment) : MyTCSV.hooks :=
  {| MyTCSV.transform_tag_value := __transform_tag_value__;
     MyTCSV.transform_row_data := __transform_row_data__ E |}.

(** A file name held by a tag. *)
Definition as_filename (v : pyval) : result string :=
  match v with
  | VStr s => Ok s
  | _ => Raise TypeError
  end.

Definition default_date_format : pyval := VStr "%Y-%m-%d".
Definition default_doy_file : pyval := VStr "doy.tif".
Definition default_day_factor : pyval := VFloat (Fin 1).

Definition set_default (self : MyTCSV.t) (tag_name : string) (default : pyval)
  : result MyTCSV.t :=
  v <- MyTCSV.get_tag_value self tag_name default ;;
  Ok (MyTCSV.with_tags self (Dict.set (MyTCSV.tags self) tag_name v)).

Definition __init__ (E : environment) (filename : string)
  (date_format doy_file day_factor : pyval) : result t :=
  self <- MyTCSV.__init__ (methods E) E filename MyTCSV.default_delimiter
            MyTCSV.default_has_header MyTCSV.default_decimal MyTCSV.default_quote ;;
  self <- set_default self TAG_DATE_FORMAT date_format ;;
  self <- set_default self TAG_DOY_FILE doy_file ;;
  self <- set_default self TAG_DAY_FACTOR day_factor ;;
  path <- Dict.get (MyTCSV.tags self) TAG_DOY_FILE ;;
  path <- as_filename path ;;
  stack <- Mygdal.__init__ E path ;;
  Ok {| table := self; doy_stack := stack |}.

Definition fetch_data (E : environment) (self : t) : result t :=
  tbl <- MyTCSV.fetch_data (methods E) (table self) ;;
  Ok {| table := tbl; doy_stack := doy_stack self |}.

(** [v.year] *)
Definition year_of (v : pyval) : result Z :=
  match v with
  | VDate d => Ok (Datetime.year d)
  | _ => Raise AttributeError
  end.

(** [x * factor] for a raster value [x], a 64-bit float: the product is
    one too, which [timedelta] takes as it takes a Python float. *)
Definition scale (x : pyfloat) (factor : pyval) : result pyfloat :=
  match as_number factor with
  | Some f => Ok (F.mul x f)
  | None => Raise TypeError
  end.

(** One element of the array [read_pixel_dates] builds. *)
Definition pixel_date (self : t) (valid : bool) (date : pyval) (doy : pyfloat)
  : result pyval :=
  if valid then
    y <- year_of date ;;
    january_1 <- Datetime.make y 1 1 ;;
    factor <- Dict.get (MyTCSV.tags (table self)) TAG_DAY_FACTOR ;;
    days <- scale doy factor ;;
    delta <- Datetime.timedelta_of_days days ;;
    d <- Datetime.add january_1 delta ;;
    Ok (VDate d)
  else Ok date.

Fixpoint pixel_dates_loop (self : t) (mask_nodata : list bool) (dates : list pyval)
  (doys : list pyfloat) : result (list pyval) :=
  match dates with
  | [] => Ok []
  | date :: dates' =>
      match mask_nodata, doys with
      | valid :: mask', doy :: doys' =>
          d <- pixel_date self valid date doy ;;
          ds <- pixel_dates_loop self mask' dates' doys' ;;
          Ok (d :: ds)
      | _, _ => Raise IndexError
      end
  end.

Definition read_pixel_dates (self : t) (pixel : Z * Z) : result (list pyval) :=
  doys <- Mygdal.read_pixel_values (doy_stack self) pixel ;;
  mask_nodata <- Mygdal.mask_nodata_pixel_bands (doy_stack self) doys ;;
  ref <- Dict.get (MyTCSV.tags (table self)) TAG_DATE_FIELD ;;
  i <- as_index ref ;;
  dates <- getitem (MyTCSV.data (table self)) i ;;
  if negb (List.length doys =? List.length dates)%nat then
    Raise (Exception __error_time_line_length__
             (format __error_time_line_length_msg__
                     [str_of_nat (List.length dates); str_of_nat (List.length doys)]))
  else pixel_dates_loop self mask_nodata dates doys.

(** [(dates >= date_from) * (dates <= date_to)] *)
Definition mask_timespan_dates (dates : list pyval) (date_from date_to : pyval)
  : result (list bool) :=
  lower <- mapM (fun d => py_ge d date_from) dates ;;
  upper <- mapM (fun d => py_le d date_to) dates ;;
  broadcast2 (fun a b => Ok (a && b)) lower upper.

End Timeline.

(** ** class Samples(MyTCSV) *)

Module Samples.

Definition TAG_X_FIELD : string := "x_field".
Definition TAG_Y_FIELD : string := "y_field".
Definition TAG_PROJ_WKT : string := "projection_wkt".
Definition TAG_FROM_DT_FIELD : string := "from_date_field".
Definition TAG_TO_DT_FIELD : string := "to_date_field".
Definition TAG_DATE_FORMAT : string := "date_format".
Definition TAG_CLASS_FIELD : string := "class_field".
Definition TAG_TIMELINE_FILE : string := "timeline_filepath".
Definition TAG_BANDS_PATHS : string := "bands_filepaths".
Definition TAG_BANDS_FACTORS : string := "bands_factors".

Record t : Type := {
  table : MyTCSV.t;              (* the inherited attributes *)
  timeline : Timeline.t;
  bands : list Mygdal.t;
  bands_factor : list pyval
}.

(** [v.strip().split(',')] *)
Definition strip_split (v : pyval) : result (list string) :=
  match v with
  | VStr s => Py.split (Py.strip s) ","
  | _ => Raise AttributeError
  end.

Definition __transform_tag_value__ (self : MyTCSV.t) (tag_name : string)
  (tag_value : pyval) : result pyval :=
  if String.eqb tag_name TAG_X_FIELD then
    i <- MyTCSV.resolve_field_ref self tag_value ;; Ok (VInt i)
  else if String.eqb tag_name TAG_Y_FIELD then
    i <- MyTCSV.resolve_field_ref self tag_value ;; Ok (VInt i)
  else if String.eqb tag_name TAG_CLASS_FIELD then
    i <- MyTCSV.resolve_field_ref self tag_value ;; Ok (VInt i)
  else if String.eqb tag_name TAG_FROM_DT_FIELD then
    i <- MyTCSV.resolve_field_ref self tag_value ;; Ok (VInt i)
  else if String.eqb tag_name TAG_TO_DT_FIELD then
    i <- MyTCSV.resolve_field_ref self tag_value ;; Ok (VInt i)
  else if String.eqb tag_name TAG_BANDS_PATHS then
    paths <- Dict.get (MyTCSV.tags self) TAG_BANDS_PATHS ;;
    values <- strip_split paths ;;
    Ok (VList (map (fun value => VStr (Py.strip value)) values))
  else if String.eqb tag_name TAG_BANDS_FACTORS then
    factors <- Dict.get (MyTCSV.tags self) TAG_BANDS_FACTORS ;;
    values <- strip_split factors ;;
    fs <- mapM (fun value =>
                  decimal <- Dict.get (MyTCSV.tags self) MyTCSV.TAG_DECIMAL ;;
                  f <- to_float (VStr (Py.strip value)) decimal ;;
                  Ok (VFloat f)) values ;;
    Ok (VList fs)
  else MyTCSV.__transform_tag_value__ self tag_value tag_value.

Definition __transform_row_data__ (E : environment) (self : MyTCSV.t)
  (fields : list string) : result (list pyval) :=
  fields <- MyTCSV.__transform_row_data__ self fields ;;
  let result_ := map VStr fields in
  result_ <- Timeline.convert_field Timeline.number_of self
               TAG_X_FIELD MyTCSV.TAG_DECIMAL result_ ;;
  result_ <- Timeline.convert_field Timeline.number_of self
               TAG_Y_FIELD MyTCSV.TAG_DECIMAL result_ ;;
  result_ <- Timeline.convert_field (Timeline.date_of E) self
               TAG_FROM_DT_FIELD TAG_DATE_FORMAT result_ ;;
  Timeline.convert_field (Timeline.date_of E) self
    TAG_TO_DT_FIELD TAG_DATE_FORMAT result_.

Definition methods (E : environment) : MyTCSV.hooks :=
  {| MyTCSV.transform_tag_value := __transform_tag_value__;
     MyTCSV.transform_row_data := __transform_row_data__ E |}.

Definition default_date_format : pyval := VStr "%Y-%m-%d".
Definition default_timeline_file : pyval := VStr "timeline.csv".
Definition default_bands_files : pyval := VStr "ndvi.tif,evi.tif".

(** [for value in v]: a list gives its elements, a string its characters. *)
Definition iterate (v : pyval) : result (list pyval) :=
  match v with
  | VList l => Ok l
  | VStr s => Ok (map (fun c => VStr (String c "")) (Py.chars s))
  | _ => Raise TypeError
  end.

Definition __init__ (E : environment) (filename : string)
  (date_format timeline_file bands_files : pyval) : result t :=
  self <- MyTCSV.__init__ (methods E) E filename MyTCSV.default_delimiter
            MyTCSV.default_has_header MyTCSV.default_decimal MyTCSV.default_quote ;;
  self <- Timeline.set_default self TAG_DATE_FORMAT date_format ;;
  self <- Timeline.set_default self TAG_TIMELINE_FILE timeline_file ;;
  self <- Timeline.set_default self TAG_BANDS_PATHS bands_files ;;
  path <- Dict.get (MyTCSV.tags self) TAG_TIMELINE_FILE ;;
  path <- Timeline.as_filename path ;;
  tl <- Timeline.__init__ E path Timeline.default_date_format
          Timeline.default_doy_file Timeline.default_day_factor ;;
  paths <- Dict.get (MyTCSV.tags self) TAG_BANDS_PATHS ;;
  paths <- iterate paths ;;
  bnds <- mapM (fun value => p <- Timeline.as_filename value ;; Mygdal.__init__ E p)
               paths ;;
  factors <- Dict.get (MyTCSV.tags self) TAG_BANDS_FACTORS ;;
  factors <- iterate factors ;;
  if negb (List.length bnds =? List.length factors)%nat then
    Raise (Exception __error_bands_tags__ __error_bands_tags_msg__)
  else Ok {| table := self; timeline := tl; bands := bnds; bands_factor := factors |}.

Definition fetch_data (E : environment) (self : t) : result t :=
  tl <- Timeline.fetch_data E (timeline self) ;;
  tbl <- MyTCSV.fetch_data (methods E) (table self) ;;
  Ok {| table := tbl; timeline := tl; bands := bands self;
        bands_factor := bands_factor self |}.

(** [self.data[self.tags[field]]] *)
Definition column (self : t) (field : string) : result (list pyval) :=
  ref <- Dict.get (MyTCSV.tags (table self)) field ;;
  i <- as_index ref ;;
  getitem (MyTCSV.data (table self)) i.

(** The rows of [numpy.array([x_result, y_result]).T] *)
Fixpoint transpose (xs ys : list pyval) : result (list (pyfloat * pyfloat)) :=
  match xs, ys with
  | [], [] => Ok []
  | x :: xs', y :: ys' =>
      match as_number x, as_number y with
      | Some a, Some b => rest <- transpose xs' ys' ;; Ok ((a, b) :: rest)
      | _, _ => Raise TypeError
      end
  | _, _ => Raise ValueError
  end.

Definition read_samples_geolocs (self : t) (samples_index : option (list Z))
  : result (list (pyfloat * pyfloat)) :=
  x_result <- column self TAG_X_FIELD ;;
  y_result <- column self TAG_Y_FIELD ;;
  match samples_index with
  | Some idx =>
      xs <- mapM (getitem x_result) idx ;;
      ys <- mapM (getitem y_result) idx ;;
      transpose xs ys
  | None => transpose x_result y_result
  end.

Definition reproject_samples_to (E : environment) (self : t) (mygdal_obj : Mygdal.t)
  (samples_index : option (list Z)) : result (list (pyfloat * pyfloat)) :=
  geolocs <- read_samples_geolocs self samples_index ;;
  wkt <- Dict.get (MyTCSV.tags (table self)) TAG_PROJ_WKT ;;
  match wkt with
  | VStr w => Ok (Mygdal.reproject_geolocs_from E mygdal_obj geolocs w)
  | _ => Raise TypeError
  end.

(** [mask * (pixel_dates >= date_from) * (pixel_dates <= date_to)] and the two
    one-sided forms *)
Definition mask_and (mask : list bool) (test : pyval -> result bool)
  (pixel_dates : list pyval) : result (list bool) :=
  inside <- mapM test pixel_dates ;;
  broadcast2 (fun a b => Ok (a && b)) mask inside.

Definition filter_interval (mask : list bool) (pixel_dates : list pyval)
  (date_from date_to : pyval) : result (list bool) :=
  if truthy date_from && truthy date_to then
    mask <- mask_and mask (fun d => py_ge d date_from) pixel_dates ;;
    mask_and mask (fun d => py_le d date_to) pixel_dates
  else if truthy date_from then
    mask_and mask (fun d => py_ge d date_from) pixel_dates
  else if truthy date_to then
    mask_and mask (fun d => py_le d date_to) pixel_dates
  else Ok mask.

(** [values * factor] for an array of raster values *)
Definition scale_all (values : list pyfloat) (factor : pyval) : result (list pyfloat) :=
  match as_number factor with
  | Some f => Ok (map (fun v => F.mul v f) values)
  | None => Raise TypeError
  end.

(** The pair appended for band [j] of one sample. *)
Definition band_timeseries (self : t) (filter_sample_interval : bool)
  (pixel : Z * Z) (date_from date_to : pyval) (pixel_dates : list pyval)
  (j : nat) (band : Mygdal.t) : result (list pyfloat * list pyval) :=
  pixel_values <- Mygdal.read_pixel_values band pixel ;;
  dates_valid <- broadcast2 (fun d n => Ok (py_ne_nodata d n)) pixel_dates
                   (Mygdal.values_nodata (Timeline.doy_stack (timeline self))) ;;
  values_valid <- broadcast2 (fun v n => Ok (Mygdal.ne_nodata v n)) pixel_values
                    (Mygdal.values_nodata band) ;;
  mask <- broadcast2 (fun a b => Ok (a && b)) dates_valid values_valid ;;
  mask <- (if filter_sample_interval
           then filter_interval mask pixel_dates date_from date_to
           else Ok mask) ;;
  kept <- select pixel_values mask ;;
  factor <- getitem (bands_factor self) (Z.of_nat j) ;;
  scaled <- scale_all kept factor ;;
  kept_dates <- select pixel_dates mask ;;
  Ok (scaled, kept_dates).

Fixpoint enumerate {A : Type} (i : nat) (l : list A) : list (nat * A) :=
  match l with
  | [] => []
  | a :: l' => (i, a) :: enumerate (S i) l'
  end.

(** The list appended for sample [i]. *)
Definition pixel_timeseries (self : t) (filter_sample_interval : bool)
  (i : nat) (pixel : Z * Z) : result (list (list pyfloat * list pyval)) :=
  from_column <- column self TAG_FROM_DT_FIELD ;;
  date_from <- getitem from_column (Z.of_nat i) ;;
  from_column <- column self TAG_FROM_DT_FIELD ;;
  date_to <- getitem from_column (Z.of_nat i) ;;
  pixel_dates <- Timeline.read_pixel_dates (timeline self) pixel ;;
  mapM (fun jb => band_timeseries self filter_sample_interval pixel
                    date_from date_to pixel_dates (fst jb) (snd jb))
       (enumerate O (bands self)).

Definition get_samples_timeseries (E : environment) (self : t)
  (samples_index : option (list Z)) (filter_sample_interval : bool)
  : result (list (list (list pyfloat * list pyval))) :=
  let stack := Timeline.doy_stack (timeline self) in
  geolocs <- reproject_samples_to E self stack samples_index ;;
  match Mygdal.geolocs_to_pixels stack (Some (Rows geolocs)) with
  | Rows samples_pixels =>
      mapM (fun ip => pixel_timeseries self filter_sample_interval (fst ip) (snd ip))
           (enumerate O samples_pixels)
  | Vec _ => Ok []
  end.

End Samples.

(** ** Where the arithmetic of the program is exact *)

(** [q] is [z / 2^k], the point [z] of the binary grid of step [2^-k].
    For [k] up to 1000 and [z] of magnitude up to [2^53] such a number is
    a 64-bit float, and a sum, difference or product of 64-bit floats that
    is such a number again is computed without rounding. *)
Definition on_grid (k : nat) (q : Q) (z : Z) : Prop :=
  (q == inject_Z z / inject_Z (2 ^ Z.of_nat k))%Q.

(** The pairs of an array, one for a single pair. *)
Definition elements {A : Type} (a : ndarray A) : list (A * A) :=
  match a with
  | Vec p => [p]
  | Rows l => l
  end.

(** ** The specification's geolocation formula *)

(** Origin plus resolution times pixel plus skew times pixel on each axis:
    the X axis takes the Y-skew coefficient of the geotransform, the Y axis
    the X-skew coefficient. *)
Definition geoloc_spec (g : GeoTransform) (p : Z * Z) : pyfloat * pyfloat :=
  let '(GT x_ul x_res x_skew y_ul y_skew y_res) := g in
  let x := F.of_int (fst p) in
  let y := F.of_int (snd p) in
  (F.add (F.add x_ul (F.mul x_res x)) (F.mul y_skew x),
   F.add (F.add y_ul (F.mul y_res y)) (F.mul x_skew y)).

(** The date [y-m-d] at midnight, as [strptime] gives it for [%Y-%m-%d]. *)
Definition ymd (y m d : Z) : pyval := VDate (Datetime.mk_datetime y m d 0 0 0 0).

(** ** What a timeline holds for a pixel *)

(** The day-of-year values [doys] read at [pixel], one per band of the
    day-of-year raster and so one per no-data value, and the column [dates]
    the tag [date_field] names. *)
Definition timeline_reads (self : Timeline.t) (pixel : Z * Z)
  (doys : list pyfloat) (dates : list pyval) : Prop :=
  Mygdal.read_pixel_values (Timeline.doy_stack self) pixel = Ok doys /\
  List.length (Mygdal.values_nodata (Timeline.doy_stack self)) = List.length doys /\
  exists k, Dict.lookup (MyTCSV.tags (Timeline.table self)) Timeline.TAG_DATE_FIELD
            = Some (VInt k) /\
            getitem (MyTCSV.data (Timeline.table self)) k = Ok dates.

(** Row [j] of the timeline at a pixel: whether its day of year is valid,
    its table date and its day of year. *)
Definition timeline_row (self : Timeline.t) (doys : list pyfloat) (dates : list pyval)
  (j : nat) (valid : bool) (date : pyval) (doy : pyfloat) : Prop :=
  nth_error dates j = Some date /\ nth_error doys j = Some doy /\
  exists nodata, nth_error (Mygdal.values_nodata (Timeline.doy_stack self)) j = Some nodata /\
                 valid = Mygdal.ne_nodata doy nodata.

(** ** What a samples table opens *)


(** ** What a grouping of rows is *)

Definition ascending (l : list nat) : Prop :=
  forall p q x y, (p < q)%nat -> nth_error l p = Some x -> nth_error l q = Some y ->
                  (x < y)%nat.

(** [groups] partitions the row indexes of the column [cells]: every index
    is in one group, the value of a row is the key of its group or equal to
    it, the keys of two groups differ and the indexes of a group ascend. *)
Definition grouping (cells : list pyval) (groups : list (pyval * list nat)) : Prop :=
  Permutation (List.concat (map snd groups)) (seq 0 (List.length cells)) /\
  (forall key indexes i, In (key, indexes) groups -> In i indexes ->
     exists c, nth_error cells i = Some c /\ (c = key \/ MyTCSV.key_eqb key c = true)) /\
  (forall p q k1 k2, (p < q)%nat ->
     nth_error (map fst groups) p = Some k1 -> nth_error (map fst groups) q = Some k2 ->
     MyTCSV.key_eqb k1 k2 = false) /\
  (forall key indexes, In (key, indexes) groups -> ascending indexes).

(** ** A small world to run the program in *)

Module Scenario.

Definition nl : string := String (ascii_of_nat 10) "".
Definition line (s : string) : string := String.append s nl.

(** [strptime] for the format [%Y-%m-%d]. *)
Definition strptime_ymd (value date_format : string) : option Datetime.datetime :=
  if String.eqb date_format "%Y-%m-%d" then
    match Py.split value "-" with
    | Ok [y; m; d] =>
        match Py.int y, Py.int m, Py.int d with
        | Ok y, Ok m, Ok d =>
            match Datetime.make y m d with
            | Ok t => Some t
            | Raise _ => None
            end
        | _, _, _ => None
        end
    | _ => None
    end
  else None.

Definition constant_band (nodata : option pyfloat) (v : pyfloat) : RasterBand :=
  {| GetNoDataValue := nodata; ReadBand := fun _ _ => v |}.

(** A north-up raster of 10 x 10 pixels of size one, its origin at (0, 10). *)
Definition north_up (raster_bands : list RasterBand) : Dataset :=
  {| GetProjectionRef := "WGS84"; RasterXSize := 10; RasterYSize := 10;
     GetGeoTransform := GT (Fin 0) (Fin 1) (Fin 0) (Fin 10) (Fin 0) (Fin (-1));
     RasterBands := raster_bands |}.

(** A rotated raster: both skew coefficients are one. *)
Definition rotated : Dataset :=
  {| GetProjectionRef := "WGS84"; RasterXSize := 10; RasterYSize := 10;
     GetGeoTransform := GT (Fin 0) (Fin 2) (Fin 1) (Fin 0) (Fin 1) (Fin (-2));
     RasterBands := [constant_band None (Fin 0)] |}.

Definition rasters : list (string * Dataset) :=
  [ ("north.tif", north_up [constant_band None (Fin 0)]);
    ("rotated.tif", rotated);
    (* day 45 in both bands; the second band holds its no-data value *)
    ("doy.tif", north_up [constant_band (Some (Fin (-1))) (Fin 45);
                          constant_band (Some (Fin 45)) (Fin 45)]);
    ("a.tif", north_up [constant_band None (Fin 3);
                        constant_band None (Fin 5)]);
    ("b.tif", north_up [constant_band None (Fin 7);
                        constant_band (Some (Fin 8)) (Fin 8)]) ].

Definition samples_tags : list string :=
  [ line "#x_field=0"; line "#y_field=1";
    line "#from_date_field=2"; line "#to_date_field=3";
    line "#projection_wkt=WGS84" ].

Definition files : list (string * list string) :=
  [ ("table.csv", [line "#has_header=true"; line "a,b"; line "1,2"]);
    ("plain.csv", [line "a,b"; line "1,2"]);
    ("timeline.csv",
       [line "#date_field=0"; line "2020-01-01"; line "2020-01-01"]);
    ("short.csv",
       [line "#date_field=0"; line "#doy_tif_filepath=doy.tif"; line "2020-01-01"]);
    ("samples.csv",
       samples_tags ++
       [ line "#bands_filepaths=a.tif"; line "#bands_factors=2.0";
         line "3.5,6.5,2020-01-01,2020-12-31" ]);
    ("mismatch.csv",
       samples_tags ++
       [ line "#bands_filepaths=a.tif,b.tif"; line "#bands_factors=1.0";
         line "3.5,6.5,2020-01-01,2020-12-31" ]);
    ("match.csv",
       samples_tags ++
       [ line "#bands_filepaths=a.tif,b.tif"; line "#bands_factors=1.0,2.0";
         line "3.5,6.5,2020-01-01,2020-12-31" ]);
    ("comma.csv",
       samples_tags ++
       [ line "#delimiter=;"; line "#decimal_point=,";
         line "#bands_filepaths=a.tif"; line "#bands_factors=2";
         line "1,5;6,5;2020-01-01;2020-12-31" ]) ].

Fixpoint assoc {A : Type} (l : list (string * A)) (k : string) : option A :=
  match l with
  | (k', a) :: l' => if String.eqb k' k then Some a else assoc l' k
  | [] => None
  end.

Definition env : environment :=
  {| open_file := assoc files;
     gdal_Open := assoc rasters;
     strptime := strptime_ymd;
     TransformPoints := fun _ _ points => points |}.

(** A table that read no tag. *)
Definition no_tags : MyTCSV.t :=
  {| MyTCSV.file := []; MyTCSV.__row__ := None; MyTCSV.data := [];
     MyTCSV.field_names := []; MyTCSV.tags := [] |}.

(** [MyTCSV(filename)], [Timeline(filename)] and [Samples(filename)] *)
Definition open_table (filename : string) : result MyTCSV.t :=
  MyTCSV.__init__ MyTCSV.methods env filename MyTCSV.default_delimiter
    MyTCSV.default_has_header MyTCSV.default_decimal MyTCSV.default_quote.

Definition open_timeline (filename : string) : result Timeline.t :=
  Timeline.__init__ env filename Timeline.default_date_format
    Timeline.default_doy_file Timeline.default_day_factor.

Definition open_samples (filename : string) : result Samples.t :=
  Samples.__init__ env filename Samples.default_date_format
    Samples.default_timeline_file Samples.default_bands_files.

(** The tables with their rows fetched. *)
Definition fetched_timeline (filename : string) : result Timeline.t :=
  t <- open_timeline filename ;; Timeline.fetch_data env t.

Definition fetched_samples (filename : string) : result Samples.t :=
  s <- open_samples filename ;; Samples.fetch_data env s.

End Scenario.

(** ** Further files, and a generator of random numbers *)

Module Cases.

Definition files : list (string * list string) :=
  [ ("empty.csv", []);
    ("blank.csv",
       [Scenario.line "#has_header=true"; Scenario.line ""; Scenario.line "a,b"]);
    ("dated.csv",
       [Scenario.line "#has_header=true"; Scenario.line "#date_field=day";
        Scenario.line "day,label"; Scenario.line "2020-01-01,x"]);
    ("classes.csv",
       [Scenario.line "forest,1"; Scenario.line "water,2"; Scenario.line "forest,3"]);
    ("nobands.csv",
       Scenario.samples_tags ++
       [ Scenario.line "#bands_factors=2.0";
         Scenario.line "3.5,6.5,2020-01-01,2020-12-31" ]) ].

Definition env : environment :=
  {| open_file := Scenario.assoc (files ++ Scenario.files);
     gdal_Open := Scenario.assoc Scenario.rasters;
     strptime := Scenario.strptime_ymd;
     TransformPoints := fun _ _ points => points |}.


(** A generator whose state counts the rows drawn; row [i] of a draw in
    the state [state] is ((state + i) mod 7 / 7, (state + 2 i) mod 5 / 5). *)
Definition counter : generator :=
  {| seeded := fun s => Z.to_nat s;
     rand := fun state n =>
       (map (fun i => (Z.of_nat ((state + i) mod 7) # 7,
                       Z.of_nat ((state + 2 * i) mod 5) # 5)) (seq 0 n),
        (state + n)%nat) |}.

(** [MyTCSV(filename)] with its rows fetched. *)
Definition fetched_table (filename : string) : result MyTCSV.t :=
  t <- MyTCSV.__init__ MyTCSV.methods env filename MyTCSV.default_delimiter
         MyTCSV.default_has_header MyTCSV.default_decimal MyTCSV.default_quote ;;
  MyTCSV.fetch_data MyTCSV.methods t.

End Cases.

(** * Properties *)

(** ** Geolocations and pixels *)

Lemma Qzero_true (q : Q) : Qzero q = true <-> (q == 0)%Q.
Proof. unfold Qzero. apply Qeq_bool_iff. Qed.

Lemma Qzero_false (q : Q) : ~ (q == 0)%Q -> Qzero q = false.
Proof.
  intros H. destruct (Qzero q) eqn:E; [|reflexivity].
  apply Qzero_true in E. contradiction.
Qed.

(** What [__init__] reads from the raster decides the conversion. *)
Lemma init_pixel_to_geoloc (E : environment) (filename : string) (ds : Dataset) :
  gdal_Open E filename = Some ds ->
  exists self, Mygdal.__init__ E filename = Ok self /\
    forall p, Mygdal.pixel_to_geoloc (Mygdal.geo_ul self) (Mygdal.geo_resolution self)
                (Mygdal.geo_skew self) p = geoloc_spec (GetGeoTransform ds) p.
Proof.
  intros H. unfold Mygdal.__init__. rewrite H.
  eexists. split; [reflexivity|].
  intros [x y]. cbn [Mygdal.geo_ul Mygdal.geo_resolution Mygdal.geo_skew].
  destruct (GetGeoTransform ds) as [c0 c1 c2 c3 c4 c5]. reflexivity.
Qed.

(** C2. For a raster opened from a dataset, [pixels_to_geolocs] maps every
    pixel of a non-empty array (rows of pixels, or a single pair) to origin
    + resolution * pixel + skew * pixel on each axis, the X axis taking the
    Y-skew coefficient and the Y axis the X-skew coefficient; an empty
    array and [None] give an empty array. *)
Theorem pixels_to_geolocs_formula (E : environment) (filename : string) (ds : Dataset) :
  gdal_Open E filename = Some ds ->
  exists self, Mygdal.__init__ E filename = Ok self /\
    (forall p l, Mygdal.pixels_to_geolocs self (Some (Rows (p :: l))) =
                 Rows (map (geoloc_spec (GetGeoTransform ds)) (p :: l))) /\
    (forall p, Mygdal.pixels_to_geolocs self (Some (Vec p)) =
               Vec (geoloc_spec (GetGeoTransform ds) p)) /\
    Mygdal.pixels_to_geolocs self (Some (Rows [])) = Rows [] /\
    Mygdal.pixels_to_geolocs self None = Rows [].
Proof.
  intros H. destruct (init_pixel_to_geoloc E filename ds H) as (self & Hinit & Hrow).
  exists self. split; [exact Hinit|]. repeat split.
  - intros p l. unfold Mygdal.pixels_to_geolocs.
    cbn [len List.length Nat.ltb Nat.leb map_rows].
    f_equal. apply map_ext. exact Hrow.
  - intros p. unfold Mygdal.pixels_to_geolocs. cbn [len Nat.ltb Nat.leb map_rows].
    f_equal. apply Hrow.
Qed.

Lemma pixels_to_geolocs_formula_witness :
  exists self, Mygdal.__init__ Scenario.env "rotated.tif" = Ok self /\
    Mygdal.pixels_to_geolocs self (Some (Rows [(1, 1); (2, 0)])) =
    Rows [(Fin (0 + 2 * 1 + 1 * 1), Fin (0 + (-2) * 1 + 1 * 1));
          (Fin (0 + 2 * 2 + 1 * 2), Fin (0 + (-2) * 0 + 1 * 0))].
Proof.
  destruct (pixels_to_geolocs_formula Scenario.env "rotated.tif" Scenario.rotated
              eq_refl) as (self & Hinit & Hrows & _).
  exists self. split; [exact Hinit|].
  rewrite Hrows. reflexivity.
Defined.

Lemma Qfloor_scaled (u r s : Q) (x : Z) :
  (s == 0)%Q -> ~ (r == 0)%Q ->
  Qfloor ((u + r * inject_Z x + s * inject_Z x + - u) / r) = x.
Proof.
  intros Hs Hr.
  transitivity (Qfloor (inject_Z x)); [|apply Qfloor_Z].
  apply Qfloor_comp.
  rewrite Hs. field. exact Hr.
Qed.

Lemma to_int_of_int (k : Z) : F.to_int (F.add (F.of_int k) (Fin 0)) = k.
Proof.
  unfold F.to_int, F.add, F.of_int. cbn.
  rewrite Z.quot_1_r. lia.
Qed.

(** A zero divisor leaves no finite quotient, so its term is zero. *)
Lemma floor_divide_by_zero (d s : Q) :
  (s == 0)%Q -> Mygdal.zero_unless_finite (F.floor_divide (Fin d) (Fin s)) = Fin 0.
Proof.
  intros Hs. apply Qzero_true in Hs.
  unfold F.floor_divide, F.div. rewrite Hs.
  destruct (Qzero d); reflexivity.
Qed.

Lemma floor_divide_finite (d r : Q) :
  ~ (r == 0)%Q ->
  Mygdal.zero_unless_finite (F.floor_divide (Fin d) (Fin r)) =
  F.of_int (Qfloor (d / r)).
Proof.
  intros Hr. unfold F.floor_divide. rewrite (Qzero_false r Hr). reflexivity.
Qed.

(** One axis: origin [u], resolution [r], skew [s], pixel index [x]. *)
Lemma axis_roundtrip (u r s : Q) (x : Z) :
  (s == 0)%Q -> ~ (r == 0)%Q ->
  let g := F.add (F.add (Fin u) (F.mul (Fin r) (F.of_int x))) (F.mul (Fin s) (F.of_int x)) in
  let d := F.sub g (Fin u) in
  F.to_int (F.add (Mygdal.zero_unless_finite (F.floor_divide d (Fin r)))
                  (Mygdal.zero_unless_finite (F.floor_divide d (Fin s)))) = x.
Proof.
  intros Hs Hr g d.
  change d with (Fin (u + r * inject_Z x + s * inject_Z x + - u)).
  rewrite (floor_divide_by_zero _ s Hs), (floor_divide_finite _ r Hr).
  rewrite (Qfloor_scaled u r s x Hs Hr).
  apply to_int_of_int.
Qed.

Lemma pixel_roundtrip (self : Mygdal.t) (ux uy rx ry sx sy : Q) :
  Mygdal.geo_ul self = (Fin ux, Fin uy) ->
  Mygdal.geo_resolution self = (Fin rx, Fin ry) ->
  Mygdal.geo_skew self = (Fin sx, Fin sy) ->
  (sx == 0)%Q -> (sy == 0)%Q -> ~ (rx == 0)%Q -> ~ (ry == 0)%Q ->
  forall p,
    Mygdal.geoloc_to_pixel self
      (Mygdal.pixel_to_geoloc (Mygdal.geo_ul self) (Mygdal.geo_resolution self)
         (Mygdal.geo_skew self) p) = p.
Proof.
  intros Hul Hres Hskew Hsx Hsy Hrx Hry [x y].
  unfold Mygdal.geoloc_to_pixel, Mygdal.pixel_to_geoloc.
  rewrite Hul, Hres, Hskew. unfold Mygdal.pair_op, Mygdal.pixel_float.
  cbn [fst snd].
  f_equal; [apply (axis_roundtrip ux rx sx x Hsx Hrx)
           | apply (axis_roundtrip uy ry sy y Hsy Hry)].
Qed.

Lemma grid_step_nonzero (k : nat) : ~ (inject_Z (2 ^ Z.of_nat k) == 0)%Q.
Proof.
  intros H. assert (Hpos : 0 < 2 ^ Z.of_nat k) by (apply Z.pow_pos_nonneg; lia).
  unfold Qeq in H. cbn in H. lia.
Qed.

(** One axis of a geolocation: on the grid, within [2^53]. *)
Lemma axis_on_grid (k : nat) (u r s : Q) (U R x : Z) :
  on_grid k u U -> on_grid k r R -> (s == 0)%Q ->
  Z.abs U <= 2 ^ 52 -> Z.abs (R * x) <= 2 ^ 52 ->
  on_grid k (u + r * inject_Z x + s * inject_Z x) (U + R * x) /\
  Z.abs (U + R * x) <= 2 ^ 53.
Proof.
  unfold on_grid. intros Hu Hr Hs HU HR. split.
  - rewrite Hu, Hr, Hs, inject_Z_plus, inject_Z_mult. field. apply grid_step_nonzero.
  - change (2 ^ 53) with (2 * 2 ^ 52). lia.
Qed.

Lemma geoloc_on_grid (k : nat) (ux uy rx ry sx sy : Q) (U V R S : Z) (p : Z * Z) :
  (sx == 0)%Q -> (sy == 0)%Q ->
  on_grid k ux U -> on_grid k uy V -> on_grid k rx R -> on_grid k ry S ->
  Z.abs U <= 2 ^ 52 -> Z.abs V <= 2 ^ 52 ->
  Z.abs (R * fst p) <= 2 ^ 52 /\ Z.abs (S * snd p) <= 2 ^ 52 ->
  exists qx qy zx zy,
    Mygdal.pixel_to_geoloc (Fin ux, Fin uy) (Fin rx, Fin ry) (Fin sx, Fin sy) p
    = (Fin qx, Fin qy) /\
    on_grid k qx zx /\ on_grid k qy zy /\ Z.abs zx <= 2 ^ 53 /\ Z.abs zy <= 2 ^ 53.
Proof.
  intros Hsx Hsy Hux Huy Hrx Hry HU HV [HR HS]. destruct p as [x y]. cbn [fst snd] in *.
  destruct (axis_on_grid k ux rx sx U R x Hux Hrx Hsx HU HR) as [Hgx Hbx].
  destruct (axis_on_grid k uy ry sy V S y Huy Hry Hsy HV HS) as [Hgy Hby].
  do 4 eexists. split; [reflexivity|]. repeat split; eassumption.
Qed.

(** C1, as the code has it.  On a raster whose two skew coefficients are
    zero and whose origin and resolutions, not zero, lie on one binary grid
    of step [2^-k] with numerators [U], [V], [R], [S] of magnitude up to
    [2^52] (whole numbers are the grid of step 1), every array of pixels
    whose products with [R] and [S] stay within [2^52] is converted to
    geolocations of that grid, with numerators within [2^53], and
    converting these back gives the pixels again.  No operation of the
    program rounds on such numbers.  Off the grid the program rounds and
    the round trip is lost: at the resolution 0.1 the pixel 5 comes back
    as 4. *)
Theorem roundtrip_without_skew (self : Mygdal.t) (ux uy rx ry sx sy : Q)
  (k : nat) (U V R S : Z) :
  Mygdal.geo_ul self = (Fin ux, Fin uy) ->
  Mygdal.geo_resolution self = (Fin rx, Fin ry) ->
  Mygdal.geo_skew self = (Fin sx, Fin sy) ->
  (sx == 0)%Q -> (sy == 0)%Q -> ~ (rx == 0)%Q -> ~ (ry == 0)%Q ->
  (k <= 1000)%nat ->
  on_grid k ux U -> on_grid k uy V -> on_grid k rx R -> on_grid k ry S ->
  Z.abs U <= 2 ^ 52 -> Z.abs V <= 2 ^ 52 -> Z.abs R <= 2 ^ 52 -> Z.abs S <= 2 ^ 52 ->
  forall pixels : ndarray Z,
    Forall (fun p => Z.abs (R * fst p) <= 2 ^ 52 /\ Z.abs (S * snd p) <= 2 ^ 52)
           (elements pixels) ->
    Forall (fun g => exists qx qy zx zy,
              g = (Fin qx, Fin qy) /\ on_grid k qx zx /\ on_grid k qy zy /\
              Z.abs zx <= 2 ^ 53 /\ Z.abs zy <= 2 ^ 53)
           (elements (Mygdal.pixels_to_geolocs self (Some pixels))) /\
    Mygdal.geolocs_to_pixels self
      (Some (Mygdal.pixels_to_geolocs self (Some pixels))) = pixels.
Proof.
  intros Hul Hres Hskew Hsx Hsy Hrx Hry _ Hux Huy Hgrx Hgry HU HV _ _.
  pose proof (pixel_roundtrip self ux uy rx ry sx sy Hul Hres Hskew Hsx Hsy Hrx Hry)
    as row.
  assert (grid : forall p,
    Z.abs (R * fst p) <= 2 ^ 52 /\ Z.abs (S * snd p) <= 2 ^ 52 ->
    exists qx qy zx zy,
      Mygdal.pixel_to_geoloc (Mygdal.geo_ul self) (Mygdal.geo_resolution self)
        (Mygdal.geo_skew self) p = (Fin qx, Fin qy) /\
      on_grid k qx zx /\ on_grid k qy zy /\ Z.abs zx <= 2 ^ 53 /\ Z.abs zy <= 2 ^ 53).
  { intros p Hp. rewrite Hul, Hres, Hskew.
    exact (geoloc_on_grid k ux uy rx ry sx sy U V R S p Hsx Hsy Hux Huy Hgrx Hgry HU HV Hp). }
  intros [p | l] Hbound; unfold Mygdal.pixels_to_geolocs, Mygdal.geolocs_to_pixels.
  - cbn [len Nat.ltb Nat.leb map_rows elements]. split.
    + constructor; [|constructor]. apply grid. inversion Hbound; assumption.
    + f_equal. apply row.
  - destruct l as [| p l]; [split; [constructor | reflexivity]|]. split.
    + cbn [len List.length Nat.ltb Nat.leb map_rows elements] in *.
      apply Forall_map. eapply Forall_impl; [|exact Hbound]. exact grid.
    + cbn [len List.length Nat.ltb Nat.leb map_rows map].
      f_equal. rewrite row. f_equal.
      rewrite map_map. rewrite <- (map_id l) at 2.
      apply map_ext. intros a. apply row.
Qed.

Lemma roundtrip_without_skew_witness :
  exists self, Mygdal.__init__ Scenario.env "north.tif" = Ok self /\
    Mygdal.geolocs_to_pixels self
      (Some (Mygdal.pixels_to_geolocs self (Some (Rows [(3, 4); (0, 9)])))) =
    Rows [(3, 4); (0, 9)].
Proof.
  eexists. split; [reflexivity|].
  refine (proj2 (roundtrip_without_skew _ 0 10 1 (-1) 0 0 0 0 10 1 (-1)
                   _ _ _ _ _ _ _ _ _ _ _ _ _ _ _ _ (Rows [(3, 4); (0, 9)]) _));
    try reflexivity; try (intro H; discriminate H).
  - lia.
  - repeat constructor; intro H; discriminate H.
Defined.

(** C1, as the specification states it, fails on a raster with skew: the
    pixel (1, 1) lies within the 10 x 10 raster, its geolocation is (3, -1),
    and the conversion back gives (4, -1). *)
Lemma roundtrip_counterexample :
  exists self, Mygdal.__init__ Scenario.env "rotated.tif" = Ok self /\
    (0 <= 1 < Mygdal.width self /\ 0 <= 1 < Mygdal.height self) /\
    Mygdal.pixels_to_geolocs self (Some (Vec (1, 1))) = Vec (Fin 3, Fin (-1)) /\
    Mygdal.geolocs_to_pixels self (Some (Vec (Fin 3, Fin (-1)))) = Vec (4, -1) /\
    Mygdal.geolocs_to_pixels self
      (Some (Mygdal.pixels_to_geolocs self (Some (Vec (1, 1))))) <> Vec (1, 1).
Proof.
  eexists. split; [reflexivity|].
  repeat split; vm_compute; congruence.
Qed.

(** X17.  [are_valid_pixels] asks of a coordinate to lie below zero and
    above the size at once, which no coordinate does: on a raster whose
    sizes are not negative it returns false for every array of pixels. *)
Lemma are_valid_pixels_false (self : Mygdal.t) (pixels : ndarray Z) :
  0 <= fst (Mygdal.size self) -> 0 <= snd (Mygdal.size self) ->
  Mygdal.are_valid_pixels self pixels = false.
Proof.
  intros Hw Hh.
  assert (row : forall p : Z * Z,
    Mygdal.pair_op andb (Mygdal.pair_op Z.ltb p (0, 0))
                        (Mygdal.pair_op Z.gtb p (Mygdal.size self)) = (false, false)).
  { intros [x y]. unfold Mygdal.pair_op. cbn [fst snd].
    f_equal; rewrite Z.gtb_ltb; apply andb_false_iff.
    - destruct (Z.ltb_spec x 0); [right; apply Z.ltb_ge; lia | left; reflexivity].
    - destruct (Z.ltb_spec y 0); [right; apply Z.ltb_ge; lia | left; reflexivity]. }
  unfold Mygdal.are_valid_pixels. destruct pixels as [p | l]; cbn [map_rows any].
  - rewrite row. reflexivity.
  - induction l as [| p l IH]; [reflexivity|].
    cbn [map existsb]. rewrite row, IH. reflexivity.
Qed.

Lemma are_valid_pixels_false_witness :
  exists self, Mygdal.__init__ Scenario.env "north.tif" = Ok self /\
    Mygdal.are_valid_pixels self (Rows [(-1, 0); (3, 4); (100, 100)]) = false.
Proof.
  eexists. split; [reflexivity|].
  apply are_valid_pixels_false; cbn; lia.
Defined.

(** [are_valid_geolocs] is as empty on every box whose bounds are finite and
    in order. *)
Lemma outside_both_false (g : pyfloat) (l u : Q) :
  (l <= u)%Q -> F.lt g (Fin l) && F.gt g (Fin u) = false.
Proof.
  intros Hlu. destruct g as [x | s |]; cbn.
  - apply andb_false_iff.
    destruct (Qle_bool l x) eqn:Hl; [left; reflexivity | right].
    destruct (Qle_bool x u) eqn:Hu; [reflexivity|].
    exfalso.
    assert (Hxl : ~ (l <= x)%Q) by (rewrite <- Qle_bool_iff, Hl; discriminate).
    assert (Hux : ~ (x <= u)%Q) by (rewrite <- Qle_bool_iff, Hu; discriminate).
    apply Qnot_le_lt in Hxl, Hux.
    apply (Qlt_irrefl x). eapply Qlt_le_trans; [exact Hxl|].
    eapply Qle_trans; [exact Hlu | apply Qlt_le_weak; exact Hux].
  - destruct s; reflexivity.
  - reflexivity.
Qed.

(** X18.  [are_valid_geolocs] returns false for every array of
    geolocations when the two corners of the raster, multiplied by the
    signs of the resolution, are finite and in order on both axes. *)
Lemma are_valid_geolocs_false (self : Mygdal.t) (lx ly ux uy : Q)
  (geolocs : ndarray pyfloat) :
  Mygdal.pair_op F.mul (Mygdal.geo_ul self) (Mygdal.sign_pair (Mygdal.geo_resolution self))
  = (Fin lx, Fin ly) ->
  Mygdal.pair_op F.mul (Mygdal.geo_lr self) (Mygdal.sign_pair (Mygdal.geo_resolution self))
  = (Fin ux, Fin uy) ->
  (lx <= ux)%Q -> (ly <= uy)%Q ->
  Mygdal.are_valid_geolocs self geolocs = false.
Proof.
  intros Hl Hu Hx Hy. unfold Mygdal.are_valid_geolocs. rewrite Hl, Hu.
  assert (row : forall g : pyfloat * pyfloat,
    Mygdal.pair_op andb (Mygdal.pair_op F.lt g (Fin lx, Fin ly))
                        (Mygdal.pair_op F.gt g (Fin ux, Fin uy)) = (false, false)).
  { intros [gx gy]. unfold Mygdal.pair_op. cbn [fst snd].
    rewrite (outside_both_false gx lx ux Hx), (outside_both_false gy ly uy Hy).
    reflexivity. }
  destruct geolocs as [g | l]; cbn [map_rows any].
  - rewrite row. reflexivity.
  - induction l as [| g l IH]; [reflexivity|].
    cbn [map existsb]. rewrite row, IH. reflexivity.
Qed.

Lemma are_valid_geolocs_false_witness :
  exists self, Mygdal.__init__ Scenario.env "north.tif" = Ok self /\
    Mygdal.are_valid_geolocs self (Rows [(Fin 1000, Fin 1000); (Fin 3, Fin 4)]) = false.
Proof.
  eexists. split; [reflexivity|].
  apply (are_valid_geolocs_false _ 0 (-10) 9 (-1)); try reflexivity; discriminate.
Defined.

(** C6, on the code.  On the 10 x 10 raster the pixel (-1, 0) and the pixel
    (100, 100) lie outside and the geolocation (1000, 1000) lies outside the
    bounding box, yet both checks return false, as they do for the pixel
    (3, 4) inside. *)
Theorem are_valid_misses_points_outside :
  exists self, Mygdal.__init__ Scenario.env "north.tif" = Ok self /\
    Mygdal.size self = (10, 10) /\
    Mygdal.geo_ul self = (Fin 0, Fin 10) /\
    Mygdal.are_valid_pixels self (Rows [(-1, 0)]) = false /\
    Mygdal.are_valid_pixels self (Rows [(100, 100)]) = false /\
    Mygdal.are_valid_pixels self (Rows [(3, 4)]) = false /\
    Mygdal.are_valid_geolocs self (Rows [(Fin 1000, Fin 1000)]) = false.
Proof.
  eexists. split; [reflexivity|].
  repeat split.
Qed.

(** ** Tags *)

(** C8, as the code has it.  A present tag gives its stored value.  An
    absent tag gives the default when the default is truthy or equal to 0,
    and [0], [0.0] and [False] all equal 0; it raises [RequiredTagMissing]
    exactly when the tag is absent and the default is falsy and not equal
    to 0, as [None], the empty string and the empty list are. *)
Theorem get_tag_value_default (self : MyTCSV.t) (tag_name : string) (default : pyval) :
  (forall v, Dict.lookup (MyTCSV.tags self) tag_name = Some v ->
             MyTCSV.get_tag_value self tag_name default = Ok v) /\
  (Dict.lookup (MyTCSV.tags self) tag_name = None ->
   truthy default = true \/ eq_zero default = true ->
   MyTCSV.get_tag_value self tag_name default = Ok default) /\
  ((exists msg, MyTCSV.get_tag_value self tag_name default =
                Raise (Exception __error_required_tag__ msg)) <->
   Dict.lookup (MyTCSV.tags self) tag_name = None /\
   truthy default = false /\ eq_zero default = false) /\
  (eq_zero (VInt 0) = true /\ eq_zero (VFloat (Fin 0)) = true /\
   eq_zero (VBool false) = true) /\
  (forall v, In v [VNone; VStr ""; VList []] ->
             truthy v = false /\ eq_zero v = false).
Proof.
  assert (falsy : forall v, In v [VNone; VStr ""; VList []] ->
                            truthy v = false /\ eq_zero v = false).
  { intros v [<- | [<- | [<- | []]]]; split; reflexivity. }
  unfold MyTCSV.get_tag_value.
  destruct (Dict.lookup (MyTCSV.tags self) tag_name) as [v |] eqn:Hlookup.
  - split; [intros v' Hv; congruence|].
    split; [intros Hv; discriminate Hv|].
    split; [|split; [repeat split | exact falsy]].
    split.
    + intros [msg Hmsg]. discriminate Hmsg.
    + intros (Hv & _). discriminate Hv.
  - split; [intros v' Hv; discriminate Hv|].
    split.
    { intros _ [Ht | Hz]; [rewrite Ht | rewrite Hz, orb_true_r]; reflexivity. }
    split; [|split; [repeat split | exact falsy]].
    split.
    + intros [msg Hmsg].
      destruct (truthy default); [discriminate Hmsg|].
      destruct (eq_zero default); [discriminate Hmsg|].
      repeat split.
    + intros (_ & Ht & Hz). rewrite Ht, Hz. eexists. reflexivity.
Qed.

(** C8, as the specification states it, fails for the default [False]: it
    is falsy and is not the integer 0, yet it is returned for an absent
    tag. *)
Lemma get_tag_value_counterexample :
  Dict.lookup (MyTCSV.tags Scenario.no_tags) "delimiter" = None /\
  truthy (VBool false) = false /\ VBool false <> VInt 0 /\
  MyTCSV.get_tag_value Scenario.no_tags "delimiter" (VBool false) = Ok (VBool false).
Proof. repeat split. discriminate. Qed.

(** ** Numbers with a decimal separator *)

(** C10.  [to_float] parses the string it was given: for every separator
    the replacement is computed and dropped, so "1,5" with the separator
    "," is a parse error, although the replaced string "1.5" would parse;
    a row of a samples table written with the separator fails the same
    way. *)
Theorem to_float_drops_replacement :
  (forall value decimal : string,
     to_float (VStr value) (VStr decimal) = Py.float value) /\
  to_float (VStr "1,5") (VStr ",") = Raise ValueError /\
  Py.replace "1,5" "," "." = "1.5" /\
  Py.float "1.5" = Ok (Fin (3 # 2)) /\
  exists self, Scenario.open_samples "comma.csv" = Ok self /\
    Dict.lookup (MyTCSV.tags (Samples.table self)) MyTCSV.TAG_DECIMAL = Some (VStr ",") /\
    MyTCSV.__row__ (Samples.table self) = Some "1,5;6,5;2020-01-01;2020-12-31" /\
    Samples.fetch_data Scenario.env self = Raise ValueError.
Proof.
  split.
  - intros value decimal. unfold to_float.
    destruct (ne_str (VStr decimal) "."); reflexivity.
  - repeat split; try (vm_compute; reflexivity).
    eexists. split; [vm_compute; reflexivity|].
    repeat split; vm_compute; reflexivity.
Qed.

(** ** Field references *)

Lemma lookup_set_same (d : Dict.t) (k : string) (v : pyval) :
  Dict.lookup (Dict.set d k v) k = Some v.
Proof.
  induction d as [| [k' v'] d IH]; cbn.
  - rewrite String.eqb_refl. reflexivity.
  - destruct (String.eqb k' k) eqn:E; cbn; rewrite E; [reflexivity | exact IH].
Qed.

Lemma lookup_set_other (d : Dict.t) (k k' : string) (v : pyval) :
  k <> k' -> Dict.lookup (Dict.set d k v) k' = Dict.lookup d k'.
Proof.
  intros Hne. induction d as [| [k0 v0] d IH]; cbn.
  - destruct (String.eqb_spec k k'); [contradiction | reflexivity].
  - destruct (String.eqb_spec k0 k) as [-> | Hk0]; cbn.
    + destruct (String.eqb_spec k k'); [contradiction | reflexivity].
    + destruct (String.eqb k0 k'); [reflexivity | exact IH].
Qed.

Lemma lookup_In (d : Dict.t) (k : string) (v : pyval) :
  Dict.lookup d k = Some v -> In k (map fst d).
Proof.
  induction d as [| [k' v'] d IH]; cbn; [discriminate|].
  destruct (String.eqb_spec k' k) as [-> | Hne]; [left; reflexivity|].
  intros H. right. exact (IH H).
Qed.

(** A number is resolved as such, with or without a header. *)
Lemma resolve_field_ref_number (self : MyTCSV.t) (has_header : pyval) :
  Dict.lookup (MyTCSV.tags self) MyTCSV.TAG_HAS_HEADER = Some has_header ->
  MyTCSV.resolve_field_ref self (VStr "1") = Ok 1.
Proof.
  intros H. unfold MyTCSV.resolve_field_ref, Dict.get. rewrite H. cbn.
  destruct (truthy has_header); reflexivity.
Qed.

(** A name is looked up among the field names when the tag is truthy, and
    is an error when it is not. *)
Lemma resolve_field_ref_name (self : MyTCSV.t) (has_header : pyval) :
  Dict.lookup (MyTCSV.tags self) MyTCSV.TAG_HAS_HEADER = Some has_header ->
  MyTCSV.field_names self = ["a"; "b"] ->
  MyTCSV.resolve_field_ref self (VStr "b") =
  if truthy has_header then Ok 1 else Raise ValueError.
Proof.
  intros H Hnames. unfold MyTCSV.resolve_field_ref, Dict.get. rewrite H, Hnames. cbn.
  destruct (truthy has_header); reflexivity.
Qed.

(** The tags a [MyTCSV] table transforms: the value of [has_header] becomes
    [False], whatever the file says. *)
Lemma transform_tags_has_header (items : list (string * pyval)) (self self' : MyTCSV.t) :
  In MyTCSV.TAG_HAS_HEADER (map fst items) \/
  Dict.lookup (MyTCSV.tags self) MyTCSV.TAG_HAS_HEADER = Some (VBool false) ->
  MyTCSV.transform_tags MyTCSV.methods items self = Ok self' ->
  Dict.lookup (MyTCSV.tags self') MyTCSV.TAG_HAS_HEADER = Some (VBool false) /\
  MyTCSV.field_names self' = MyTCSV.field_names self.
Proof.
  revert self. induction items as [| [key value] items IH]; intros self Hin Hrun.
  - cbn in Hrun. injection Hrun as <-.
    destruct Hin as [[] | H]. split; [exact H | reflexivity].
  - cbn [MyTCSV.transform_tags] in Hrun.
    cbn [MyTCSV.transform_tag_value MyTCSV.methods MyTCSV.__transform_tag_value__] in Hrun.
    destruct (String.eqb_spec key MyTCSV.TAG_HAS_HEADER) as [-> | Hkey].
    + cbn [bind] in Hrun. apply IH in Hrun; [exact Hrun|].
      right. cbn [MyTCSV.with_tags MyTCSV.tags]. apply lookup_set_same.
    + cbn [bind] in Hrun. apply IH in Hrun; [exact Hrun|].
      destruct Hin as [[Heq | Hin] | Hold].
      * cbn in Heq. contradiction.
      * left. exact Hin.
      * right. cbn [MyTCSV.with_tags MyTCSV.tags].
        rewrite lookup_set_other; [exact Hold | exact Hkey].
Qed.

Lemma bind_Ok {A B : Type} (m : result A) (k : A -> result B) (b : B) :
  bind m k = Ok b -> exists a, m = Ok a /\ k a = Ok b.
Proof.
  destruct m as [a | e]; cbn; [|discriminate].
  intros H. exists a. split; [reflexivity | exact H].
Qed.

(** X19.  Every table of the type [MyTCSV] itself is built with
    [has_header] set to [False], whatever its file and the defaults say. *)
Lemma MyTCSV_init_has_header (E : environment) (filename : string)
  (delimiter has_header decimal quote : pyval) (self : MyTCSV.t) :
  MyTCSV.__init__ MyTCSV.methods E filename delimiter has_header decimal quote = Ok self ->
  Dict.lookup (MyTCSV.tags self) MyTCSV.TAG_HAS_HEADER = Some (VBool false).
Proof.
  unfold MyTCSV.__init__. intros H.
  apply bind_Ok in H as (lines & _ & H).
  apply bind_Ok in H as (s0 & _ & H).
  apply bind_Ok in H as (v1 & _ & H).
  apply bind_Ok in H as (v2 & _ & H).
  apply bind_Ok in H as (v3 & _ & H).
  apply bind_Ok in H as (v4 & _ & H).
  set (tags4 := Dict.set _ MyTCSV.TAG_QUOTE v4) in H.
  assert (Hhh : Dict.lookup tags4 MyTCSV.TAG_HAS_HEADER = Some v2).
  { unfold tags4. cbn [MyTCSV.with_tags MyTCSV.tags].
    rewrite lookup_set_other by discriminate.
    rewrite lookup_set_other by discriminate.
    apply lookup_set_same. }
  unfold MyTCSV.__prepare_data_fetch__ in H.
  apply bind_Ok in H as (row_text & _ & H).
  apply bind_Ok in H as (dl & _ & H).
  apply bind_Ok in H as (row & _ & H).
  apply bind_Ok in H as (hh & _ & H).
  apply bind_Ok in H as (hl & _ & H).
  apply bind_Ok in H as (s5 & Hs5 & H).
  assert (Htags : MyTCSV.tags s5 = tags4).
  { cbn [MyTCSV.with_tags MyTCSV.tags] in Hs5.
    destruct (String.eqb hl "true").
    - apply bind_Ok in Hs5 as (q & _ & Hs5).
      apply bind_Ok in Hs5 as (names & _ & Hs5).
      destruct (MyTCSV.file _); injection Hs5 as <-; reflexivity.
    - injection Hs5 as <-. reflexivity. }
  apply transform_tags_has_header in H; [exact (proj1 H)|].
  left. rewrite Htags. exact (lookup_In _ _ _ Hhh).
Qed.

Lemma MyTCSV_init_has_header_witness :
  exists self, Scenario.open_table "table.csv" = Ok self /\
    Dict.lookup (MyTCSV.tags self) MyTCSV.TAG_HAS_HEADER = Some (VBool false).
Proof.
  eexists. split; [vm_compute; reflexivity|].
  apply (MyTCSV_init_has_header Scenario.env "table.csv" MyTCSV.default_delimiter
           MyTCSV.default_has_header MyTCSV.default_decimal MyTCSV.default_quote).
  vm_compute. reflexivity.
Defined.

(** C5, on the code.  The table with the tag [has_header=true] and the
    header [a,b] is built with the field names [a; b] and [has_header] set
    to [False], so the reference "b" is a [ValueError] while "1" is 1; for
    the table without a header "1" is 1 and "b" is a [ValueError]. *)
Theorem resolve_field_ref_with_header :
  (exists self, Scenario.open_table "table.csv" = Ok self /\
     MyTCSV.field_names self = ["a"; "b"] /\
     Dict.lookup (MyTCSV.tags self) MyTCSV.TAG_HAS_HEADER = Some (VBool false) /\
     MyTCSV.resolve_field_ref self (VStr "b") = Raise ValueError /\
     MyTCSV.resolve_field_ref self (VStr "1") = Ok 1) /\
  (exists self, Scenario.open_table "plain.csv" = Ok self /\
     MyTCSV.field_names self = [] /\
     MyTCSV.resolve_field_ref self (VStr "b") = Raise ValueError /\
     MyTCSV.resolve_field_ref self (VStr "1") = Ok 1).
Proof.
  split; eexists; (split; [vm_compute; reflexivity|]); repeat split.
Qed.

(** ** Dates of a pixel *)

Lemma mapM2_pure {A B C : Type} (f : A -> B -> C) (l : list A) (l' : list B) :
  mapM2 (fun a b => Ok (f a b)) l l' =
  Ok (map (fun p => f (fst p) (snd p)) (combine l l')).
Proof.
  revert l'. induction l as [| a l IH]; intros [| b l']; try reflexivity.
  cbn. rewrite IH. reflexivity.
Qed.

(** The mask of the day-of-year values, one no-data value per band. *)
Lemma mask_nodata_same_length (stack : Mygdal.t) (doys : list pyfloat) :
  List.length (Mygdal.values_nodata stack) = List.length doys ->
  Mygdal.mask_nodata_pixel_bands stack doys =
  Ok (map (fun p => Mygdal.ne_nodata (fst p) (snd p))
          (combine doys (Mygdal.values_nodata stack))).
Proof.
  intros Hlen. unfold Mygdal.mask_nodata_pixel_bands, broadcast2.
  rewrite Hlen, Nat.eqb_refl. apply mapM2_pure.
Qed.

Lemma nth_error_mask (doys : list pyfloat) (nodata : list (option pyfloat))
  (j : nat) (valid : bool) :
  nth_error (map (fun p => Mygdal.ne_nodata (fst p) (snd p)) (combine doys nodata)) j
  = Some valid ->
  exists doy n, nth_error doys j = Some doy /\ nth_error nodata j = Some n /\
                valid = Mygdal.ne_nodata doy n.
Proof.
  revert nodata j. induction doys as [| d doys IH]; intros [| n nodata] [| j]; cbn;
    try discriminate.
  - intros H. injection H as <-. exists d, n. repeat split.
  - apply IH.
Qed.

(** The loop returns one date per row once every row resolves. *)
Lemma pixel_dates_loop_total (self : Timeline.t) (dates : list pyval) :
  forall (mask : list bool) (doys : list pyfloat),
  List.length mask = List.length dates -> List.length doys = List.length dates ->
  (forall j valid date doy,
     nth_error mask j = Some valid -> nth_error dates j = Some date ->
     nth_error doys j = Some doy ->
     exists r, Timeline.pixel_date self valid date doy = Ok r) ->
  exists result,
    Timeline.pixel_dates_loop self mask dates doys = Ok result /\
    List.length result = List.length dates /\
    forall j valid date doy,
      nth_error mask j = Some valid -> nth_error dates j = Some date ->
      nth_error doys j = Some doy ->
      exists r, Timeline.pixel_date self valid date doy = Ok r /\
                nth_error result j = Some r.
Proof.
  induction dates as [| date dates IH]; intros mask doys Hmask Hdoys Hrows.
  - exists []. destruct mask; [|discriminate Hmask].
    split; [reflexivity|]. split; [reflexivity|].
    intros [| j] valid date doy _ H; discriminate H.
  - destruct mask as [| valid mask]; [discriminate Hmask|].
    destruct doys as [| doy doys]; [discriminate Hdoys|].
    cbn in Hmask, Hdoys.
    destruct (Hrows 0%nat valid date doy eq_refl eq_refl eq_refl) as [r Hr].
    destruct (IH mask doys) as (rest & Hrest & Hlen & Hnth); try lia.
    { intros j v d y Hv Hd Hy. exact (Hrows (S j) v d y Hv Hd Hy). }
    exists (r :: rest). cbn [Timeline.pixel_dates_loop].
    rewrite Hr. cbn [bind]. rewrite Hrest. cbn [bind].
    split; [reflexivity|]. split; [cbn; lia|].
    intros [| j] v d y Hv Hd Hy.
    + cbn in Hv, Hd, Hy. injection Hv as <-. injection Hd as <-. injection Hy as <-.
      exists r. split; [exact Hr | reflexivity].
    + exact (Hnth j v d y Hv Hd Hy).
Qed.

(** A raster built by [__init__] reads one value per no-data value. *)
Lemma init_nodata_length (E : environment) (filename : string) (self : Mygdal.t)
  (pixel : Z * Z) (values : list pyfloat) :
  Mygdal.__init__ E filename = Ok self ->
  Mygdal.read_pixel_values self pixel = Ok values ->
  List.length (Mygdal.values_nodata self) = List.length values.
Proof.
  unfold Mygdal.__init__. destruct (gdal_Open E filename) as [ds |]; [|discriminate].
  intros H. injection H as <-. unfold Mygdal.read_pixel_values. cbn.
  intros H. injection H as <-. unfold ReadAsArray.
  rewrite !length_map. reflexivity.
Qed.

(** [read_pixel_dates] up to its loop. *)
Lemma read_pixel_dates_unfold (self : Timeline.t) (pixel : Z * Z)
  (doys : list pyfloat) (dates : list pyval) :
  timeline_reads self pixel doys dates ->
  Timeline.read_pixel_dates self pixel =
  if negb (List.length doys =? List.length dates)%nat then
    Raise (Exception __error_time_line_length__
             (format __error_time_line_length_msg__
                     [str_of_nat (List.length dates); str_of_nat (List.length doys)]))
  else Timeline.pixel_dates_loop self
         (map (fun p => Mygdal.ne_nodata (fst p) (snd p))
              (combine doys (Mygdal.values_nodata (Timeline.doy_stack self))))
         dates doys.
Proof.
  intros (Hread & Hlen & k & Hk & Hdates).
  unfold Timeline.read_pixel_dates. rewrite Hread. cbn [bind].
  rewrite (mask_nodata_same_length _ _ Hlen). cbn [bind].
  unfold Dict.get. rewrite Hk. cbn [of_option bind as_index].
  rewrite Hdates. reflexivity.
Qed.

(** Day 45 of 2020 at the factor 1.0 is 45 days after January 1. *)
Lemma pixel_date_day_45 (self : Timeline.t) (d : Datetime.datetime) :
  Dict.lookup (MyTCSV.tags (Timeline.table self)) Timeline.TAG_DAY_FACTOR
  = Some (VFloat (Fin 1)) ->
  Datetime.year d = 2020 ->
  Timeline.pixel_date self true (VDate d) (Fin 45) = Ok (ymd 2020 2 15).
Proof.
  intros Hfactor Hyear. unfold Timeline.pixel_date, Dict.get.
  cbn [Timeline.year_of bind]. rewrite Hyear, Hfactor. reflexivity.
Qed.

(** Rows that resolve: a masked row keeps its date; a valid row resolves
    when its table date lies in the years 1 to 9998 and its day offset
    [doy * factor] lies between 0 and 366 days. *)

Lemma round_half_even_bounds (x : Q) (n : Z) :
  (0 <= x)%Q -> (x <= inject_Z n)%Q ->
  0 <= Datetime.round_half_even x <= n.
Proof.
  intros H0 Hn.
  assert (Hf0 : 0 <= Qfloor x).
  { change 0 with (Qfloor 0). apply Qfloor_resp_le. exact H0. }
  assert (Hfn : Qfloor x <= n).
  { rewrite <- (Qfloor_Z n). apply Qfloor_resp_le. exact Hn. }
  assert (Hup : (inject_Z (Qfloor x) < x)%Q -> Qfloor x + 1 <= n).
  { intros Hlt. assert (H : (inject_Z (Qfloor x) < inject_Z n)%Q).
    { eapply Qlt_le_trans; eassumption. }
    rewrite <- Zlt_Qlt in H. lia. }
  assert (Hhalf : (1 # 2 <= x - inject_Z (Qfloor x))%Q -> (inject_Z (Qfloor x) < x)%Q).
  { intros H. apply Qlt_minus_iff.
    eapply Qlt_le_trans; [|exact H]. reflexivity. }
  unfold Datetime.round_half_even.
  destruct (Qcompare_spec (x - inject_Z (Qfloor x)) (1 # 2)) as [He | Hl | Hg].
  - destruct (Z.even (Qfloor x)); [lia|].
    split; [lia|]. apply Hup, Hhalf. rewrite He. apply Qle_refl.
  - lia.
  - split; [lia|]. apply Hup, Hhalf. apply Qlt_le_weak. exact Hg.
Qed.

Lemma days_before_year_bounds (y : Z) :
  1 <= y <= 9998 -> 0 <= Datetime.days_before_year y <= 3651428.
Proof.
  intros H. unfold Datetime.days_before_year. cbv zeta.
  Z.to_euclidean_division_equations. lia.
Qed.

Lemma make_january_1 (y : Z) :
  1 <= y <= 9999 ->
  Datetime.make y 1 1 = Ok (Datetime.mk_datetime y 1 1 0 0 0 0).
Proof.
  intros H. unfold Datetime.make, Datetime.MINYEAR, Datetime.MAXYEAR.
  destruct (Z.leb_spec 1 y); [|lia]. destruct (Z.leb_spec y 9999); [|lia].
  reflexivity.
Qed.

Lemma add_days_in_range (y us : Z) :
  1 <= y <= 9998 -> 0 <= us <= 366 * Datetime.US_PER_DAY ->
  exists delta,
    Datetime.of_microseconds us = Ok delta /\
    exists t, Datetime.add (Datetime.mk_datetime y 1 1 0 0 0 0) delta = Ok t.
Proof.
  intros Hy Hus. unfold Datetime.of_microseconds.
  pose proof (days_before_year_bounds y Hy) as Hdby.
  assert (HU : Datetime.US_PER_DAY = 86400000000) by reflexivity.
  assert (HS : Datetime.US_PER_SECOND = 1000000) by reflexivity.
  rewrite HU, HS in *.
  set (d := us / 86400000000). set (r := us mod 86400000000).
  assert (Hd : 0 <= d <= 366) by (unfold d; Z.to_euclidean_division_equations; lia).
  assert (Hr : 0 <= r < 86400000000)
    by (unfold r; Z.to_euclidean_division_equations; lia).
  destruct (Z.ltb_spec 999999999 (Z.abs d)); [lia|].
  eexists. split; [reflexivity|].
  unfold Datetime.add, Datetime.toordinal, Datetime.ymd2ord.
  cbn [Datetime.year Datetime.month Datetime.day Datetime.hour Datetime.minute
       Datetime.second Datetime.microsecond Datetime.td_days Datetime.td_seconds
       Datetime.td_microseconds].
  rewrite HU, HS.
  replace ((0 * 3600 + 0 * 60 + 0 + r / 1000000) * 1000000 + 0 + r mod 1000000)
    with r by (Z.to_euclidean_division_equations; lia).
  replace (r / 86400000000) with 0 by (Z.to_euclidean_division_equations; lia).
  change (Datetime.days_before_month y 1) with 0.
  set (days := Datetime.days_before_year y + 0 + 1 + d + 0).
  assert (Hdays : 0 < days <= Datetime.MAXORDINAL).
  { unfold days, Datetime.MAXORDINAL. lia. }
  destruct (Z.ltb_spec 0 days); [|lia].
  destruct (Z.leb_spec days Datetime.MAXORDINAL); [|lia].
  cbn [andb]. destruct (Datetime.ord2ymd days) as [[y' m'] d'].
  eexists. reflexivity.
Qed.

Lemma day_microseconds_bounds (q : Q) :
  (0 <= q)%Q -> (q <= 366)%Q ->
  0 <= Datetime.round_half_even (q * inject_Z Datetime.US_PER_DAY)
    <= 366 * Datetime.US_PER_DAY.
Proof.
  intros H0 H366. apply round_half_even_bounds.
  - apply Qmult_le_0_compat; [exact H0 | discriminate].
  - rewrite inject_Z_mult. apply Qmult_le_compat_r; [exact H366 | discriminate].
Qed.

Lemma pixel_date_resolves (self : Timeline.t) (valid : bool) (date : pyval)
  (doy : pyfloat) :
  valid = false \/
  (exists d factor f q,
     date = VDate d /\ 1 <= Datetime.year d <= 9998 /\
     Dict.lookup (MyTCSV.tags (Timeline.table self)) Timeline.TAG_DAY_FACTOR
     = Some factor /\
     as_number factor = Some f /\ F.mul doy f = Fin q /\ (0 <= q)%Q /\ (q <= 366)%Q) ->
  exists r, Timeline.pixel_date self valid date doy = Ok r.
Proof.
  intros [-> | (d & factor & f & q & -> & Hy & Hfactor & Hf & Hq & H0 & H366)].
  - exists date. reflexivity.
  - destruct valid; [|eexists; reflexivity].
    unfold Timeline.pixel_date, Dict.get. cbn [Timeline.year_of bind].
    rewrite make_january_1 by lia. cbn [bind].
    rewrite Hfactor. cbn [of_option bind]. unfold Timeline.scale.
    rewrite Hf, Hq. cbn [bind Datetime.timedelta_of_days].
    destruct (add_days_in_range (Datetime.year d)
                (Datetime.round_half_even (q * inject_Z Datetime.US_PER_DAY)) Hy
                (day_microseconds_bounds q H0 H366)) as (delta & Hdelta & t & Ht).
    rewrite Hdelta. cbn [bind]. rewrite Ht. eexists. reflexivity.
Qed.

Lemma nth_error_mask_intro (doys : list pyfloat) (nodata : list (option pyfloat))
  (j : nat) (doy : pyfloat) (n : option pyfloat) :
  nth_error doys j = Some doy -> nth_error nodata j = Some n ->
  nth_error (map (fun p => Mygdal.ne_nodata (fst p) (snd p)) (combine doys nodata)) j
  = Some (Mygdal.ne_nodata doy n).
Proof.
  revert nodata j. induction doys as [| d doys IH]; intros [| n' nodata] [| j]; cbn;
    try discriminate.
  - intros H H'. injection H as <-. injection H' as <-. reflexivity.
  - apply IH.
Qed.

Lemma mask_length (doys : list pyfloat) (nodata : list (option pyfloat)) :
  List.length nodata = List.length doys ->
  List.length (map (fun p => Mygdal.ne_nodata (fst p) (snd p)) (combine doys nodata))
  = List.length doys.
Proof.
  intros H. rewrite length_map, length_combine, H. apply Nat.min_id.
Qed.

(** With as many day-of-year values as rows, [read_pixel_dates] returns
    one date per row, each the result of [pixel_date], once every row
    resolves. *)
Lemma read_pixel_dates_rows (self : Timeline.t) (pixel : Z * Z)
  (doys : list pyfloat) (dates : list pyval) :
  timeline_reads self pixel doys dates ->
  List.length doys = List.length dates ->
  (forall j valid date doy,
     timeline_row self doys dates j valid date doy ->
     exists r, Timeline.pixel_date self valid date doy = Ok r) ->
  exists result,
    Timeline.read_pixel_dates self pixel = Ok result /\
    List.length result = List.length dates /\
    forall j valid date doy,
      timeline_row self doys dates j valid date doy ->
      exists r, Timeline.pixel_date self valid date doy = Ok r /\
                nth_error result j = Some r.
Proof.
  intros Hreads Hlen Hrows.
  rewrite (read_pixel_dates_unfold self pixel doys dates Hreads).
  rewrite Hlen, Nat.eqb_refl. cbn [negb].
  destruct Hreads as (_ & Hnodata & _).
  destruct (pixel_dates_loop_total self dates
              (map (fun p => Mygdal.ne_nodata (fst p) (snd p))
                   (combine doys (Mygdal.values_nodata (Timeline.doy_stack self))))
              doys) as (result & Hresult & Hlength & Hnth).
  - rewrite mask_length; assumption.
  - exact Hlen.
  - intros j valid date doy Hv Hd Hy.
    apply nth_error_mask in Hv as (doy' & n & Hy' & Hn & ->).
    rewrite Hy in Hy'. injection Hy' as <-.
    apply (Hrows j). repeat split; try assumption. exists n. split; [exact Hn | reflexivity].
  - exists result. split; [exact Hresult|]. split; [exact Hlength|].
    intros j valid date doy (Hd & Hy & n & Hn & ->).
    apply (Hnth j); try assumption.
    apply nth_error_mask_intro; assumption.
Qed.

(** C3, as the code has it.  For a row whose table date lies in 2020,
    with the day-of-year value 45 at the pixel and the factor 1.0,
    [read_pixel_dates] gives 2020-02-15 (January 1 plus 45 days) when the
    value is not the no-data value of its band, and the table's own date
    when it is; the other rows only have to resolve. *)
Theorem read_pixel_dates_day_45 (self : Timeline.t) (pixel : Z * Z)
  (doys : list pyfloat) (dates : list pyval) (i : nat) (valid : bool)
  (d : Datetime.datetime) :
  timeline_reads self pixel doys dates ->
  List.length doys = List.length dates ->
  Dict.lookup (MyTCSV.tags (Timeline.table self)) Timeline.TAG_DAY_FACTOR
  = Some (VFloat (Fin 1)) ->
  timeline_row self doys dates i valid (VDate d) (Fin 45) ->
  Datetime.year d = 2020 ->
  (forall j v date doy,
     j <> i -> timeline_row self doys dates j v date doy ->
     exists r, Timeline.pixel_date self v date doy = Ok r) ->
  exists result,
    Timeline.read_pixel_dates self pixel = Ok result /\
    nth_error result i = Some (if valid then ymd 2020 2 15 else VDate d).
Proof.
  intros Hreads Hlen Hfactor Hrow Hyear Hothers.
  assert (Hi : Timeline.pixel_date self valid (VDate d) (Fin 45) =
               Ok (if valid then ymd 2020 2 15 else VDate d)).
  { destruct valid; [apply pixel_date_day_45; assumption | reflexivity]. }
  destruct (read_pixel_dates_rows self pixel doys dates Hreads Hlen)
    as (result & Hresult & _ & Hnth).
  - intros j v date doy Hj.
    destruct (Nat.eq_dec j i) as [-> | Hne]; [|exact (Hothers j v date doy Hne Hj)].
    destruct Hrow as (Hd & Hy & n & Hn & Hv).
    destruct Hj as (Hd' & Hy' & n' & Hn' & Hv').
    rewrite Hd in Hd'. injection Hd' as <-.
    rewrite Hy in Hy'. injection Hy' as <-.
    rewrite Hn in Hn'. injection Hn' as <-.
    rewrite Hv', <- Hv, Hi. eexists. reflexivity.
  - exists result. split; [exact Hresult|].
    destruct (Hnth i valid (VDate d) (Fin 45) Hrow) as (r & Hr & Hri).
    rewrite Hi in Hr. injection Hr as <-. exact Hri.
Qed.

(** C7, as the code has it.  When the number of day-of-year values read at
    the pixel differs from the number of rows, [read_pixel_dates] raises the
    error of kind [WrongTimeLineLength]; when the two agree it returns one
    date per row, once every row resolves. *)
Theorem read_pixel_dates_length_check (self : Timeline.t) (pixel : Z * Z)
  (doys : list pyfloat) (dates : list pyval) :
  timeline_reads self pixel doys dates ->
  (List.length doys <> List.length dates ->
   Timeline.read_pixel_dates self pixel =
   Raise (Exception "WrongTimeLineLength"
            (format __error_time_line_length_msg__
                    [str_of_nat (List.length dates); str_of_nat (List.length doys)]))) /\
  (List.length doys = List.length dates ->
   (forall j valid date doy,
      timeline_row self doys dates j valid date doy ->
      exists r, Timeline.pixel_date self valid date doy = Ok r) ->
   exists result,
     Timeline.read_pixel_dates self pixel = Ok result /\
     List.length result = List.length dates).
Proof.
  intros Hreads. split.
  - intros Hne. rewrite (read_pixel_dates_unfold self pixel doys dates Hreads).
    apply Nat.eqb_neq in Hne. rewrite Hne. reflexivity.
  - intros Hlen Hrows.
    destruct (read_pixel_dates_rows self pixel doys dates Hreads Hlen Hrows)
      as (result & Hresult & Hlength & _).
    exists result. split; assumption.
Qed.

Lemma read_pixel_dates_day_45_witness :
  exists self, Scenario.fetched_timeline "timeline.csv" = Ok self /\
    (exists result, Timeline.read_pixel_dates self (3, 3) = Ok result /\
                    nth_error result 0 = Some (ymd 2020 2 15)) /\
    (exists result, Timeline.read_pixel_dates self (3, 3) = Ok result /\
                    nth_error result 1 = Some (ymd 2020 1 1)).
Proof.
  eexists. split; [vm_compute; reflexivity|].
  split.
  - apply (read_pixel_dates_day_45 _ (3, 3) [Fin 45; Fin 45]
             [ymd 2020 1 1; ymd 2020 1 1] 0 true
             (Datetime.mk_datetime 2020 1 1 0 0 0 0)).
    + split; [reflexivity|]. split; [reflexivity|]. exists 0. split; reflexivity.
    + reflexivity.
    + reflexivity.
    + split; [reflexivity|]. split; [reflexivity|]. eexists. split; reflexivity.
    + reflexivity.
    + intros j v date doy Hne (Hd & Hy & n & Hn & Hv).
      destruct j as [| [| j]].
      * contradiction.
      * injection Hd as <-. injection Hy as <-. injection Hn as <-. rewrite Hv.
        eexists. reflexivity.
      * destruct j; discriminate Hd.
  - apply (read_pixel_dates_day_45 _ (3, 3) [Fin 45; Fin 45]
             [ymd 2020 1 1; ymd 2020 1 1] 1 false
             (Datetime.mk_datetime 2020 1 1 0 0 0 0)).
    + split; [reflexivity|]. split; [reflexivity|]. exists 0. split; reflexivity.
    + reflexivity.
    + reflexivity.
    + split; [reflexivity|]. split; [reflexivity|]. eexists. split; reflexivity.
    + reflexivity.
    + intros j v date doy Hne (Hd & Hy & n & Hn & Hv).
      destruct j as [| [| j]].
      * injection Hd as <-. injection Hy as <-. injection Hn as <-. rewrite Hv.
        eexists. reflexivity.
      * contradiction.
      * destruct j; discriminate Hd.
Defined.

(** C3, as the specification states it, fails: the first row of the
    timeline has the table date 2020-01-01, the day-of-year value 45 (its
    band's no-data value is -1) and the factor 1.0, and its date is
    2020-02-15, not 2020-02-14.  The second row is masked and keeps its
    table date. *)
Lemma read_pixel_dates_counterexample :
  exists self, Scenario.fetched_timeline "timeline.csv" = Ok self /\
    getitem (MyTCSV.data (Timeline.table self)) 0 = Ok [ymd 2020 1 1; ymd 2020 1 1] /\
    Mygdal.read_pixel_values (Timeline.doy_stack self) (3, 3) = Ok [Fin 45; Fin 45] /\
    Mygdal.mask_nodata_pixel_bands (Timeline.doy_stack self) [Fin 45; Fin 45]
    = Ok [true; false] /\
    Dict.lookup (MyTCSV.tags (Timeline.table self)) Timeline.TAG_DAY_FACTOR
    = Some (VFloat (Fin 1)) /\
    Timeline.read_pixel_dates self (3, 3) = Ok [ymd 2020 2 15; ymd 2020 1 1] /\
    ymd 2020 2 15 <> ymd 2020 2 14.
Proof.
  eexists. split; [vm_compute; reflexivity|].
  repeat split; try (vm_compute; reflexivity).
  discriminate.
Qed.

Lemma read_pixel_dates_length_check_witness :
  (exists self, Scenario.fetched_timeline "short.csv" = Ok self /\
     Timeline.read_pixel_dates self (3, 3) =
     Raise (Exception "WrongTimeLineLength"
              "Time line length (1) is different of stack time series length (2).")) /\
  (exists self, Scenario.fetched_timeline "timeline.csv" = Ok self /\
     exists result, Timeline.read_pixel_dates self (3, 3) = Ok result /\
                    List.length result = 2%nat).
Proof.
  split.
  - eexists. split; [vm_compute; reflexivity|].
    refine (proj1 (read_pixel_dates_length_check _ (3, 3) [Fin 45; Fin 45]
                     [ymd 2020 1 1] _) _).
    + split; [reflexivity|]. split; [reflexivity|]. exists 0. split; reflexivity.
    + discriminate.
  - eexists. split; [vm_compute; reflexivity|].
    refine (proj2 (read_pixel_dates_length_check _ (3, 3) [Fin 45; Fin 45]
                     [ymd 2020 1 1; ymd 2020 1 1] _) _ _).
    + split; [reflexivity|]. split; [reflexivity|]. exists 0. split; reflexivity.
    + reflexivity.
    + intros j v date doy (Hd & Hy & n & Hn & Hv).
      destruct j as [| [| j]].
      * injection Hd as <-. injection Hy as <-. injection Hn as <-. rewrite Hv.
        eexists. reflexivity.
      * injection Hd as <-. injection Hy as <-. injection Hn as <-. rewrite Hv.
        eexists. reflexivity.
      * destruct j; discriminate Hd.
Defined.

(** C7, as the specification states it, fails on the kind of the error:
    with one row and two day-of-year values the error raised is
    [WrongTimeLineLength], not [DiffStacksLength]. *)
Lemma read_pixel_dates_length_counterexample :
  exists self, Scenario.fetched_timeline "short.csv" = Ok self /\
    Mygdal.read_pixel_values (Timeline.doy_stack self) (3, 3) = Ok [Fin 45; Fin 45] /\
    getitem (MyTCSV.data (Timeline.table self)) 0 = Ok [ymd 2020 1 1] /\
    Timeline.read_pixel_dates self (3, 3) =
    Raise (Exception "WrongTimeLineLength"
             "Time line length (1) is different of stack time series length (2).") /\
    __error_stacks_length__ = "DiffStacksLength" /\
    "WrongTimeLineLength" <> __error_stacks_length__.
Proof.
  eexists. split; [vm_compute; reflexivity|].
  repeat split; try (vm_compute; reflexivity).
  discriminate.
Qed.

(** ** Samples *)

Lemma mapM_length {A B : Type} (f : A -> result B) (xs : list A) (ys : list B) :
  mapM f xs = Ok ys -> List.length ys = List.length xs.
Proof.
  revert ys. induction xs as [| x xs IH]; intros ys H; cbn in H.
  - injection H as <-. reflexivity.
  - apply bind_Ok in H as (y & _ & H).
    apply bind_Ok in H as (ys' & Hys' & H).
    injection H as <-. cbn. rewrite (IH ys' Hys'). reflexivity.
Qed.




(** The filter with one date as both bounds keeps only that date. *)

Lemma mapM_nth {A B : Type} (f : A -> result B) (xs : list A) (ys : list B) :
  mapM f xs = Ok ys ->
  forall j y, nth_error ys j = Some y ->
  exists x, nth_error xs j = Some x /\ f x = Ok y.
Proof.
  revert ys. induction xs as [| x xs IH]; intros ys H j y Hj; cbn in H.
  - injection H as <-. destruct j; discriminate Hj.
  - apply bind_Ok in H as (y0 & Hy0 & H).
    apply bind_Ok in H as (ys' & Hys' & H). injection H as <-.
    destruct j as [| j]; cbn in Hj.
    + injection Hj as <-. exists x. split; [reflexivity | exact Hy0].
    + exact (IH ys' Hys' j y Hj).
Qed.

Lemma nth_error_zip_and (a b : list bool) (j : nat) :
  nth_error (map (fun p => fst p && snd p) (combine a b)) j = Some true ->
  nth_error a j = Some true /\ nth_error b j = Some true.
Proof.
  revert b j. induction a as [| x a IH]; intros [| y b] [| j]; cbn; try discriminate.
  - intros H. injection H as H. apply andb_true_iff in H as [-> ->]. split; reflexivity.
  - apply IH.
Qed.

Lemma mask_and_true (mask : list bool) (test : pyval -> result bool)
  (dates : list pyval) (mask' : list bool) :
  List.length mask = List.length dates ->
  Samples.mask_and mask test dates = Ok mask' ->
  List.length mask' = List.length dates /\
  forall j, nth_error mask' j = Some true ->
    nth_error mask j = Some true /\
    exists x, nth_error dates j = Some x /\ test x = Ok true.
Proof.
  intros Hlen H. unfold Samples.mask_and in H.
  apply bind_Ok in H as (inside & Hinside & H).
  pose proof (mapM_length _ _ _ Hinside) as Hil.
  unfold broadcast2 in H. rewrite Hlen, <- Hil, Nat.eqb_refl in H.
  rewrite mapM2_pure in H. injection H as <-.
  split.
  - rewrite length_map, length_combine. lia.
  - intros j Hj. apply nth_error_zip_and in Hj as [Hm Hi].
    split; [exact Hm|]. exact (mapM_nth _ _ _ Hinside j true Hi).
Qed.

Lemma lex_compare_antisym (a b : list Z) :
  Datetime.lex_compare b a = CompOpp (Datetime.lex_compare a b).
Proof.
  revert b. induction a as [| x a IH]; intros [| y b]; try reflexivity.
  cbn. rewrite (Z.compare_antisym x y).
  destruct (x ?= y); cbn; [apply IH | reflexivity | reflexivity].
Qed.

Lemma ge_le_compare (x d : Datetime.datetime) :
  Datetime.ge x d = true -> Datetime.ge d x = true -> Datetime.compare x d = Eq.
Proof.
  unfold Datetime.ge, Datetime.compare.
  rewrite (lex_compare_antisym (Datetime.key x) (Datetime.key d)).
  destruct (Datetime.lex_compare (Datetime.key x) (Datetime.key d)); cbn;
    intros H H'; try discriminate; reflexivity.
Qed.

Lemma py_ge_date (x : pyval) (d : Datetime.datetime) :
  py_ge x (VDate d) = Ok true -> exists x', x = VDate x' /\ Datetime.ge x' d = true.
Proof.
  destruct x as [| b | z | f | s | x' | l]; cbn; try discriminate.
  - intros H. injection H as H. exists x'. split; [reflexivity | exact H].
Qed.

(** X20.  The interval filter with one date for both bounds, as
    [get_samples_timeseries] calls it, keeps the length of the mask and
    leaves true only the flags of the dates equal to that bound. *)
Lemma filter_interval_same_bound (mask : list bool) (dates : list pyval)
  (d : Datetime.datetime) (mask' : list bool) :
  List.length mask = List.length dates ->
  Samples.filter_interval mask dates (VDate d) (VDate d) = Ok mask' ->
  List.length mask' = List.length dates /\
  forall j, nth_error mask' j = Some true ->
    exists x, nth_error dates j = Some (VDate x) /\ Datetime.compare x d = Eq.
Proof.
  intros Hlen H. unfold Samples.filter_interval in H. cbn [truthy andb] in H.
  apply bind_Ok in H as (mask1 & H1 & H2).
  apply (mask_and_true _ _ _ _ Hlen) in H1 as [Hlen1 Hge].
  apply (mask_and_true _ _ _ _ Hlen1) in H2 as [Hlen2 Hle].
  split; [exact Hlen2|].
  intros j Hj. destruct (Hle j Hj) as (Hm1 & x & Hx & Hxle).
  destruct (Hge j Hm1) as (_ & x0 & Hx0 & Hxge).
  rewrite Hx in Hx0. injection Hx0 as <-.
  apply py_ge_date in Hxge as (x' & -> & Hge').
  exists x'. split; [exact Hx|].
  apply ge_le_compare; [exact Hge'|].
  unfold py_le in Hxle. cbn in Hxle. injection Hxle as Hxle. exact Hxle.
Qed.

Lemma filter_interval_same_bound_witness :
  exists mask',
    Samples.filter_interval [true; true] [ymd 2020 2 15; ymd 2020 1 1]
      (ymd 2020 1 1) (ymd 2020 1 1) = Ok mask' /\
    List.length mask' = 2%nat /\
    forall j, nth_error mask' j = Some true ->
      exists x, nth_error [ymd 2020 2 15; ymd 2020 1 1] j = Some (VDate x) /\
                Datetime.compare x (Datetime.mk_datetime 2020 1 1 0 0 0 0) = Eq.
Proof.
  eexists. split; [vm_compute; reflexivity|].
  apply (filter_interval_same_bound [true; true] [ymd 2020 2 15; ymd 2020 1 1]
           (Datetime.mk_datetime 2020 1 1 0 0 0 0)); reflexivity.
Defined.

(** C4, on the code.  The sample of the table has the interval from
    2020-01-01 to 2020-12-31, and its pixel two observations of the band,
    3 on 2020-02-15 and 5 on 2020-01-01, both valid and both within the
    interval.  Without the filter both are returned, scaled by the factor
    2.0; with the filter only the observation dated as the from-date is. *)
Theorem get_samples_timeseries_interval :
  exists self, Scenario.fetched_samples "samples.csv" = Ok self /\
    Samples.column self Samples.TAG_FROM_DT_FIELD = Ok [ymd 2020 1 1] /\
    Samples.column self Samples.TAG_TO_DT_FIELD = Ok [ymd 2020 12 31] /\
    Samples.bands_factor self = [VFloat (Fin 2)] /\
    Samples.get_samples_timeseries Scenario.env self None false =
    Ok [[([Fin 6; Fin 10], [ymd 2020 2 15; ymd 2020 1 1])]] /\
    Samples.get_samples_timeseries Scenario.env self None true =
    Ok [[([Fin 10], [ymd 2020 1 1])]] /\
    py_ge (ymd 2020 2 15) (ymd 2020 1 1) = Ok true /\
    py_le (ymd 2020 2 15) (ymd 2020 12 31) = Ok true.
Proof.
  eexists. split; [vm_compute; reflexivity|].
  repeat split; vm_compute; reflexivity.
Qed.

(** * Further properties of the code *)

(** ** Tables: construction *)

Lemma lookup_set_present (d : Dict.t) (k k' : string) (v : pyval) :
  Dict.lookup d k' <> None -> Dict.lookup (Dict.set d k v) k' <> None.
Proof.
  intros H. destruct (String.eqb_spec k k') as [-> | Hne].
  - rewrite lookup_set_same. discriminate.
  - rewrite lookup_set_other by exact Hne. exact H.
Qed.

Lemma transform_tags_keeps_keys (H : MyTCSV.hooks) (items : list (string * pyval))
  (self self' : MyTCSV.t) (k : string) :
  MyTCSV.transform_tags H items self = Ok self' ->
  Dict.lookup (MyTCSV.tags self) k <> None ->
  Dict.lookup (MyTCSV.tags self') k <> None.
Proof.
  revert self. induction items as [| [key value] items IH]; intros self Hrun Hk.
  - cbn in Hrun. injection Hrun as <-. exact Hk.
  - cbn [MyTCSV.transform_tags] in Hrun.
    apply bind_Ok in Hrun as (v & _ & Hrun).
    apply (IH _ Hrun). cbn [MyTCSV.with_tags MyTCSV.tags].
    apply lookup_set_present. exact Hk.
Qed.

Lemma init_tags (H : MyTCSV.hooks) (E : environment) (filename : string)
  (delimiter has_header decimal quote : pyval) (self : MyTCSV.t) :
  MyTCSV.__init__ H E filename delimiter has_header decimal quote = Ok self ->
  exists before,
    MyTCSV.transform_tags H (MyTCSV.tags before) before = Ok self /\
    forall k, In k [MyTCSV.TAG_DELIMITER; MyTCSV.TAG_HAS_HEADER;
                    MyTCSV.TAG_DECIMAL; MyTCSV.TAG_QUOTE] ->
              Dict.lookup (MyTCSV.tags before) k <> None.
Proof.
  unfold MyTCSV.__init__. intros Hrun.
  apply bind_Ok in Hrun as (lines & _ & Hrun).
  apply bind_Ok in Hrun as (s0 & _ & Hrun).
  apply bind_Ok in Hrun as (v1 & _ & Hrun).
  apply bind_Ok in Hrun as (v2 & _ & Hrun).
  apply bind_Ok in Hrun as (v3 & _ & Hrun).
  apply bind_Ok in Hrun as (v4 & _ & Hrun).
  set (tags4 := Dict.set _ MyTCSV.TAG_QUOTE v4) in Hrun.
  assert (Hkeys : forall k, In k [MyTCSV.TAG_DELIMITER; MyTCSV.TAG_HAS_HEADER;
                                  MyTCSV.TAG_DECIMAL; MyTCSV.TAG_QUOTE] ->
                            Dict.lookup tags4 k <> None).
  { intros k Hk. unfold tags4. cbn [MyTCSV.with_tags MyTCSV.tags].
    destruct Hk as [<- | [<- | [<- | [<- | []]]]].
    - do 3 apply lookup_set_present. rewrite lookup_set_same. discriminate.
    - do 2 apply lookup_set_present. rewrite lookup_set_same. discriminate.
    - apply lookup_set_present. rewrite lookup_set_same. discriminate.
    - rewrite lookup_set_same. discriminate. }
  unfold MyTCSV.__prepare_data_fetch__ in Hrun.
  apply bind_Ok in Hrun as (row_text & _ & Hrun).
  apply bind_Ok in Hrun as (dl & _ & Hrun).
  apply bind_Ok in Hrun as (row & _ & Hrun).
  apply bind_Ok in Hrun as (hh & _ & Hrun).
  apply bind_Ok in Hrun as (hl & _ & Hrun).
  apply bind_Ok in Hrun as (s5 & Hs5 & Hrun).
  assert (Htags : MyTCSV.tags s5 = tags4).
  { cbn [MyTCSV.with_tags MyTCSV.tags] in Hs5.
    destruct (String.eqb hl "true").
    - apply bind_Ok in Hs5 as (q & _ & Hs5).
      apply bind_Ok in Hs5 as (names & _ & Hs5).
      destruct (MyTCSV.file _); injection Hs5 as <-; reflexivity.
    - injection Hs5 as <-. reflexivity. }
  exists s5. split; [exact Hrun|]. rewrite Htags. exact Hkeys.
Qed.

Lemma int_of_no_KeyError (v : pyval) (k : string) : MyTCSV.int_of v <> Raise (KeyError k).
Proof.
  destruct v as [| b | z | [q | s |] | s | d | l]; cbn; try discriminate.
  unfold Py.int. destruct (Py.sign _) as [neg l]. 
  destruct (Py.digitpart l) as [[[v n] [| c r]] |]; discriminate.
Qed.

Lemma index_no_KeyError (names : list string) (v : pyval) (k : string) :
  MyTCSV.index names v <> Raise (KeyError k).
Proof.
  destruct v; cbn; try discriminate.
  generalize 0. induction names as [| y names IH]; intros pos; cbn; [discriminate|].
  destruct (String.eqb y s); [discriminate | apply IH].
Qed.

(** X1.  A table that was constructed, of whatever table type, holds the
    four tags [delimiter], [has_header], [decimal_point] and [quote], so
    [resolve_field_ref] never fails on a missing tag. *)
Theorem init_keeps_base_tags (H : MyTCSV.hooks) (E : environment) (filename : string)
  (delimiter has_header decimal quote : pyval) (self : MyTCSV.t) :
  MyTCSV.__init__ H E filename delimiter has_header decimal quote = Ok self ->
  (forall k, In k [MyTCSV.TAG_DELIMITER; MyTCSV.TAG_HAS_HEADER;
                   MyTCSV.TAG_DECIMAL; MyTCSV.TAG_QUOTE] ->
             MyTCSV.has_tag_name self k = true) /\
  (forall field_ref k, MyTCSV.resolve_field_ref self field_ref <> Raise (KeyError k)).
Proof.
  intros Hinit. destruct (init_tags _ _ _ _ _ _ _ _ Hinit) as (before & Hrun & Hkeys).
  assert (Hpresent : forall k, In k [MyTCSV.TAG_DELIMITER; MyTCSV.TAG_HAS_HEADER;
                                     MyTCSV.TAG_DECIMAL; MyTCSV.TAG_QUOTE] ->
                               Dict.lookup (MyTCSV.tags self) k <> None).
  { intros k Hk. exact (transform_tags_keeps_keys _ _ _ _ k Hrun (Hkeys k Hk)). }
  split.
  - intros k Hk. unfold MyTCSV.has_tag_name, Dict.mem.
    specialize (Hpresent k Hk). destruct (Dict.lookup (MyTCSV.tags self) k);
      [reflexivity | contradiction].
  - intros field_ref k. unfold MyTCSV.resolve_field_ref, Dict.get.
    specialize (Hpresent MyTCSV.TAG_HAS_HEADER (or_intror (or_introl eq_refl))).
    destruct (Dict.lookup (MyTCSV.tags self) MyTCSV.TAG_HAS_HEADER) as [hh |];
      [|contradiction].
    cbn [of_option bind]. destruct (truthy hh).
    + pose proof (int_of_no_KeyError field_ref k) as Hint.
      destruct (MyTCSV.int_of field_ref) as [z | e]; [discriminate|].
      destruct e; try exact Hint. apply index_no_KeyError.
    + apply int_of_no_KeyError.
Qed.

Lemma init_keeps_base_tags_witness :
  exists self,
    MyTCSV.__init__ (Timeline.methods Cases.env) Cases.env "dated.csv"
      MyTCSV.default_delimiter MyTCSV.default_has_header MyTCSV.default_decimal
      MyTCSV.default_quote = Ok self /\
    MyTCSV.has_tag_name self "quote" = true /\
    MyTCSV.has_tag_name self "decimal_point" = true.
Proof.
  eexists. split; [vm_compute; reflexivity|].
  split.
  - refine (proj1 (init_keeps_base_tags (Timeline.methods Cases.env) Cases.env "dated.csv"
                     MyTCSV.default_delimiter MyTCSV.default_has_header
                     MyTCSV.default_decimal MyTCSV.default_quote _ _) "quote" _).
    + vm_compute. reflexivity.
    + right. right. right. left. reflexivity.
  - reflexivity.
Defined.

(** ** Tables: field references *)

Lemma int_Ok_or_ValueError (s : string) :
  (exists z, Py.int s = Ok z) \/ Py.int s = Raise ValueError.
Proof.
  unfold Py.int. destruct (Py.sign _) as [neg l].
  destruct (Py.digitpart l) as [[[v n] [| c r]] |];
    [left; eexists; reflexivity | right; reflexivity | right; reflexivity].
Qed.

Lemma index_go_found (names : list string) (s : string) :
  forall pos, In s names ->
  exists i, MyTCSV.index_go names s pos = Ok (pos + Z.of_nat i) /\
            nth_error names i = Some s /\
            forall j, (j < i)%nat -> nth_error names j <> Some s.
Proof.
  induction names as [| y names IH]; intros pos Hin; [destruct Hin|].
  cbn. destruct (String.eqb_spec y s) as [-> | Hne].
  - exists O. split; [f_equal; lia|]. split; [reflexivity|]. intros j Hj. lia.
  - destruct Hin as [Heq | Hin]; [contradiction|].
    destruct (IH (pos + 1) Hin) as (i & Hi & Hnth & Hfirst).
    exists (S i). split; [rewrite Hi; f_equal; lia|]. split; [exact Hnth|].
    intros [| j] Hj; cbn.
    + intros Hy. injection Hy as Hy. contradiction.
    + apply Hfirst. lia.
Qed.

Lemma index_go_missing (names : list string) (s : string) :
  forall pos, ~ In s names -> MyTCSV.index_go names s pos = Raise ValueError.
Proof.
  induction names as [| y names IH]; intros pos Hin; [reflexivity|].
  cbn. destruct (String.eqb_spec y s) as [-> | Hne].
  - exfalso. apply Hin. left. reflexivity.
  - apply IH. intros H. apply Hin. right. exact H.
Qed.

(** X2.  [resolve_field_ref] reads a reference that parses as an integer
    as that integer, whatever the header holds and whatever the number of
    columns; any other reference is the position of its first occurrence
    among the field names when [has_header] is truthy, and a [ValueError]
    when it is not among them or [has_header] is falsy. *)
Theorem resolve_field_ref_cases (self : MyTCSV.t) (has_header : pyval) (s : string) :
  Dict.lookup (MyTCSV.tags self) MyTCSV.TAG_HAS_HEADER = Some has_header ->
  (forall z, Py.int s = Ok z -> MyTCSV.resolve_field_ref self (VStr s) = Ok z) /\
  (Py.int s = Raise ValueError -> truthy has_header = true ->
   In s (MyTCSV.field_names self) ->
   exists i, MyTCSV.resolve_field_ref self (VStr s) = Ok (Z.of_nat i) /\
             nth_error (MyTCSV.field_names self) i = Some s /\
             forall j, (j < i)%nat -> nth_error (MyTCSV.field_names self) j <> Some s) /\
  (Py.int s = Raise ValueError ->
   truthy has_header = false \/ ~ In s (MyTCSV.field_names self) ->
   MyTCSV.resolve_field_ref self (VStr s) = Raise ValueError).
Proof.
  intros Hhh. unfold MyTCSV.resolve_field_ref, Dict.get. rewrite Hhh.
  cbn [of_option bind MyTCSV.int_of MyTCSV.index].
  split; [|split].
  - intros z Hz. rewrite Hz. destruct (truthy has_header); reflexivity.
  - intros Hint Ht Hin. rewrite Hint, Ht.
    destruct (index_go_found _ s 0 Hin) as (i & Hi & Hnth & Hfirst).
    exists i. split; [exact Hi|]. split; assumption.
  - intros Hint Hcase. rewrite Hint.
    destruct (truthy has_header); [|reflexivity].
    destruct Hcase as [Hf | Hin]; [discriminate Hf|].
    apply index_go_missing. exact Hin.
Qed.

Lemma resolve_field_ref_cases_witness :
  exists self,
    MyTCSV.__init__ (Timeline.methods Cases.env) Cases.env "dated.csv"
      MyTCSV.default_delimiter MyTCSV.default_has_header MyTCSV.default_decimal
      MyTCSV.default_quote = Ok self /\
    MyTCSV.field_names self = ["day"; "label"] /\
    MyTCSV.resolve_field_ref self (VStr "7") = Ok 7 /\
    (exists i, MyTCSV.resolve_field_ref self (VStr "label") = Ok (Z.of_nat i) /\
               nth_error (MyTCSV.field_names self) i = Some "label" /\
               forall j, (j < i)%nat -> nth_error (MyTCSV.field_names self) j <> Some "label") /\
    MyTCSV.resolve_field_ref self (VStr "size") = Raise ValueError.
Proof.
  eexists. split; [vm_compute; reflexivity|].
  split; [reflexivity|]. split; [|split].
  - refine (proj1 (resolve_field_ref_cases _ (VStr "true") "7" _) 7 _); reflexivity.
  - refine (proj1 (proj2 (resolve_field_ref_cases _ (VStr "true") "label" _)) _ _ _).
    + reflexivity.
    + reflexivity.
    + reflexivity.
    + right. left. reflexivity.
  - refine (proj2 (proj2 (resolve_field_ref_cases _ (VStr "true") "size" _)) _ _).
    + reflexivity.
    + reflexivity.
    + right. intros [H | [H | []]]; discriminate H.
Defined.

(** ** Tables: the leading lines of a file *)

Lemma fetch_tags_blank (tag_lines : list string) (blank : string) (rest : list string) :
  Forall (fun l => exists s, Py.strip l = String "#" s) tag_lines ->
  Py.strip blank = "" ->
  forall row tgs,
    MyTCSV.__fetch_tags_loop (tag_lines ++ blank :: rest) row tgs = Raise IndexError.
Proof.
  intros Htags Hblank. induction Htags as [| l tag_lines (s & Hl) _ IH]; intros row tgs.
  - cbn. rewrite Hblank. reflexivity.
  - cbn [app MyTCSV.__fetch_tags_loop]. rewrite Hl.
    cbn [Py.chars list_ascii_of_string]. cbn [Ascii.eqb Bool.eqb].
    destruct (negb _); apply IH.
Qed.

(** X3.  A line that is empty or blank among the leading tag lines of a
    file makes the construction of a table fail with an [IndexError], for
    every table type and whatever follows the line. *)
Theorem init_blank_line (H : MyTCSV.hooks) (E : environment) (filename : string)
  (delimiter has_header decimal quote : pyval)
  (tag_lines : list string) (blank : string) (rest : list string) :
  open_file E filename = Some (tag_lines ++ blank :: rest) ->
  Forall (fun l => exists s, Py.strip l = String "#" s) tag_lines ->
  Py.strip blank = "" ->
  MyTCSV.__init__ H E filename delimiter has_header decimal quote = Raise IndexError.
Proof.
  intros Hopen Htags Hblank. unfold MyTCSV.__init__. rewrite Hopen.
  cbn [of_option bind]. unfold MyTCSV.__fetch_tags__. cbn [MyTCSV.file MyTCSV.__row__].
  rewrite (fetch_tags_blank _ _ _ Htags Hblank). reflexivity.
Qed.

Lemma init_blank_line_witness :
  MyTCSV.__init__ MyTCSV.methods Cases.env "blank.csv" MyTCSV.default_delimiter
    MyTCSV.default_has_header MyTCSV.default_decimal MyTCSV.default_quote =
  Raise IndexError.
Proof.
  apply (init_blank_line _ _ _ _ _ _ _ [Scenario.line "#has_header=true"]
           (Scenario.line "") [Scenario.line "a,b"]).
  - reflexivity.
  - constructor; [|constructor]. eexists. vm_compute. reflexivity.
  - reflexivity.
Defined.

(** X4.  A file without any line gives a table no row to split: when the
    four defaults are usable the construction fails with an
    [AttributeError], for every table type. *)
Theorem init_empty_file (H : MyTCSV.hooks) (E : environment) (filename : string)
  (delimiter has_header decimal quote : pyval) :
  open_file E filename = Some [] ->
  truthy delimiter || eq_zero delimiter = true ->
  truthy has_header || eq_zero has_header = true ->
  truthy decimal || eq_zero decimal = true ->
  truthy quote || eq_zero quote = true ->
  MyTCSV.__init__ H E filename delimiter has_header decimal quote = Raise AttributeError.
Proof.
  intros Hopen Hd Hh Hdec Hq. unfold MyTCSV.__init__. rewrite Hopen.
  cbn [of_option bind MyTCSV.__fetch_tags__ MyTCSV.__fetch_tags_loop MyTCSV.file
       MyTCSV.__row__ MyTCSV.data MyTCSV.field_names].
  unfold MyTCSV.get_tag_value. cbn [MyTCSV.tags Dict.lookup].
  rewrite Hd. cbn [bind MyTCSV.with_tags MyTCSV.tags Dict.set Dict.lookup String.eqb
                   Ascii.eqb Bool.eqb MyTCSV.TAG_HAS_HEADER MyTCSV.TAG_DELIMITER].
  rewrite Hh. cbn. rewrite Hdec. cbn. rewrite Hq. reflexivity.
Qed.

Lemma init_empty_file_witness :
  Timeline.__init__ Cases.env "empty.csv" Timeline.default_date_format
    Timeline.default_doy_file Timeline.default_day_factor = Raise AttributeError /\
  MyTCSV.__init__ MyTCSV.methods Cases.env "empty.csv" MyTCSV.default_delimiter
    MyTCSV.default_has_header MyTCSV.default_decimal MyTCSV.default_quote =
  Raise AttributeError.
Proof.
  split; [reflexivity|].
  apply init_empty_file; reflexivity.
Defined.

(** ** Geolocations to pixels *)

(** The floor of a quotient of whole numbers is their floor division. *)
Lemma Qfloor_quotient (a b : Z) :
  b <> 0 -> Qfloor (inject_Z a / inject_Z b) = a / b.
Proof.
  intros Hb. destruct b as [| p | p]; [contradiction | |].
  - transitivity (Qfloor (a # p)); [|reflexivity].
    apply Qfloor_comp. unfold Qeq, Qdiv, Qmult, Qinv, inject_Z. cbn. lia.
  - transitivity (Qfloor ((- a) # p)).
    + apply Qfloor_comp. unfold Qeq, Qdiv, Qmult, Qinv, inject_Z. cbn. lia.
    + change (Qfloor ((- a) # p)) with ((- a) / Z.pos p).
      rewrite <- (Z.div_opp_opp a (Z.neg p)) by lia. reflexivity.
Qed.

Lemma grid_numerator_nonzero (k : nat) (r : Q) (R : Z) :
  on_grid k r R -> ~ (r == 0)%Q -> R <> 0.
Proof.
  unfold on_grid. intros Hr Hne ->. apply Hne. rewrite Hr.
  unfold Qeq, Qdiv, Qmult. cbn. reflexivity.
Qed.

(** One axis: a coordinate [g], origin [u] and resolution [r] on one grid,
    and a zero skew. *)
Lemma axis_pixel_on_grid (k : nat) (u r s g : Q) (U R G : Z) :
  (s == 0)%Q -> ~ (r == 0)%Q ->
  on_grid k u U -> on_grid k r R -> on_grid k g G ->
  F.to_int (F.add (Mygdal.zero_unless_finite (F.floor_divide (F.sub (Fin g) (Fin u)) (Fin r)))
                  (Mygdal.zero_unless_finite (F.floor_divide (F.sub (Fin g) (Fin u)) (Fin s))))
  = (G - U) / R /\
  (inject_Z ((G - U) / R) <= (g - u) / r)%Q /\
  ((g - u) / r < inject_Z ((G - U) / R) + 1)%Q.
Proof.
  intros Hs Hr Hu Hgr Hg.
  pose proof (grid_numerator_nonzero k r R Hgr Hr) as HR.
  assert (Hq : ((g - u) / r == inject_Z (G - U) / inject_Z R)%Q).
  { unfold on_grid in *. rewrite Hu, Hgr, Hg. unfold Z.sub.
    rewrite inject_Z_plus, inject_Z_opp. field. split.
    - intros H. apply HR. unfold Qeq in H. cbn in H. lia.
    - apply grid_step_nonzero. }
  assert (Hfloor : Qfloor ((g - u) / r) = (G - U) / R).
  { rewrite (Qfloor_comp _ _ Hq). apply Qfloor_quotient. exact HR. }
  split; [|split].
  - change (F.sub (Fin g) (Fin u)) with (Fin (g - u)).
    rewrite (floor_divide_by_zero _ s Hs), (floor_divide_finite _ r Hr).
    rewrite Hfloor. apply to_int_of_int.
  - rewrite <- Hfloor. apply Qfloor_le.
  - rewrite <- Hfloor.
    apply Qlt_le_trans with (inject_Z (Qfloor ((g - u) / r) + 1)); [apply Qlt_floor|].
    rewrite inject_Z_plus. apply Qle_refl.
Qed.

(** X5.  On a raster without skew whose origin and resolutions, not zero,
    lie on one binary grid of step [2^-k] with numerators [U], [V], [R],
    [S] of magnitude up to [2^52], [geolocs_to_pixels] maps a geolocation
    of that grid, of numerators [G] and [H], to the pixel in whose cell it
    lies: the pixel (x, y) with x <= (gx - origin_x) / res_x < x + 1 and
    y <= (gy - origin_y) / res_y < y + 1, which is the floor division of
    [G - U] by [R] and of [H - V] by [S].  No operation of the program
    rounds on such numbers. *)
Theorem geolocs_to_pixels_cell (self : Mygdal.t) (ux uy rx ry sx sy gx gy : Q)
  (k : nat) (U V R S G H : Z) :
  Mygdal.geo_ul self = (Fin ux, Fin uy) ->
  Mygdal.geo_resolution self = (Fin rx, Fin ry) ->
  Mygdal.geo_skew self = (Fin sx, Fin sy) ->
  (sx == 0)%Q -> (sy == 0)%Q -> ~ (rx == 0)%Q -> ~ (ry == 0)%Q ->
  (k <= 1000)%nat ->
  on_grid k ux U -> on_grid k uy V -> on_grid k rx R -> on_grid k ry S ->
  on_grid k gx G -> on_grid k gy H ->
  Z.abs U <= 2 ^ 52 -> Z.abs V <= 2 ^ 52 -> Z.abs R <= 2 ^ 52 -> Z.abs S <= 2 ^ 52 ->
  Z.abs G <= 2 ^ 52 -> Z.abs H <= 2 ^ 52 ->
  let x := (G - U) / R in
  let y := (H - V) / S in
  Mygdal.geolocs_to_pixels self (Some (Rows [(Fin gx, Fin gy)])) = Rows [(x, y)] /\
  (inject_Z x <= (gx - ux) / rx)%Q /\ ((gx - ux) / rx < inject_Z x + 1)%Q /\
  (inject_Z y <= (gy - uy) / ry)%Q /\ ((gy - uy) / ry < inject_Z y + 1)%Q.
Proof.
  intros Hul Hres Hskew Hsx Hsy Hrx Hry _ Hux Huy Hgrx Hgry Hgx Hgy _ _ _ _ _ _ x y.
  destruct (axis_pixel_on_grid k ux rx sx gx U R G Hsx Hrx Hux Hgrx Hgx)
    as (Hx & Hx1 & Hx2).
  destruct (axis_pixel_on_grid k uy ry sy gy V S H Hsy Hry Huy Hgry Hgy)
    as (Hy & Hy1 & Hy2).
  split; [|repeat split; assumption].
  unfold Mygdal.geolocs_to_pixels. cbn [len List.length Nat.ltb Nat.leb map_rows map].
  unfold Mygdal.geoloc_to_pixel. rewrite Hul, Hres, Hskew.
  unfold Mygdal.pair_op. cbn [fst snd].
  rewrite Hx, Hy. reflexivity.
Qed.

Lemma geolocs_to_pixels_cell_witness :
  exists self, Mygdal.__init__ Scenario.env "north.tif" = Ok self /\
    Mygdal.geolocs_to_pixels self (Some (Rows [(Fin (7 # 2), Fin (13 # 2))])) =
    Rows [(3, 3)].
Proof.
  eexists. split; [reflexivity|].
  refine (proj1 (geolocs_to_pixels_cell _ 0 10 1 (-1) 0 0 (7 # 2) (13 # 2)
                   1 0 20 2 (-2) 7 13 _ _ _ _ _ _ _ _ _ _ _ _ _ _ _ _ _ _ _ _));
    try reflexivity; try (intro H; discriminate H).
  lia.
Defined.

Lemma axis_not_finite (g u r s : pyfloat) :
  F.isfinite g = false ->
  F.to_int (F.add (Mygdal.zero_unless_finite (F.floor_divide (F.sub g u) r))
                  (Mygdal.zero_unless_finite (F.floor_divide (F.sub g u) s))) = 0.
Proof.
  intros Hg.
  assert (Hd : F.isfinite (F.sub g u) = false).
  { destruct g as [q | b |]; [discriminate Hg | |];
      destruct u as [q' | b' |]; try reflexivity.
    cbn. destruct (Bool.eqb b (negb b')); reflexivity. }
  assert (Hz : forall d b, F.isfinite d = false ->
               Mygdal.zero_unless_finite (F.floor_divide d b) = Fin 0).
  { intros d b Hdf. destruct d as [q | c |]; [discriminate Hdf | |];
      destruct b; reflexivity. }
  rewrite (Hz _ r Hd), (Hz _ s Hd). reflexivity.
Qed.

(** X6.  A coordinate that is not finite (NaN or an infinity) is mapped to
    the pixel index 0 by [geolocs_to_pixels], on every raster. *)
Theorem geolocs_to_pixels_not_finite (self : Mygdal.t) (gx gy : pyfloat) :
  F.isfinite gx = false -> F.isfinite gy = false ->
  Mygdal.geolocs_to_pixels self (Some (Rows [(gx, gy)])) = Rows [(0, 0)].
Proof.
  intros Hx Hy. unfold Mygdal.geolocs_to_pixels.
  cbn [len List.length Nat.ltb Nat.leb map_rows map].
  unfold Mygdal.geoloc_to_pixel, Mygdal.pair_op. cbn [fst snd].
  rewrite (axis_not_finite gx _ _ _ Hx), (axis_not_finite gy _ _ _ Hy). reflexivity.
Qed.

Lemma geolocs_to_pixels_not_finite_witness :
  exists self, Mygdal.__init__ Scenario.env "north.tif" = Ok self /\
    Mygdal.geolocs_to_pixels self (Some (Rows [(NaN, Inf true)])) = Rows [(0, 0)].
Proof.
  eexists. split; [reflexivity|].
  apply geolocs_to_pixels_not_finite; reflexivity.
Defined.

(** ** Reading a pixel *)

(** X7.  On a raster that was opened, reading a pixel of the raster and
    masking the values read succeeds, with one value and one flag per band:
    the flag of a band is true exactly when the band has no no-data value
    or the value read differs from it. *)
Theorem read_and_mask (E : environment) (filename : string) (self : Mygdal.t)
  (ds : Dataset) (pixel : Z * Z) :
  gdal_Open E filename = Some ds ->
  Mygdal.__init__ E filename = Ok self ->
  0 <= fst pixel < RasterXSize ds -> 0 <= snd pixel < RasterYSize ds ->
  exists values mask,
    Mygdal.read_pixel_values self pixel = Ok values /\
    Mygdal.mask_nodata_pixel_bands self values = Ok mask /\
    List.length values = List.length (RasterBands ds) /\
    List.length mask = List.length (RasterBands ds) /\
    forall j band, nth_error (RasterBands ds) j = Some band ->
      nth_error values j = Some (ReadBand band (fst pixel) (snd pixel)) /\
      nth_error mask j =
      Some (match GetNoDataValue band with
            | Some nodata => F.ne (ReadBand band (fst pixel) (snd pixel)) nodata
            | None => true
            end).
Proof.
  intros Hopen Hinit _ _. unfold Mygdal.__init__ in Hinit. rewrite Hopen in Hinit.
  injection Hinit as <-.
  exists (ReadAsArray ds (fst pixel) (snd pixel)). eexists.
  split; [reflexivity|]. split.
  - apply mask_nodata_same_length. cbn. unfold ReadAsArray. rewrite !length_map. reflexivity.
  - cbn [Mygdal.values_nodata]. unfold ReadAsArray.
    split; [apply length_map|]. split.
    + rewrite length_map, length_combine, !length_map. apply Nat.min_id.
    + intros j band Hj. split.
      * rewrite nth_error_map, Hj. reflexivity.
      * erewrite nth_error_mask_intro.
        -- reflexivity.
        -- rewrite nth_error_map, Hj. reflexivity.
        -- rewrite nth_error_map, Hj. reflexivity.
Qed.

Lemma read_and_mask_witness :
  exists self, Mygdal.__init__ Scenario.env "b.tif" = Ok self /\
    exists values mask,
      Mygdal.read_pixel_values self (3, 4) = Ok values /\
      Mygdal.mask_nodata_pixel_bands self values = Ok mask /\
      List.length values = 2%nat /\ List.length mask = 2%nat.
Proof.
  eexists. split; [reflexivity|].
  destruct (read_and_mask Scenario.env "b.tif" _ _ (3, 4) eq_refl eq_refl
              ltac:(cbn; lia) ltac:(cbn; lia))
    as (values & mask & Hread & Hmask & Hv & Hm & _).
  exists values, mask. repeat split; assumption.
Defined.

(** ** Random pixels *)

Lemma to_int_nonneg (q : Q) : (0 <= q)%Q -> F.to_int (Fin q) = Qfloor q.
Proof.
  intros H. destruct q as [n d]. unfold F.to_int, Qfloor. cbn [Qnum Qden].
  apply Z.quot_div_nonneg; [|lia].
  unfold Qle in H. cbn in H. lia.
Qed.

Lemma to_int_above (q : Q) (l : Z) :
  (q <= 0)%Q -> (inject_Z l < q)%Q -> l + 1 <= F.to_int (Fin q) <= 0.
Proof.
  intros H0 Hl. destruct q as [n d]. unfold F.to_int. cbn [Qnum Qden].
  unfold Qle in H0. unfold Qlt in Hl. cbn in H0, Hl.
  assert (Hn : n <= 0) by lia.
  replace n with (- (- n)) by lia. rewrite Z.quot_opp_l by lia.
  rewrite Z.quot_div_nonneg by lia.
  assert (0 <= - n / Z.pos d) by (apply Z.div_pos; lia).
  assert (- n / Z.pos d < - l).
  { apply Z.div_lt_upper_bound; lia. }
  lia.
Qed.

(** One axis of a random pixel inside the whole raster of [w] columns. *)
Lemma random_axis_range (r : Q) (w : Z) :
  (0 <= r)%Q -> (r < 1)%Q -> 1 <= w ->
  0 <= 0 + F.to_int (F.mul (Fin r) (F.of_int (w - 1 - 0))) <= Z.max 0 (w - 2).
Proof.
  intros H0 H1 Hw. cbn [F.mul F.of_int].
  assert (Hw' : (0 <= inject_Z (w - 1 - 0))%Q).
  { change 0%Q with (inject_Z 0). rewrite <- Zle_Qle. lia. }
  assert (Hq : (0 <= r * inject_Z (w - 1 - 0))%Q) by (apply Qmult_le_0_compat; assumption).
  rewrite (to_int_nonneg _ Hq).
  assert (Hf : 0 <= Qfloor (r * inject_Z (w - 1 - 0))).
  { change 0 with (Qfloor 0). apply Qfloor_resp_le. exact Hq. }
  split; [lia|].
  destruct (Z.eq_dec w 1) as [-> | Hne].
  - assert (Hz : (r * inject_Z (1 - 1 - 0) == 0)%Q) by (cbn; ring).
    rewrite (Qfloor_comp _ _ Hz). cbn. lia.
  - assert (Hlt : (r * inject_Z (w - 1 - 0) < inject_Z (w - 1 - 0))%Q).
    { assert (Hpos : (0 < inject_Z (w - 1 - 0))%Q).
      { change 0%Q with (inject_Z 0). rewrite <- Zlt_Qlt. lia. }
      nra. }
    assert (Qfloor (r * inject_Z (w - 1 - 0)) < w - 1 - 0).
    { rewrite Zlt_Qlt. eapply Qle_lt_trans; [apply Qfloor_le | exact Hlt]. }
    lia.
Qed.

(** X8.  Without a box, [get_random_pixels] fails with [InvalidBoundBox]
    on a raster without a column or without a row; otherwise it returns one
    pixel per row of random numbers, each inside the raster, and never one
    of the last column of a raster of two columns or more, nor of its last
    row. *)
Theorem get_random_pixels_range (G : generator) (state state1 state2 : nat)
  (self : Mygdal.t) (n : nat) (seed : option Z) (rows : list (Q * Q)) (w h : Z) :
  Mygdal.size self = (w, h) ->
  seed_generator G state seed = Ok state1 ->
  rand G state1 n = (rows, state2) ->
  Forall (fun r => (0 <= fst r)%Q /\ (fst r < 1)%Q /\ (0 <= snd r)%Q /\ (snd r < 1)%Q) rows ->
  (w < 1 \/ h < 1 ->
   Mygdal.get_random_pixels G state self n None None seed =
   (Raise (Exception "InvalidBoundBox" __error_invalid_bbox_msg__), state1)) /\
  (1 <= w -> 1 <= h ->
   exists pixels,
     Mygdal.get_random_pixels G state self n None None seed = (Ok pixels, state2) /\
     List.length pixels = List.length rows /\
     Forall (fun p => 0 <= fst p <= Z.max 0 (w - 2) /\ 0 <= snd p <= Z.max 0 (h - 2))
            pixels).
Proof.
  intros Hsize Hseed Hrand Hrows. unfold Mygdal.get_random_pixels.
  rewrite Hseed, Hsize. unfold Mygdal.any_pair, Mygdal.pair_op. cbn [any fst snd].
  split.
  - intros Hsmall.
    assert (Hany : (0 >? w - 1) || (0 >? h - 1) = true).
    { apply orb_true_iff. rewrite !Z.gtb_ltb, !Z.ltb_lt. lia. }
    rewrite Hany. reflexivity.
  - intros Hw Hh.
    assert (Hany : (0 >? w - 1) || (0 >? h - 1) = false).
    { apply orb_false_iff. rewrite !Z.gtb_ltb, !Z.ltb_ge. lia. }
    rewrite Hany, Hrand. eexists. split; [reflexivity|].
    split; [apply length_map|].
    apply Forall_map. eapply Forall_impl; [|exact Hrows].
    intros [r1 r2] (H1 & H2 & H3 & H4). cbn [fst snd] in *.
    unfold Mygdal.random_pixel, Mygdal.pair_op. cbn [fst snd].
    split; apply random_axis_range; assumption.
Qed.

Lemma get_random_pixels_range_witness :
  exists self, Mygdal.__init__ Scenario.env "north.tif" = Ok self /\
    exists pixels,
      Mygdal.get_random_pixels Cases.counter 0 self 3 None None (Some 5) =
      (Ok pixels, 8%nat) /\
      List.length pixels = 3%nat /\
      Forall (fun p => 0 <= fst p <= 8 /\ 0 <= snd p <= 8) pixels.
Proof.
  eexists. split; [reflexivity|].
  refine (proj2 (get_random_pixels_range Cases.counter 0 5 8 _ 3 (Some 5)
                   (fst (rand Cases.counter 5 3)) 10 10 _ _ _ _) _ _).
  - reflexivity.
  - reflexivity.
  - reflexivity.
  - repeat constructor; discriminate.
  - lia.
  - lia.
Defined.

(** X9.  The boxes of [get_random_pixels], on a raster with a column and a
    row: an upper-left corner with a negative coordinate and a lower-right
    corner beyond the last pixel are refused with [OutOfBounds]; two
    accepted corners together end in a [TypeError]; and an upper-left
    corner to the right of the raster is accepted and gives only pixels
    outside the raster. *)
Theorem get_random_pixels_boxes (G : generator) (state state1 : nat)
  (self : Mygdal.t) (n : nat) (seed : option Z) (w h : Z) (ul lr : Z * Z) :
  Mygdal.size self = (w, h) -> 1 <= w -> 1 <= h ->
  seed_generator G state seed = Ok state1 ->
  (fst ul < 0 \/ snd ul < 0 ->
   forall box_lr,
     Mygdal.get_random_pixels G state self n (Some ul) box_lr seed =
     (Raise (Exception "OutOfBounds" __error_outbounds_msg__), state1)) /\
  (w - 1 < fst lr \/ h - 1 < snd lr ->
   Mygdal.get_random_pixels G state self n None (Some lr) seed =
   (Raise (Exception "OutOfBounds" __error_outbounds_msg__), state1)) /\
  (0 <= fst ul -> 0 <= snd ul -> fst lr <= w - 1 -> snd lr <= h - 1 ->
   Mygdal.get_random_pixels G state self n (Some ul) (Some lr) seed =
   (Raise TypeError, snd (rand G state1 n))) /\
  (w <= fst ul -> 0 <= snd ul ->
   Forall (fun r => (0 <= fst r)%Q /\ (fst r < 1)%Q) (fst (rand G state1 n)) ->
   exists pixels,
     Mygdal.get_random_pixels G state self n (Some ul) None seed =
     (Ok pixels, snd (rand G state1 n)) /\
     Forall (fun p => w <= fst p) pixels).
Proof.
  intros Hsize Hw Hh Hseed. unfold Mygdal.get_random_pixels.
  rewrite Hseed, Hsize. unfold Mygdal.any_pair, Mygdal.pair_op. cbn [any fst snd].
  assert (Hany : (0 >? w - 1) || (0 >? h - 1) = false).
  { apply orb_false_iff. rewrite !Z.gtb_ltb, !Z.ltb_ge. lia. }
  rewrite Hany. split; [|split; [|split]].
  - intros Hneg box_lr.
    assert (Hul : (fst ul <? 0) || (snd ul <? 0) = true).
    { apply orb_true_iff. rewrite !Z.ltb_lt. exact Hneg. }
    rewrite Hul. reflexivity.
  - intros Hbig.
    assert (Hlr : (fst lr >? w - 1) || (snd lr >? h - 1) = true).
    { apply orb_true_iff. rewrite !Z.gtb_ltb, !Z.ltb_lt. exact Hbig. }
    rewrite Hlr. reflexivity.
  - intros H1 H2 H3 H4.
    assert (Hul : (fst ul <? 0) || (snd ul <? 0) = false).
    { apply orb_false_iff. rewrite !Z.ltb_ge. lia. }
    assert (Hlr : (fst lr >? w - 1) || (snd lr >? h - 1) = false).
    { apply orb_false_iff. rewrite !Z.gtb_ltb, !Z.ltb_ge. lia. }
    rewrite Hul, Hlr. reflexivity.
  - intros H1 H2 Hrows.
    assert (Hul : (fst ul <? 0) || (snd ul <? 0) = false).
    { apply orb_false_iff. rewrite !Z.ltb_ge. lia. }
    rewrite Hul. destruct (rand G state1 n) as [rows state2]. cbn [fst snd] in *.
    eexists. split; [reflexivity|].
    apply Forall_map. eapply Forall_impl; [|exact Hrows].
    intros [r1 r2] (Hr0 & Hr1). cbn [fst snd] in *.
    unfold Mygdal.random_pixel, Mygdal.pair_op. cbn [fst snd F.mul F.of_int].
    assert (Hneg : (inject_Z (w - 1 - fst ul) < 0)%Q).
    { change 0%Q with (inject_Z 0). rewrite <- Zlt_Qlt. lia. }
    destruct (to_int_above (r1 * inject_Z (w - 1 - fst ul)) (w - 1 - fst ul)) as [Hlow _].
    + nra.
    + nra.
    + lia.
Qed.

Lemma get_random_pixels_boxes_witness :
  exists self, Mygdal.__init__ Scenario.env "north.tif" = Ok self /\
    Mygdal.get_random_pixels Cases.counter 0 self 3 (Some (-1, 0)) None None =
    (Raise (Exception "OutOfBounds" "Coordinate/pixel index out of bounds."), 0%nat) /\
    Mygdal.get_random_pixels Cases.counter 0 self 3 None (Some (10, 10)) None =
    (Raise (Exception "OutOfBounds" "Coordinate/pixel index out of bounds."), 0%nat) /\
    Mygdal.get_random_pixels Cases.counter 0 self 3 (Some (2, 2)) (Some (5, 5)) None =
    (Raise TypeError, 3%nat) /\
    exists pixels,
      Mygdal.get_random_pixels Cases.counter 0 self 3 (Some (12, 0)) None None =
      (Ok pixels, 3%nat) /\
      Forall (fun p => 10 <= fst p) pixels.
Proof.
  eexists. split; [reflexivity|].
  split; [|split; [|split]].
  - refine (proj1 (get_random_pixels_boxes Cases.counter 0 0 _ 3 None 10 10
                     (-1, 0) (10, 10) _ _ _ _) _ None);
      [reflexivity | lia | lia | reflexivity | left; cbn; lia].
  - refine (proj1 (proj2 (get_random_pixels_boxes Cases.counter 0 0 _ 3 None 10 10
                            (-1, 0) (10, 10) _ _ _ _)) _);
      [reflexivity | lia | lia | reflexivity | left; cbn; lia].
  - refine (proj1 (proj2 (proj2 (get_random_pixels_boxes Cases.counter 0 0 _ 3 None
                                   10 10 (2, 2) (5, 5) _ _ _ _))) _ _ _ _);
      try reflexivity; cbn; lia.
  - refine (proj2 (proj2 (proj2 (get_random_pixels_boxes Cases.counter 0 0 _ 3 None
                                   10 10 (12, 0) (5, 5) _ _ _ _))) _ _ _);
      try reflexivity; try (cbn; lia).
    repeat constructor; discriminate.
Defined.

(** ** Random geolocations *)

Lemma between_corners (u l r : Q) :
  (0 <= r)%Q -> (r < 1)%Q ->
  (Qmin u l <= u + r * (l + - u))%Q /\ (u + r * (l + - u) <= Qmax u l)%Q.
Proof.
  intros H0 H1. destruct (Qlt_le_dec l u) as [Hlt | Hle].
  - rewrite (Q.min_r u l) by (apply Qlt_le_weak; exact Hlt).
    rewrite (Q.max_l u l) by (apply Qlt_le_weak; exact Hlt).
    split; nra.
  - rewrite (Q.min_l u l) by exact Hle. rewrite (Q.max_r u l) by exact Hle.
    split; nra.
Qed.

(** X10.  Without a box, on a raster with finite corners whose box is in
    order, [get_random_geolocs] returns one geolocation per row of random
    numbers, each coordinate between the upper-left and the lower-right
    corner of the raster on its axis; when the box is not in order it fails
    with [InvalidBoundBox]. *)
Theorem get_random_geolocs_range (G : generator) (state state1 state2 : nat)
  (self : Mygdal.t) (n : nat) (seed : option Z) (rows : list (Q * Q))
  (ux uy lx ly : Q) :
  Mygdal.geo_ul self = (Fin ux, Fin uy) ->
  Mygdal.geo_lr self = (Fin lx, Fin ly) ->
  seed_generator G state seed = Ok state1 ->
  rand G state1 n = (rows, state2) ->
  Forall (fun r => (0 <= fst r)%Q /\ (fst r < 1)%Q /\ (0 <= snd r)%Q /\ (snd r < 1)%Q) rows ->
  let sign_ := Mygdal.sign_pair (Mygdal.geo_resolution self) in
  let inverted :=
    Mygdal.any_pair (Mygdal.pair_op F.gt
                       (Mygdal.pair_op F.mul (Mygdal.geo_ul self) sign_)
                       (Mygdal.pair_op F.mul (Mygdal.geo_lr self) sign_)) in
  (inverted = true ->
   Mygdal.get_random_geolocs G state self n None None seed =
   (Raise (Exception "InvalidBoundBox" __error_invalid_bbox_msg__), state1)) /\
  (inverted = false ->
   exists geolocs,
     Mygdal.get_random_geolocs G state self n None None seed = (Ok geolocs, state2) /\
     List.length geolocs = List.length rows /\
     Forall (fun g => exists x y, g = (Fin x, Fin y) /\
                        (Qmin ux lx <= x)%Q /\ (x <= Qmax ux lx)%Q /\
                        (Qmin uy ly <= y)%Q /\ (y <= Qmax uy ly)%Q) geolocs).
Proof.
  intros Hul Hlr Hseed Hrand Hrows sign_ inverted.
  unfold Mygdal.get_random_geolocs. rewrite Hseed. fold sign_. fold inverted.
  split; intros Hinv; rewrite Hinv; [reflexivity|].
  rewrite Hrand. eexists. split; [reflexivity|]. split; [apply length_map|].
  apply Forall_map. eapply Forall_impl; [|exact Hrows].
  intros [r1 r2] (H1 & H2 & H3 & H4). cbn [fst snd] in *.
  rewrite Hul, Hlr. unfold Mygdal.pair_op. cbn [fst snd F.sub F.neg F.add F.mul].
  eexists. eexists. split; [reflexivity|].
  destruct (between_corners ux lx r1 H1 H2). destruct (between_corners uy ly r2 H3 H4).
  repeat split; assumption.
Qed.

Lemma get_random_geolocs_range_witness :
  exists self, Mygdal.__init__ Scenario.env "north.tif" = Ok self /\
    exists geolocs,
      Mygdal.get_random_geolocs Cases.counter 0 self 3 None None (Some 5) =
      (Ok geolocs, 8%nat) /\
      List.length geolocs = 3%nat /\
      Forall (fun g => exists x y, g = (Fin x, Fin y) /\
                         (Qmin 0 9 <= x)%Q /\ (x <= Qmax 0 9)%Q /\
                         (Qmin 10 1 <= y)%Q /\ (y <= Qmax 10 1)%Q) geolocs.
Proof.
  eexists. split; [reflexivity|].
  refine (proj2 (get_random_geolocs_range Cases.counter 0 5 8 _ 3 (Some 5)
                   (fst (rand Cases.counter 5 3)) 0 10 9 1 _ _ _ _ _) _).
  - reflexivity.
  - reflexivity.
  - reflexivity.
  - reflexivity.
  - repeat constructor; discriminate.
  - reflexivity.
Defined.

(** ** Dates of a pixel, without failure *)

Lemma pixel_date_is_date (self : Timeline.t) (valid : bool) (d : Datetime.datetime)
  (doy : pyfloat) (r : pyval) :
  Timeline.pixel_date self valid (VDate d) doy = Ok r -> exists d', r = VDate d'.
Proof.
  unfold Timeline.pixel_date. destruct valid.
  - intros H. apply bind_Ok in H as (y & _ & H).
    apply bind_Ok in H as (j1 & _ & H).
    apply bind_Ok in H as (factor & _ & H).
    apply bind_Ok in H as (days & _ & H).
    apply bind_Ok in H as (delta & _ & H).
    apply bind_Ok in H as (d' & _ & H).
    injection H as <-. exists d'. reflexivity.
  - intros H. injection H as <-. exists d. reflexivity.
Qed.

(** X11.  With a day factor that is a Python float, as the default 1.0
    and every factor read from a file are, [read_pixel_dates] returns one
    date per row when the numbers of day-of-year values and of rows agree,
    every table date lies in the years 1 to 9998 and every day offset
    [doy * factor] lies between 0 and 366 days.  (The product of a raster
    value, a 64-bit float or an integer, and a Python float is a 64-bit
    float, which [timedelta] takes.) *)
Theorem read_pixel_dates_total (self : Timeline.t) (pixel : Z * Z)
  (doys : list pyfloat) (dates : list pyval) (f : pyfloat) :
  timeline_reads self pixel doys dates ->
  List.length doys = List.length dates ->
  Dict.lookup (MyTCSV.tags (Timeline.table self)) Timeline.TAG_DAY_FACTOR
  = Some (VFloat f) ->
  (forall j date doy,
     nth_error dates j = Some date -> nth_error doys j = Some doy ->
     exists d q, date = VDate d /\ 1 <= Datetime.year d <= 9998 /\
                 F.mul doy f = Fin q /\ (0 <= q)%Q /\ (q <= 366)%Q) ->
  exists result,
    Timeline.read_pixel_dates self pixel = Ok result /\
    List.length result = List.length dates /\
    Forall (fun r => exists d, r = VDate d) result.
Proof.
  intros Hreads Hlen Hfactor Hrows.
  destruct (read_pixel_dates_rows self pixel doys dates Hreads Hlen)
    as (result & Hresult & Hlength & Hnth).
  - intros j valid date doy (Hd & Hy & _).
    destruct (Hrows j date doy Hd Hy) as (d & q & -> & Hyear & Hq & H0 & H366).
    apply pixel_date_resolves. right. exists d, (VFloat f), f, q.
    destruct Hyear. repeat split; (assumption || reflexivity).
  - exists result. split; [exact Hresult|]. split; [exact Hlength|].
    apply Forall_forall. intros r Hin.
    apply In_nth_error in Hin as (j & Hj).
    assert (Hjlt : (j < List.length dates)%nat).
    { rewrite <- Hlength. apply nth_error_Some. rewrite Hj. discriminate. }
    destruct (nth_error dates j) as [date |] eqn:Hd;
      [|apply nth_error_None in Hd; lia].
    destruct (nth_error doys j) as [doy |] eqn:Hy;
      [|apply nth_error_None in Hy; lia].
    destruct Hreads as (_ & Hnodata & _).
    destruct (nth_error (Mygdal.values_nodata (Timeline.doy_stack self)) j)
      as [nodata |] eqn:Hn; [|apply nth_error_None in Hn; lia].
    destruct (Hnth j (Mygdal.ne_nodata doy nodata) date doy) as (r' & Hr' & Hjr').
    { split; [exact Hd|]. split; [exact Hy|]. exists nodata. split; [exact Hn | reflexivity]. }
    rewrite Hj in Hjr'. injection Hjr' as <-.
    destruct (Hrows j date doy Hd Hy) as (d & q & -> & _).
    exact (pixel_date_is_date _ _ _ _ _ Hr').
Qed.

Lemma read_pixel_dates_total_witness :
  exists self, Scenario.fetched_timeline "timeline.csv" = Ok self /\
    exists result,
      Timeline.read_pixel_dates self (3, 3) = Ok result /\
      List.length result = 2%nat /\
      Forall (fun r => exists d, r = VDate d) result.
Proof.
  eexists. split; [vm_compute; reflexivity|].
  apply (read_pixel_dates_total _ (3, 3) [Fin 45; Fin 45]
           [ymd 2020 1 1; ymd 2020 1 1] (Fin 1)).
  - split; [reflexivity|]. split; [reflexivity|]. exists 0. split; reflexivity.
  - reflexivity.
  - reflexivity.
  - intros j date doy Hdate Hdoy.
    exists (Datetime.mk_datetime 2020 1 1 0 0 0 0), 45%Q.
    destruct j as [| [| j]]; cbn in Hdate, Hdoy.
    + injection Hdate as <-. injection Hdoy as <-.
      split; [reflexivity|]. split; [cbn; lia|]. split; [reflexivity|].
      split; discriminate.
    + injection Hdate as <-. injection Hdoy as <-.
      split; [reflexivity|]. split; [cbn; lia|]. split; [reflexivity|].
      split; discriminate.
    + destruct j; discriminate Hdate.
Defined.

(** ** The mask of a time span *)

Lemma mapM_dates (test : Datetime.datetime -> bool) (f : pyval -> result bool)
  (ds : list Datetime.datetime) :
  (forall d, f (VDate d) = Ok (test d)) ->
  mapM f (map VDate ds) = Ok (map test ds).
Proof.
  intros Hf. induction ds as [| d ds IH]; [reflexivity|].
  cbn. rewrite Hf. cbn. rewrite IH. reflexivity.
Qed.

Lemma combine_map_and {A : Type} (p q : A -> bool) (l : list A) :
  map (fun x => fst x && snd x) (combine (map p l) (map q l)) = map (fun a => p a && q a) l.
Proof.
  induction l as [| a l IH]; [reflexivity|]. cbn. rewrite IH. reflexivity.
Qed.

(** X12.  [mask_timespan_dates] on dates and two bounds that are dates is
    the inclusive test [from <= date <= to] of every date; with [None] for
    a bound, which is the default of both, it fails with a [TypeError] on
    any date. *)
Theorem mask_timespan_dates_inclusive :
  (forall ds date_from date_to,
     Timeline.mask_timespan_dates (map VDate ds) (VDate date_from) (VDate date_to) =
     Ok (map (fun d => Datetime.ge d date_from && Datetime.le d date_to) ds)) /\
  (forall d dates date_to,
     Timeline.mask_timespan_dates (VDate d :: dates) VNone date_to = Raise TypeError) /\
  (forall d ds date_from,
     Timeline.mask_timespan_dates (map VDate (d :: ds)) (VDate date_from) VNone =
     Raise TypeError).
Proof.
  split; [|split].
  - intros ds date_from date_to. unfold Timeline.mask_timespan_dates.
    rewrite (mapM_dates (fun d => Datetime.ge d date_from)) by reflexivity.
    cbn [bind].
    rewrite (mapM_dates (fun d => Datetime.ge date_to d)) by reflexivity.
    cbn [bind]. unfold broadcast2. rewrite !length_map, Nat.eqb_refl.
    rewrite mapM2_pure, combine_map_and. f_equal. apply map_ext.
    intros d. f_equal. unfold Datetime.le, Datetime.ge, Datetime.compare.
    rewrite (lex_compare_antisym (Datetime.key d) (Datetime.key date_to)).
    destruct (Datetime.lex_compare (Datetime.key d) (Datetime.key date_to)); reflexivity.
  - intros d dates date_to. reflexivity.
  - intros d ds date_from. unfold Timeline.mask_timespan_dates.
    rewrite (mapM_dates (fun d => Datetime.ge d date_from)) by reflexivity.
    reflexivity.
Qed.

(** ** Rows into columns *)

Lemma append_row_fits (columns : list (list pyval)) :
  forall row, (List.length row <= List.length columns)%nat ->
  exists columns',
    MyTCSV.append_row columns row = Ok columns' /\
    List.length columns' = List.length columns /\
    forall j col, nth_error columns j = Some col ->
      nth_error columns' j =
      Some (match nth_error row j with Some c => col ++ [c] | None => col end).
Proof.
  induction columns as [| col0 columns IH]; intros row Hlen.
  - destruct row; [|cbn in Hlen; lia]. exists []. split; [reflexivity|].
    split; [reflexivity|]. intros [| j] col H; discriminate H.
  - destruct row as [| c row].
    + exists (col0 :: columns). split; [reflexivity|]. split; [reflexivity|].
      intros j col H. rewrite H. destruct j; reflexivity.
    + cbn in Hlen. destruct (IH row) as (rest & Hrest & Hlength & Hnth); [lia|].
      exists ((col0 ++ [c]) :: rest). cbn [MyTCSV.append_row]. rewrite Hrest.
      split; [reflexivity|]. split; [cbn; lia|].
      intros [| j] col H; cbn in H |- *.
      * injection H as <-. reflexivity.
      * apply Hnth. exact H.
Qed.

Lemma append_row_too_long (columns : list (list pyval)) :
  forall row, (List.length columns < List.length row)%nat ->
  MyTCSV.append_row columns row = Raise IndexError.
Proof.
  induction columns as [| col0 columns IH]; intros row Hlen.
  - destruct row; [cbn in Hlen; lia | reflexivity].
  - destruct row as [| c row]; [cbn in Hlen; lia|].
    cbn in Hlen. cbn [MyTCSV.append_row]. rewrite IH by lia. reflexivity.
Qed.

(** X13.  [__process_row_data__] on a table with columns, for a row of
    [row] values: when the row has as many values as there are columns,
    every column grows by its value, so columns of one length keep one
    length; a row with fewer values leaves the columns beyond it as they
    were; a row with more values than columns is an [IndexError]. *)
Theorem process_row_data_columns (H : MyTCSV.hooks) (self : MyTCSV.t)
  (row_text : string) (delimiter : pyval) (fields : list string) (row : list pyval) :
  MyTCSV.__row__ self = Some row_text ->
  Dict.lookup (MyTCSV.tags self) MyTCSV.TAG_DELIMITER = Some delimiter ->
  MyTCSV.split_by row_text delimiter = Ok fields ->
  MyTCSV.transform_row_data H self fields = Ok row ->
  MyTCSV.data self <> [] ->
  ((List.length row <= List.length (MyTCSV.data self))%nat ->
   exists columns,
     MyTCSV.__process_row_data__ H self = Ok (MyTCSV.with_data self columns) /\
     List.length columns = List.length (MyTCSV.data self) /\
     (forall j col, nth_error (MyTCSV.data self) j = Some col ->
        nth_error columns j =
        Some (match nth_error row j with Some c => col ++ [c] | None => col end)) /\
     (forall n, List.length row = List.length (MyTCSV.data self) ->
        Forall (fun col => List.length col = n) (MyTCSV.data self) ->
        Forall (fun col => List.length col = S n) columns)) /\
  ((List.length (MyTCSV.data self) < List.length row)%nat ->
   MyTCSV.__process_row_data__ H self = Raise IndexError).
Proof.
  intros Hrow Hdelimiter Hsplit Htransform Hdata.
  assert (Hrun : MyTCSV.__process_row_data__ H self =
                 (d <- MyTCSV.append_row (MyTCSV.data self) row ;;
                  Ok (MyTCSV.with_data self d))).
  { unfold MyTCSV.__process_row_data__, Dict.get.
    rewrite Hrow, Hdelimiter. cbn [of_option bind]. rewrite Hsplit. cbn [bind].
    rewrite Htransform. cbn [bind].
    destruct (MyTCSV.data self); [contradiction | reflexivity]. }
  rewrite Hrun. split.
  - intros Hlen. destruct (append_row_fits _ row Hlen) as (columns & Hc & Hlength & Hnth).
    exists columns. rewrite Hc. split; [reflexivity|]. split; [exact Hlength|].
    split; [exact Hnth|].
    intros n Heq Hall. apply Forall_forall. intros col' Hin.
    apply In_nth_error in Hin as (j & Hj).
    assert (Hjlt : (j < List.length (MyTCSV.data self))%nat).
    { rewrite <- Hlength. apply nth_error_Some. rewrite Hj. discriminate. }
    destruct (nth_error (MyTCSV.data self) j) as [col |] eqn:Hcol;
      [|apply nth_error_None in Hcol; lia].
    rewrite (Hnth j col Hcol) in Hj. injection Hj as <-.
    destruct (nth_error row j) as [c |] eqn:Hc';
      [|apply nth_error_None in Hc'; lia].
    rewrite length_app. cbn.
    rewrite Forall_forall in Hall. rewrite (Hall col (nth_error_In _ _ Hcol)). lia.
  - intros Hlen. rewrite (append_row_too_long _ row Hlen). reflexivity.
Qed.

Lemma process_row_data_columns_witness :
  exists self0 self,
    Scenario.open_table "plain.csv" = Ok self0 /\
    MyTCSV.__process_row_data__ MyTCSV.methods self0 = Ok self /\
    MyTCSV.data self = [[VStr "a"]; [VStr "b"]] /\
    exists columns,
      MyTCSV.__process_row_data__ MyTCSV.methods self =
      Ok (MyTCSV.with_data self columns) /\
      Forall (fun col => List.length col = 2%nat) columns.
Proof.
  eexists. eexists. split; [vm_compute; reflexivity|].
  split; [vm_compute; reflexivity|]. split; [reflexivity|].
  match goal with
  | |- exists columns, MyTCSV.__process_row_data__ _ ?s = _ /\ _ =>
      destruct (process_row_data_columns MyTCSV.methods s "a,b" (VStr ",")
                  ["a"; "b"] [VStr "a"; VStr "b"]
                  eq_refl eq_refl eq_refl eq_refl ltac:(discriminate)) as [Hfits _]
  end.
  destruct (Hfits (le_n 2)) as (columns & Hrun & _ & _ & Hlengths).
  exists columns. split; [exact Hrun|].
  apply Hlengths; [reflexivity|].
  repeat constructor.
Defined.

(** ** Samples: the default band files *)

(** X14.  When the file of a samples table has no tag [bands_filepaths],
    the default is taken as it is, a string, and its characters are opened
    as rasters one by one: with the timeline opened, the construction fails
    with [MissingFile] on the raster named by the first character of the
    default, "n" for "ndvi.tif,evi.tif", unless a raster of that name
    exists. *)
Theorem samples_default_bands (E : environment) (filename : string)
  (date_format timeline_file : pyval) (c : ascii) (rest path : string)
  (s0 s1 s2 : MyTCSV.t) (tl : Timeline.t) :
  MyTCSV.__init__ (Samples.methods E) E filename MyTCSV.default_delimiter
    MyTCSV.default_has_header MyTCSV.default_decimal MyTCSV.default_quote = Ok s0 ->
  Timeline.set_default s0 Samples.TAG_DATE_FORMAT date_format = Ok s1 ->
  Timeline.set_default s1 Samples.TAG_TIMELINE_FILE timeline_file = Ok s2 ->
  Dict.lookup (MyTCSV.tags s2) Samples.TAG_BANDS_PATHS = None ->
  Dict.lookup (MyTCSV.tags s2) Samples.TAG_TIMELINE_FILE = Some (VStr path) ->
  Timeline.__init__ E path Timeline.default_date_format
    Timeline.default_doy_file Timeline.default_day_factor = Ok tl ->
  gdal_Open E (String c "") = None ->
  Samples.__init__ E filename date_format timeline_file (VStr (String c rest)) =
  Raise (Exception "MissingFile"
           (format __error_missing_file_msg__ [String c ""])).
Proof.
  intros H0 H1 H2 Habsent Hpath Htl Hgdal.
  unfold Samples.__init__. rewrite H0. cbn [bind]. rewrite H1. cbn [bind].
  rewrite H2. cbn [bind].
  unfold Timeline.set_default at 1, MyTCSV.get_tag_value. rewrite Habsent.
  cbn [truthy String.eqb negb orb bind MyTCSV.with_tags MyTCSV.tags].
  unfold Dict.get.
  rewrite lookup_set_other by discriminate. rewrite Hpath.
  cbn [of_option bind Timeline.as_filename]. rewrite Htl. cbn [bind].
  rewrite lookup_set_same.
  cbn [of_option bind Samples.iterate Py.chars list_ascii_of_string map mapM
       Timeline.as_filename].
  unfold Mygdal.__init__ at 1. rewrite Hgdal. reflexivity.
Qed.

Lemma samples_default_bands_witness :
  Samples.__init__ Cases.env "nobands.csv" Samples.default_date_format
    Samples.default_timeline_file Samples.default_bands_files =
  Raise (Exception "MissingFile" "The file n does not exist in the file system.").
Proof.
  refine (samples_default_bands Cases.env "nobands.csv" _ _ "n" "dvi.tif,evi.tif"
            "timeline.csv" _ _ _ _ _ _ _ _ _ _ _).
  - vm_compute. reflexivity.
  - vm_compute. reflexivity.
  - vm_compute. reflexivity.
  - reflexivity.
  - reflexivity.
  - vm_compute. reflexivity.
  - reflexivity.
Defined.

(** ** Samples: the shape of the time series *)

Lemma enumerate_length {A : Type} (l : list A) :
  forall i, List.length (Samples.enumerate i l) = List.length l.
Proof.
  induction l as [| a l IH]; intros i; [reflexivity|]. cbn. rewrite IH. reflexivity.
Qed.

Lemma mapM_Forall {A B : Type} (f : A -> result B) (P : B -> Prop) (xs : list A)
  (ys : list B) :
  mapM f xs = Ok ys -> (forall x y, f x = Ok y -> P y) -> Forall P ys.
Proof.
  revert ys. induction xs as [| x xs IH]; intros ys H HP; cbn in H.
  - injection H as <-. constructor.
  - apply bind_Ok in H as (y & Hy & H).
    apply bind_Ok in H as (ys' & Hys' & H). injection H as <-.
    constructor; [exact (HP x y Hy) | exact (IH ys' Hys' HP)].
Qed.

Lemma select_go_same_mask {A B : Type} (a : list A) (b : list B) (mask : list bool) :
  List.length a = List.length mask -> List.length b = List.length mask ->
  List.length (select_go a mask) = List.length (select_go b mask).
Proof.
  revert a b. induction mask as [| m mask IH]; intros [| x a] [| y b] Ha Hb;
    try discriminate; [reflexivity|].
  cbn in Ha, Hb. cbn. destruct m; cbn; rewrite (IH a b) by lia; reflexivity.
Qed.

Lemma band_timeseries_aligned (self : Samples.t) (flt : bool) (pixel : Z * Z)
  (date_from date_to : pyval) (pixel_dates : list pyval) (j : nat) (band : Mygdal.t)
  (pair : list pyfloat * list pyval) :
  Samples.band_timeseries self flt pixel date_from date_to pixel_dates j band = Ok pair ->
  List.length (fst pair) = List.length (snd pair) /\
  (List.length (snd pair) <= List.length pixel_dates)%nat.
Proof.
  unfold Samples.band_timeseries. intros H.
  apply bind_Ok in H as (pixel_values & _ & H).
  apply bind_Ok in H as (dates_valid & _ & H).
  apply bind_Ok in H as (values_valid & _ & H).
  apply bind_Ok in H as (mask0 & _ & H).
  apply bind_Ok in H as (mask & _ & H).
  apply bind_Ok in H as (kept & Hkept & H).
  apply bind_Ok in H as (factor & _ & H).
  apply bind_Ok in H as (scaled & Hscaled & H).
  apply bind_Ok in H as (kept_dates & Hdates & H).
  injection H as <-. cbn [fst snd].
  unfold select in Hkept, Hdates.
  destruct (Nat.eqb_spec (List.length pixel_values) (List.length mask)) as [Hv |];
    [|discriminate Hkept].
  destruct (Nat.eqb_spec (List.length pixel_dates) (List.length mask)) as [Hd |];
    [|discriminate Hdates].
  injection Hkept as <-. injection Hdates as <-.
  unfold Samples.scale_all in Hscaled.
  destruct (as_number factor); [|discriminate Hscaled]. injection Hscaled as <-.
  rewrite length_map. split; [apply select_go_same_mask; assumption|].
  clear -Hd. revert mask Hd. induction pixel_dates as [| d ds IH]; intros [| m mask] Hd;
    try discriminate; [cbn; lia|].
  cbn in Hd. cbn. specialize (IH mask ltac:(lia)). destruct m; cbn; lia.
Qed.

(** X15.  When [get_samples_timeseries] returns, its result has one entry
    per sample geolocation, in their order, each entry has one pair per
    band, and the values and the dates of every pair have the same
    length. *)
Theorem get_samples_timeseries_shape (E : environment) (self : Samples.t)
  (samples_index : option (list Z)) (filter_sample_interval : bool)
  (geolocs : list (pyfloat * pyfloat))
  (result_ : list (list (list pyfloat * list pyval))) :
  Samples.reproject_samples_to E self (Timeline.doy_stack (Samples.timeline self))
    samples_index = Ok geolocs ->
  Samples.get_samples_timeseries E self samples_index filter_sample_interval = Ok result_ ->
  List.length result_ = List.length geolocs /\
  Forall (fun sample =>
            List.length sample = List.length (Samples.bands self) /\
            Forall (fun pair => List.length (fst pair) = List.length (snd pair)) sample)
         result_.
Proof.
  intros Hgeo H. unfold Samples.get_samples_timeseries in H. rewrite Hgeo in H.
  cbn [bind] in H. unfold Mygdal.geolocs_to_pixels in H. cbn [len] in H.
  assert (Hshape : forall pixels,
    mapM (fun ip => Samples.pixel_timeseries self filter_sample_interval (fst ip) (snd ip))
         (Samples.enumerate 0 pixels) = Ok result_ ->
    List.length result_ = List.length pixels /\
    Forall (fun sample =>
              List.length sample = List.length (Samples.bands self) /\
              Forall (fun pair => List.length (fst pair) = List.length (snd pair)) sample)
           result_).
  { intros pixels Hrun. split.
    - rewrite (mapM_length _ _ _ Hrun). apply enumerate_length.
    - apply (mapM_Forall _ _ _ _ Hrun). intros [i pixel] sample Hsample.
      cbn [fst snd] in Hsample. unfold Samples.pixel_timeseries in Hsample.
      apply bind_Ok in Hsample as (c1 & _ & Hsample).
      apply bind_Ok in Hsample as (date_from & _ & Hsample).
      apply bind_Ok in Hsample as (c2 & _ & Hsample).
      apply bind_Ok in Hsample as (date_to & _ & Hsample).
      apply bind_Ok in Hsample as (pixel_dates & _ & Hsample).
      split.
      + rewrite (mapM_length _ _ _ Hsample). apply enumerate_length.
      + apply (mapM_Forall _ _ _ _ Hsample). intros [j band] pair Hpair.
        exact (proj1 (band_timeseries_aligned _ _ _ _ _ _ _ _ _ Hpair)). }
  destruct geolocs as [| g geolocs].
  - cbn in H. injection H as <-. split; [reflexivity | constructor].
  - cbn [List.length Nat.ltb Nat.leb map_rows] in H.
    destruct (Hshape _ H) as [Hlen Hall]. split; [|exact Hall].
    rewrite Hlen, length_map. reflexivity.
Qed.

Lemma get_samples_timeseries_shape_witness :
  exists self result_,
    Scenario.fetched_samples "match.csv" = Ok self /\
    Samples.get_samples_timeseries Scenario.env self None false = Ok result_ /\
    List.length (Samples.bands self) = 2%nat /\
    List.length result_ = 1%nat /\
    Forall (fun sample =>
              List.length sample = List.length (Samples.bands self) /\
              Forall (fun pair => List.length (fst pair) = List.length (snd pair)) sample)
           result_.
Proof.
  eexists. eexists. split; [vm_compute; reflexivity|].
  split; [vm_compute; reflexivity|]. split; [reflexivity|].
  refine (get_samples_timeseries_shape Scenario.env _ None false
            [(Fin (7 # 2), Fin (13 # 2))] _ _ _).
  - vm_compute. reflexivity.
  - vm_compute. reflexivity.
Defined.

(** ** Rows grouped by a key *)

Lemma group_add_concat (groups : list (pyval * list nat)) (key : pyval) (i : nat) :
  Permutation (List.concat (map snd (MyTCSV.group_add groups key i)))
              (List.concat (map snd groups) ++ [i]).
Proof.
  induction groups as [| [k idx] groups IH]; cbn; [reflexivity|].
  destruct (MyTCSV.key_eqb k key); cbn.
  - rewrite <- !app_assoc. apply Permutation_app_head. apply Permutation_app_comm.
  - rewrite <- app_assoc. apply Permutation_app_head. exact IH.
Qed.

Lemma group_add_In (groups : list (pyval * list nat)) (key : pyval) (i : nat)
  (k : pyval) (idx : list nat) :
  In (k, idx) (MyTCSV.group_add groups key i) ->
  In (k, idx) groups \/
  (exists idx0, In (k, idx0) groups /\ idx = idx0 ++ [i] /\ MyTCSV.key_eqb k key = true) \/
  (k = key /\ idx = [i]).
Proof.
  induction groups as [| [k0 idx0] groups IH]; cbn.
  - intros [H | []]. injection H as <- <-. right. right. split; reflexivity.
  - destruct (MyTCSV.key_eqb k0 key) eqn:Heq; cbn.
    + intros [H | H].
      * injection H as <- <-. right. left. exists idx0. repeat split; [left; reflexivity | exact Heq].
      * left. right. exact H.
    + intros [H | H].
      * left. left. exact H.
      * destruct (IH H) as [Hin | [(idx1 & Hin & Hidx & Hk) | Hnew]].
        -- left. right. exact Hin.
        -- right. left. exists idx1. repeat split; [right; exact Hin | exact Hidx | exact Hk].
        -- right. right. exact Hnew.
Qed.

Lemma group_add_keys (groups : list (pyval * list nat)) (key : pyval) (i : nat) :
  map fst (MyTCSV.group_add groups key i) =
  if existsb (fun k => MyTCSV.key_eqb k key) (map fst groups)
  then map fst groups else map fst groups ++ [key].
Proof.
  induction groups as [| [k idx] groups IH]; cbn; [reflexivity|].
  destruct (MyTCSV.key_eqb k key); cbn; [reflexivity|].
  rewrite IH. destruct (existsb _ _); reflexivity.
Qed.

Lemma ascending_app (l : list nat) (n : nat) :
  ascending l -> (forall x, In x l -> (x < n)%nat) -> ascending (l ++ [n]).
Proof.
  intros Hl Hn p q x y Hpq Hp Hq.
  destruct (Nat.lt_ge_cases q (List.length l)) as [Hq' | Hq'].
  - rewrite nth_error_app1 in Hp, Hq by lia. exact (Hl p q x y Hpq Hp Hq).
  - rewrite nth_error_app2 in Hq by lia.
    destruct (q - List.length l)%nat as [| m] eqn:Hm; [|destruct m; discriminate Hq].
    injection Hq as <-.
    rewrite nth_error_app1 in Hp by lia. apply Hn. exact (nth_error_In _ _ Hp).
Qed.

Lemma grouping_step (pre : list pyval) (groups : list (pyval * list nat)) (key : pyval) :
  grouping pre groups ->
  grouping (pre ++ [key]) (MyTCSV.group_add groups key (List.length pre)).
Proof.
  intros (Hperm & Hcells & Hkeys & Hasc).
  assert (Hbound : forall k idx i, In (k, idx) groups -> In i idx ->
                                   (i < List.length pre)%nat).
  { intros k idx i Hin Hi. destruct (Hcells k idx i Hin Hi) as (c & Hc & _).
    apply nth_error_Some. rewrite Hc. discriminate. }
  split; [|split; [|split]].
  - rewrite group_add_concat, length_app. cbn [List.length].
    rewrite Nat.add_1_r, seq_S. cbn [Nat.add]. apply Permutation_app_tail. exact Hperm.
  - intros k idx i Hin Hi.
    destruct (group_add_In _ _ _ _ _ Hin) as [Hold | [(idx0 & Hold & -> & Hk) | [-> ->]]].
    + destruct (Hcells k idx i Hold Hi) as (c & Hc & Hck).
      exists c. split; [|exact Hck].
      rewrite nth_error_app1; [exact Hc|]. exact (Hbound k idx i Hold Hi).
    + apply in_app_or in Hi as [Hi | [<- | []]].
      * destruct (Hcells k idx0 i Hold Hi) as (c & Hc & Hck).
        exists c. split; [|exact Hck].
        rewrite nth_error_app1; [exact Hc|]. exact (Hbound k idx0 i Hold Hi).
      * exists key. split; [|right; exact Hk].
        rewrite nth_error_app2, Nat.sub_diag by lia. reflexivity.
    + destruct Hi as [<- | []]. exists key. split; [|left; reflexivity].
      rewrite nth_error_app2, Nat.sub_diag by lia. reflexivity.
  - rewrite group_add_keys.
    destruct (existsb _ _) eqn:Hex; [exact Hkeys|].
    intros p q k1 k2 Hpq Hp Hq.
    destruct (Nat.lt_ge_cases q (List.length (map fst groups))) as [Hq' | Hq'].
    + rewrite nth_error_app1 in Hp, Hq by lia. exact (Hkeys p q k1 k2 Hpq Hp Hq).
    + rewrite nth_error_app2 in Hq by lia.
      destruct (q - List.length (map fst groups))%nat as [| m] eqn:Hm;
        [|destruct m; discriminate Hq].
      injection Hq as <-. rewrite nth_error_app1 in Hp by lia.
      apply nth_error_In in Hp.
      destruct (MyTCSV.key_eqb k1 key) eqn:Hk; [|reflexivity].
      assert (Hex' : existsb (fun k => MyTCSV.key_eqb k key) (map fst groups) = true).
      { apply existsb_exists. exists k1. split; assumption. }
      rewrite Hex in Hex'. discriminate Hex'.
  - intros k idx Hin.
    destruct (group_add_In _ _ _ _ _ Hin) as [Hold | [(idx0 & Hold & -> & Hk) | [-> ->]]].
    + exact (Hasc k idx Hold).
    + apply ascending_app; [exact (Hasc k idx0 Hold)|].
      intros x Hx. exact (Hbound k idx0 x Hold Hx).
    + intros p q x y Hpq Hp Hq. destruct q as [| q]; [lia|].
      destruct q; discriminate Hq.
Qed.

Lemma group_rows_grouping (rest : list pyval) :
  forall pre groups,
    grouping pre groups ->
    Forall (fun c => forall l, c <> VList l) rest ->
    exists result_,
      MyTCSV.group_rows rest (List.length pre) groups = Ok result_ /\
      grouping (pre ++ rest) result_.
Proof.
  induction rest as [| key rest IH]; intros pre groups Hg Hhash.
  - exists groups. split; [reflexivity|]. rewrite app_nil_r. exact Hg.
  - inversion Hhash as [| ? ? Hkey Hrest]; subst.
    destruct (IH (pre ++ [key]) (MyTCSV.group_add groups key (List.length pre)))
      as (result_ & Hrun & Hres).
    + apply grouping_step. exact Hg.
    + exact Hrest.
    + exists result_. rewrite length_app in Hrun. cbn [List.length] in Hrun.
      rewrite Nat.add_1_r in Hrun. rewrite <- app_assoc in Hres. cbn [app] in Hres.
      split; [|exact Hres].
      cbn [MyTCSV.group_rows]. destruct key; try exact Hrun.
      exfalso. exact (Hkey l eq_refl).
Qed.

Lemma lex_compare_eq (a b : list Z) : Datetime.lex_compare a b = Eq -> a = b.
Proof.
  revert b. induction a as [| x a IH]; intros [| y b]; cbn; try discriminate.
  - reflexivity.
  - destruct (Z.compare_spec x y) as [-> | |]; try discriminate.
    intros H. rewrite (IH b H). reflexivity.
Qed.

Lemma lex_compare_refl (a : list Z) : Datetime.lex_compare a a = Eq.
Proof.
  induction a as [| x a IH]; [reflexivity|]. cbn. rewrite Z.compare_refl. exact IH.
Qed.

Lemma date_eqb_eq (x y : Datetime.datetime) :
  Datetime.eqb x y = true <-> Datetime.key x = Datetime.key y.
Proof.
  unfold Datetime.eqb, Datetime.compare. split.
  - destruct (Datetime.lex_compare _ _) eqn:H; try discriminate.
    intros _. exact (lex_compare_eq _ _ H).
  - intros ->. rewrite lex_compare_refl. reflexivity.
Qed.

Lemma F_eq_sym (x y : pyfloat) : F.eq x y = true -> F.eq y x = true.
Proof.
  destruct x as [p | s |], y as [q | t |]; cbn; try discriminate.
  - apply Qeq_bool_sym.
  - destruct s, t; cbn; congruence.
Qed.

Lemma F_eq_trans (x y z : pyfloat) : F.eq x y = true -> F.eq y z = true -> F.eq x z = true.
Proof.
  destruct x as [p | s |], y as [q | t |], z as [r | u |]; cbn; try discriminate.
  - apply Qeq_bool_trans.
  - destruct s, t, u; cbn; congruence.
Qed.

Lemma key_eqb_sym (a b : pyval) : MyTCSV.key_eqb a b = true -> MyTCSV.key_eqb b a = true.
Proof.
  destruct a as [| x | x | x | x | x | x], b as [| y | y | y | y | y | y];
    cbn [MyTCSV.key_eqb MyTCSV.key_number];
    try discriminate; try reflexivity; try apply F_eq_sym.
  - rewrite !String.eqb_eq. congruence.
  - rewrite !date_eqb_eq. congruence.
Qed.

Lemma key_eqb_trans (a b c : pyval) :
  MyTCSV.key_eqb a b = true -> MyTCSV.key_eqb b c = true -> MyTCSV.key_eqb a c = true.
Proof.
  destruct a as [| x | x | x | x | x | x], b as [| y | y | y | y | y | y],
           c as [| z | z | z | z | z | z];
    cbn [MyTCSV.key_eqb MyTCSV.key_number];
    try discriminate; try reflexivity; try apply F_eq_trans.
  - rewrite !String.eqb_eq. congruence.
  - rewrite !date_eqb_eq. congruence.
Qed.

Lemma grouping_same_group (column : list pyval) (groups : list (pyval * list nat))
  (i j : nat) (ci cj : pyval) :
  grouping column groups ->
  nth_error column i = Some ci -> nth_error column j = Some cj ->
  MyTCSV.key_eqb ci cj = true ->
  exists key indexes, In (key, indexes) groups /\ In i indexes /\ In j indexes.
Proof.
  intros (Hperm & Hcells & Hkeys & _) Hi Hj Heq.
  assert (Hgroup : forall n c, nth_error column n = Some c ->
    exists p k idx, nth_error groups p = Some (k, idx) /\ In n idx /\
                    (c = k \/ MyTCSV.key_eqb k c = true)).
  { intros n c Hn.
    assert (Hin : In n (List.concat (map snd groups))).
    { apply (Permutation_in _ (Permutation_sym Hperm)). apply in_seq.
      split; [lia|]. cbn. apply nth_error_Some. rewrite Hn. discriminate. }
    apply in_concat in Hin as (idx & Hidx & Hn').
    apply in_map_iff in Hidx as ([k idx'] & Hsnd & Hg). cbn in Hsnd. subst idx'.
    destruct (Hcells k idx n Hg Hn') as (c' & Hc' & Hck).
    rewrite Hn in Hc'. injection Hc' as <-.
    apply In_nth_error in Hg as (p & Hp). exists p, k, idx. repeat split; assumption. }
  destruct (Hgroup i ci Hi) as (p & k1 & idx1 & Hp & Hin1 & Hk1).
  destruct (Hgroup j cj Hj) as (q & k2 & idx2 & Hq & Hin2 & Hk2).
  assert (H1 : MyTCSV.key_eqb k1 cj = true).
  { destruct Hk1 as [<- | Hk1]; [exact Heq | exact (key_eqb_trans _ _ _ Hk1 Heq)]. }
  assert (H12 : MyTCSV.key_eqb k1 k2 = true).
  { destruct Hk2 as [<- | Hk2]; [exact H1|].
    exact (key_eqb_trans _ _ _ H1 (key_eqb_sym _ _ Hk2)). }
  assert (Hfst : forall n k idx, nth_error groups n = Some (k, idx) ->
                                 nth_error (map fst groups) n = Some k).
  { intros n k idx Hn. rewrite nth_error_map, Hn. reflexivity. }
  destruct (Nat.lt_trichotomy p q) as [Hlt | [-> | Hgt]].
  - rewrite (Hkeys p q k1 k2 Hlt (Hfst _ _ _ Hp) (Hfst _ _ _ Hq)) in H12. discriminate H12.
  - rewrite Hp in Hq. injection Hq as <- <-.
    exists k1, idx1. split; [exact (nth_error_In _ _ Hp)|]. split; assumption.
  - apply key_eqb_sym in H12.
    rewrite (Hkeys q p k2 k1 Hgt (Hfst _ _ _ Hq) (Hfst _ _ _ Hp)) in H12. discriminate H12.
Qed.

(** X16.  [get_data_key_indexes] on a column of hashable values returns
    groups that partition the rows of the column: every row index occurs
    in exactly one group, the value of each row equals the key of its
    group, the keys of different groups differ, the indexes of each group
    ascend, and two rows of equal values are in one group. *)
Theorem get_data_key_indexes_partition (self : MyTCSV.t) (field_ref : pyval)
  (field : Z) (column : list pyval) :
  MyTCSV.resolve_field_ref self field_ref = Ok field ->
  getitem (MyTCSV.data self) field = Ok column ->
  Forall (fun c => forall l, c <> VList l) column ->
  exists groups,
    MyTCSV.get_data_key_indexes self field_ref = Ok groups /\
    grouping column groups /\
    forall i j ci cj,
      nth_error column i = Some ci -> nth_error column j = Some cj ->
      MyTCSV.key_eqb ci cj = true ->
      exists key indexes, In (key, indexes) groups /\ In i indexes /\ In j indexes.
Proof.
  intros Hfield Hcolumn Hhash. unfold MyTCSV.get_data_key_indexes.
  rewrite Hfield. cbn [bind]. rewrite Hcolumn. cbn [bind].
  destruct (group_rows_grouping column [] []) as (groups & Hrun & Hg).
  - split; [reflexivity|]. split; [intros ? ? ? []|].
    split; [intros p q k1 k2 _ Hp; destruct p; discriminate Hp | intros ? ? []].
  - exact Hhash.
  - exists groups. split; [exact Hrun|]. split; [exact Hg|].
    intros i j ci cj. apply grouping_same_group. exact Hg.
Qed.

Lemma get_data_key_indexes_partition_witness :
  exists self, Cases.fetched_table "classes.csv" = Ok self /\
    exists groups,
      MyTCSV.get_data_key_indexes self (VStr "0") = Ok groups /\
      grouping [VStr "forest"; VStr "water"; VStr "forest"] groups /\
      exists key indexes, In (key, indexes) groups /\ In 0%nat indexes /\ In 2%nat indexes.
Proof.
  eexists. split; [vm_compute; reflexivity|].
  match goal with
  | |- exists groups, MyTCSV.get_data_key_indexes ?s _ = _ /\ _ =>
      destruct (get_data_key_indexes_partition s (VStr "0") 0
                  [VStr "forest"; VStr "water"; VStr "forest"] eq_refl eq_refl)
        as (groups & Hrun & Hgrouping & Hsame)
  end.
  - repeat constructor; discriminate.
  - exists groups. split; [exact Hrun|]. split; [exact Hgrouping|].
    apply (Hsame 0%nat 2%nat (VStr "forest") (VStr "forest")); reflexivity.
Defined.

(** ** A file loaded by columns *)

Lemma strip_fields_quote (fields : list string) (q : string) :
  MyTCSV.strip_fields fields (Ok (VStr q)) =
  Ok (map (fun f => Py.strip_chars (Py.strip f) q) fields).
Proof.
  induction fields as [| f fields IH]; [reflexivity|].
  cbn [MyTCSV.strip_fields bind MyTCSV.strip_by]. rewrite IH. reflexivity.
Qed.

Lemma first_row_columns {A B : Type} (cell : A -> B) (d : A) (fields : list A) :
  map (fun c => [c]) (map cell fields) =
  map (fun j => [cell (nth j fields d)]) (seq 0 (List.length fields)).
Proof.
  induction fields as [| f fields IH]; [reflexivity|].
  cbn [map List.length seq nth]. f_equal.
  rewrite <- seq_shift, (map_map S). exact IH.
Qed.

Lemma append_row_columns (cell : string -> pyval) (fields : list string) :
  forall cols : nat -> list pyval,
  MyTCSV.append_row (map cols (seq 0 (List.length fields))) (map cell fields) =
  Ok (map (fun j => cols j ++ [cell (nth j fields "")]) (seq 0 (List.length fields))).
Proof.
  induction fields as [| f fields IH]; intros cols; [reflexivity|].
  cbn [map List.length seq nth MyTCSV.append_row].
  rewrite <- seq_shift, !(map_map S). rewrite (IH (fun j => cols (S j))). reflexivity.
Qed.

(** One row processed by a table of the type [MyTCSV] itself. *)
Lemma process_row_columns (self : MyTCSV.t) (sep q t : string) (fields : list string)
  (done : list (list string)) :
  let cell := fun f => VStr (Py.strip_chars (Py.strip f) q) in
  let columns := fun rows =>
    map (fun j => map (fun r => cell (nth j r "")) rows) (seq 0 (List.length fields)) in
  MyTCSV.__row__ self = Some t ->
  Dict.lookup (MyTCSV.tags self) MyTCSV.TAG_DELIMITER = Some (VStr sep) ->
  Dict.lookup (MyTCSV.tags self) MyTCSV.TAG_QUOTE = Some (VStr q) ->
  Py.split t sep = Ok fields ->
  MyTCSV.data self = [] /\ done = [] \/ MyTCSV.data self = columns done ->
  MyTCSV.__process_row_data__ MyTCSV.methods self =
  Ok (MyTCSV.with_data self (columns (done ++ [fields]))).
Proof.
  intros cell columns Hrow Hsep Hq Hsplit Hdata.
  unfold MyTCSV.__process_row_data__, Dict.get. rewrite Hrow, Hsep.
  cbn [of_option bind MyTCSV.split_by]. rewrite Hsplit.
  cbn [bind MyTCSV.methods MyTCSV.transform_row_data].
  unfold MyTCSV.__transform_row_data__, Dict.get. rewrite Hq. cbn [of_option].
  rewrite strip_fields_quote. cbn [bind]. rewrite map_map. fold cell.
  assert (Hfirst : map (fun c => [c]) (map cell fields) = columns [fields]).
  { unfold columns. cbn [map]. apply first_row_columns. }
  destruct Hdata as [[Hempty ->] | Hcols].
  - rewrite Hempty. cbn [List.length Nat.ltb Nat.leb app]. rewrite Hfirst. reflexivity.
  - rewrite Hcols. destruct (0 <? List.length (columns done))%nat eqn:Hk.
    + unfold columns at 1. rewrite append_row_columns. cbn [bind].
      do 2 f_equal. unfold columns. apply map_ext. intros j.
      rewrite map_app. reflexivity.
    + apply Nat.ltb_ge in Hk. unfold columns in Hk. rewrite length_map, length_seq in Hk.
      assert (Hnil : fields = []) by (destruct fields; [reflexivity | cbn in Hk; lia]).
      subst fields. reflexivity.
Qed.

Lemma fetch_rows_columns (sep q : string) (k : nat) (lines : list string) :
  let cell := fun f => VStr (Py.strip_chars (Py.strip f) q) in
  let columns := fun rows =>
    map (fun j => map (fun r => cell (nth j r "")) rows) (seq 0 k) in
  forall (rows done : list (list string)) (self : MyTCSV.t),
  Dict.lookup (MyTCSV.tags self) MyTCSV.TAG_DELIMITER = Some (VStr sep) ->
  Dict.lookup (MyTCSV.tags self) MyTCSV.TAG_QUOTE = Some (VStr q) ->
  Forall2 (fun line fields => Py.split (Py.strip line) sep = Ok fields /\
                              List.length fields = k) lines rows ->
  MyTCSV.data self = columns done ->
  exists self',
    MyTCSV.fetch_rows MyTCSV.methods lines self = Ok self' /\
    MyTCSV.data self' = columns (done ++ rows).
Proof.
  intros cell columns rows done self Hsep Hq Hrows. revert done self Hsep Hq.
  induction Hrows as [| line fields lines rows [Hsplit Hk] _ IH];
    intros done self Hsep Hq Hdata.
  - exists self. split; [reflexivity|]. rewrite app_nil_r. exact Hdata.
  - cbn [MyTCSV.fetch_rows].
    set (self1 := {| MyTCSV.file := lines; MyTCSV.__row__ := Some (Py.strip line);
                     MyTCSV.data := MyTCSV.data self;
                     MyTCSV.field_names := MyTCSV.field_names self;
                     MyTCSV.tags := MyTCSV.tags self |}).
    rewrite (process_row_columns self1 sep q (Py.strip line) fields done
               eq_refl Hsep Hq Hsplit).
    + cbn [bind]. rewrite Hk.
      destruct (IH (done ++ [fields]) (MyTCSV.with_data self1 (columns (done ++ [fields])))
                  Hsep Hq eq_refl) as (self' & Hrun & Hdata').
      exists self'. split; [exact Hrun|]. rewrite Hdata', <- app_assoc. reflexivity.
    + right. rewrite Hk. exact Hdata.
Qed.

(** X21.  [fetch_data] on a table of the type [MyTCSV] that holds no data
    yet loads the rest of its file by columns: when the row at hand and
    every line left, stripped, split into [k] fields, the table gets [k]
    columns with one entry per row, in the order of the file, and the
    entry of a row in column [j] is its field [j] stripped of white space
    and then of the quote characters. *)
Theorem fetch_data_columns (self : MyTCSV.t) (sep q first : string) (k : nat)
  (rows : list (list string)) :
  MyTCSV.__row__ self = Some first ->
  MyTCSV.data self = [] ->
  Dict.lookup (MyTCSV.tags self) MyTCSV.TAG_DELIMITER = Some (VStr sep) ->
  Dict.lookup (MyTCSV.tags self) MyTCSV.TAG_QUOTE = Some (VStr q) ->
  Forall2 (fun text fields => Py.split text sep = Ok fields /\ List.length fields = k)
          (first :: map Py.strip (MyTCSV.file self)) rows ->
  exists self',
    MyTCSV.fetch_data MyTCSV.methods self = Ok self' /\
    List.length (MyTCSV.data self') = k /\
    forall j, (j < k)%nat ->
      nth_error (MyTCSV.data self') j =
      Some (map (fun fields => VStr (Py.strip_chars (Py.strip (nth j fields "")) q)) rows).
Proof.
  intros Hrow Hdata Hsep Hq Hrows.
  inversion Hrows as [| text fields texts rows' [Hsplit Hk] Hrest]; subst.
  unfold MyTCSV.fetch_data.
  rewrite (process_row_columns self sep q first fields [] Hrow Hsep Hq Hsplit)
    by (left; split; [exact Hdata | reflexivity]).
  cbn [bind app MyTCSV.with_data MyTCSV.file].
  destruct (fetch_rows_columns sep q (List.length fields) (MyTCSV.file self) rows' [fields]
              (MyTCSV.with_data self
                 (map (fun j => map (fun r => VStr (Py.strip_chars (Py.strip (nth j r "")) q))
                                    [fields]) (seq 0 (List.length fields))))
              Hsep Hq) as (self' & Hrun & Hdata').
  - clear -Hrest. revert rows' Hrest.
    induction (MyTCSV.file self) as [| line lines IH]; intros rows' Hrest;
      inversion Hrest; subst; constructor; [assumption | apply IH; assumption].
  - reflexivity.
  - exists self'. split; [exact Hrun|]. rewrite Hdata'.
    split; [rewrite length_map, length_seq; reflexivity|].
    intros j Hj. rewrite nth_error_map, nth_error_seq.
    destruct (Nat.ltb_spec j (List.length fields)) as [_ | Hge]; [reflexivity | lia].
Qed.

Lemma fetch_data_columns_witness :
  exists self0, Scenario.open_table "plain.csv" = Ok self0 /\
    exists self,
      MyTCSV.fetch_data MyTCSV.methods self0 = Ok self /\
      List.length (MyTCSV.data self) = 2%nat /\
      nth_error (MyTCSV.data self) 1 = Some [VStr "b"; VStr "2"].
Proof.
  eexists. split; [vm_compute; reflexivity|].
  match goal with
  | |- exists self, MyTCSV.fetch_data _ ?s = _ /\ _ =>
      destruct (fetch_data_columns s "," (String (ascii_of_nat 34) "") "a,b" 2
                  [["a"; "b"]; ["1"; "2"]] eq_refl eq_refl eq_refl eq_refl)
        as (self' & Hrun & Hlen & Hcols)
  end.
  - repeat constructor.
  - exists self'. split; [exact Hrun|]. split; [exact Hlen|].
    rewrite (Hcols 1%nat (le_n 2)). reflexivity.
Defined.

(** ** A timeline without the tag of its date field *)

Lemma Timeline_init_stack (E : environment) (filename : string)
  (date_format doy_file day_factor : pyval) (self : Timeline.t) :
  Timeline.__init__ E filename date_format doy_file day_factor = Ok self ->
  exists path, Mygdal.__init__ E path = Ok (Timeline.doy_stack self).
Proof.
  unfold Timeline.__init__. intros H.
  apply bind_Ok in H as (s0 & _ & H).
  apply bind_Ok in H as (s1 & _ & H).
  apply bind_Ok in H as (s2 & _ & H).
  apply bind_Ok in H as (s3 & _ & H).
  apply bind_Ok in H as (v & _ & H).
  apply bind_Ok in H as (path & _ & H).
  apply bind_Ok in H as (stack & Hstack & H).
  injection H as <-. exists path. exact Hstack.
Qed.

(** X22.  The construction of a timeline does not ask for the tag
    [date_field], but its methods do: on a timeline that was constructed
    from a file without the tag, [read_pixel_dates] fails with
    [KeyError('date_field')] at every pixel of the raster, and so does
    [fetch_data] on its first row. *)
Theorem timeline_without_date_field (E : environment) (filename : string)
  (date_format doy_file day_factor : pyval) (self : Timeline.t) :
  Timeline.__init__ E filename date_format doy_file day_factor = Ok self ->
  Dict.lookup (MyTCSV.tags (Timeline.table self)) Timeline.TAG_DATE_FIELD = None ->
  (forall pixel,
     0 <= fst pixel < Mygdal.width (Timeline.doy_stack self) ->
     0 <= snd pixel < Mygdal.height (Timeline.doy_stack self) ->
     Timeline.read_pixel_dates self pixel = Raise (KeyError "date_field")) /\
  (forall row_text sep q fields,
     MyTCSV.__row__ (Timeline.table self) = Some row_text ->
     Dict.lookup (MyTCSV.tags (Timeline.table self)) MyTCSV.TAG_DELIMITER = Some (VStr sep) ->
     Dict.lookup (MyTCSV.tags (Timeline.table self)) MyTCSV.TAG_QUOTE = Some (VStr q) ->
     Py.split row_text sep = Ok fields ->
     Timeline.fetch_data E self = Raise (KeyError "date_field")).
Proof.
  intros Hinit Habsent. split.
  - intros pixel _ _. destruct (Timeline_init_stack _ _ _ _ _ _ Hinit) as (path & Hstack).
    unfold Timeline.read_pixel_dates.
    destruct (Mygdal.read_pixel_values (Timeline.doy_stack self) pixel) as [doys | e] eqn:Hread.
    + cbn [bind].
      rewrite (mask_nodata_same_length _ _ (init_nodata_length _ _ _ _ _ Hstack Hread)).
      cbn [bind]. unfold Dict.get. rewrite Habsent. reflexivity.
    + exfalso. unfold Mygdal.__init__ in Hstack.
      destruct (gdal_Open E path); [|discriminate Hstack].
      injection Hstack as Hstack. rewrite <- Hstack in Hread. discriminate Hread.
  - intros row_text sep q fields Hrow Hsep Hq Hsplit.
    unfold Timeline.fetch_data, MyTCSV.fetch_data, MyTCSV.__process_row_data__, Dict.get.
    rewrite Hrow, Hsep. cbn [of_option bind MyTCSV.split_by]. rewrite Hsplit.
    cbn [bind Timeline.methods MyTCSV.transform_row_data].
    unfold Timeline.__transform_row_data__, MyTCSV.__transform_row_data__, Dict.get.
    rewrite Hq. cbn [of_option].
    assert (Hstrip : forall l, MyTCSV.strip_fields l (Ok (VStr q)) =
                               Ok (map (fun f => Py.strip_chars (Py.strip f) q) l)).
    { induction l as [| f l IH]; [reflexivity|].
      cbn [MyTCSV.strip_fields bind MyTCSV.strip_by]. rewrite IH. reflexivity. }
    rewrite Hstrip. cbn [bind]. unfold Timeline.convert_field, Dict.get.
    rewrite Habsent. reflexivity.
Qed.

Lemma timeline_without_date_field_witness :
  exists self, Scenario.open_timeline "plain.csv" = Ok self /\
    Timeline.read_pixel_dates self (3, 3) = Raise (KeyError "date_field") /\
    Timeline.fetch_data Scenario.env self = Raise (KeyError "date_field").
Proof.
  eexists. split; [vm_compute; reflexivity|].
  match goal with
  | |- Timeline.read_pixel_dates ?s _ = _ /\ _ =>
      destruct (timeline_without_date_field Scenario.env "plain.csv"
                  Timeline.default_date_format Timeline.default_doy_file
                  Timeline.default_day_factor s) as [Hread Hfetch]
  end.
  - vm_compute. reflexivity.
  - reflexivity.
  - split; [apply Hread; cbn; lia|].
    apply (Hfetch "a,b" "," (String (ascii_of_nat 34) "") ["a"; "b"]); reflexivity.
Defined.

(** ** Random geolocations in a box, on a north-up raster *)

(** X23.  On a north-up raster (x resolution positive, y resolution
    negative) whose lower-right corner has a positive y, the check of
    [get_random_geolocs] compares the box with the corners multiplied by
    the signs of the resolution: a lower-right box corner whose y is not
    negative, as that of every point of the raster is, is refused with
    [OutOfBounds]; a corner that is accepted has a y of at most minus the
    y of the raster's corner, and the geolocations drawn lie between the
    upper-left corner of the raster and that corner. *)
Theorem get_random_geolocs_north_up (G : generator) (state state1 : nat)
  (self : Mygdal.t) (n : nat) (seed : option Z) (ux uy lx ly bx by_ : Q) :
  Mygdal.geo_ul self = (Fin ux, Fin uy) ->
  Mygdal.geo_lr self = (Fin lx, Fin ly) ->
  Mygdal.sign_pair (Mygdal.geo_resolution self) = (Fin 1, Fin (-1)) ->
  (ux <= lx)%Q -> (ly <= uy)%Q -> (0 < ly)%Q ->
  seed_generator G state seed = Ok state1 ->
  ((0 <= by_)%Q ->
   Mygdal.get_random_geolocs G state self n None (Some (Fin bx, Fin by_)) seed =
   (Raise (Exception "OutOfBounds" __error_outbounds_msg__), state1)) /\
  ((bx <= lx)%Q -> (by_ <= - ly)%Q ->
   Forall (fun r => (0 <= fst r)%Q /\ (fst r < 1)%Q /\ (0 <= snd r)%Q /\ (snd r < 1)%Q)
          (fst (rand G state1 n)) ->
   exists geolocs,
     Mygdal.get_random_geolocs G state self n None (Some (Fin bx, Fin by_)) seed =
     (Ok geolocs, snd (rand G state1 n)) /\
     Forall (fun g => exists x y, g = (Fin x, Fin y) /\
                        (Qmin ux bx <= x)%Q /\ (x <= Qmax ux bx)%Q /\
                        (by_ <= y)%Q /\ (y <= uy)%Q) geolocs).
Proof.
  intros Hul Hlr Hsign Hx Hy Hly Hseed.
  unfold Mygdal.get_random_geolocs. rewrite Hseed, Hul, Hlr, Hsign.
  unfold Mygdal.any_pair, Mygdal.pair_op, F.gt.
  cbn [any fst snd F.mul F.lt].
  assert (Hord : negb (Qle_bool (ux * 1) (lx * 1)) || negb (Qle_bool (uy * -1) (ly * -1))
                 = false).
  { apply orb_false_iff. split; apply negb_false_iff; apply Qle_bool_iff; nra. }
  rewrite Hord. split.
  - intros Hby.
    assert (Hout : negb (Qle_bool bx (lx * 1)) || negb (Qle_bool by_ (ly * -1)) = true).
    { apply orb_true_iff. right. apply negb_true_iff.
      destruct (Qle_bool by_ (ly * -1)) eqn:H; [|reflexivity].
      apply Qle_bool_iff in H. exfalso. nra. }
    rewrite Hout. reflexivity.
  - intros Hbx Hby Hrows.
    assert (Hout : negb (Qle_bool bx (lx * 1)) || negb (Qle_bool by_ (ly * -1)) = false).
    { apply orb_false_iff. split; apply negb_false_iff; apply Qle_bool_iff; nra. }
    rewrite Hout. destruct (rand G state1 n) as [rows state2]. cbn [fst snd] in *.
    eexists. split; [reflexivity|].
    apply Forall_map. eapply Forall_impl; [|exact Hrows].
    intros [r1 r2] (H1 & H2 & H3 & H4). cbn [fst snd F.sub F.neg F.add F.mul] in *.
    eexists. eexists. split; [reflexivity|].
    destruct (between_corners ux bx r1 H1 H2) as [Ha Hb].
    split; [exact Ha|]. split; [exact Hb|]. split; nra.
Qed.

Lemma get_random_geolocs_north_up_witness :
  exists self, Mygdal.__init__ Scenario.env "north.tif" = Ok self /\
    Mygdal.geo_lr self = (Fin 9, Fin 1) /\
    Mygdal.get_random_geolocs Cases.counter 0 self 3 None (Some (Fin 9, Fin 1)) None =
    (Raise (Exception "OutOfBounds" "Coordinate/pixel index out of bounds."), 0%nat) /\
    exists geolocs,
      Mygdal.get_random_geolocs Cases.counter 0 self 3 None (Some (Fin 9, Fin (-1))) None =
      (Ok geolocs, 3%nat) /\
      Forall (fun g => exists x y, g = (Fin x, Fin y) /\
                         (Qmin 0 9 <= x)%Q /\ (x <= Qmax 0 9)%Q /\
                         (-1 <= y)%Q /\ (y <= 10)%Q) geolocs.
Proof.
  eexists. split; [reflexivity|]. split; [reflexivity|]. split.
  - refine (proj1 (get_random_geolocs_north_up Cases.counter 0 0 _ 3 None 0 10 9 1 9 1
                     _ _ _ _ _ _ _) _); try reflexivity; discriminate.
  - refine (proj2 (get_random_geolocs_north_up Cases.counter 0 0 _ 3 None 0 10 9 1 9 (-1)
                     _ _ _ _ _ _ _) _ _ _); try reflexivity; try discriminate.
    repeat constructor; discriminate.
Defined.

(** ** Where the rows of a file begin *)

Lemma fetch_tags_loop_tags (tag_lines : list string) :
  Forall (fun l => exists s, Py.strip l = String "#" s) tag_lines ->
  forall (after : list string) (row : option string) (tgs : Dict.t),
    exists tgs', MyTCSV.__fetch_tags_loop (tag_lines ++ after) row tgs =
                 MyTCSV.__fetch_tags_loop after
                   (match rev tag_lines with
                    | l :: _ => Some (Py.strip l)
                    | [] => row
                    end) tgs'.
Proof.
  intros Htags. induction Htags as [| l tag_lines (s & Hl) _ IH]; intros after row tgs.
  - exists tgs. reflexivity.
  - cbn [app MyTCSV.__fetch_tags_loop]. rewrite Hl.
    cbn [Py.chars list_ascii_of_string]. cbn [Ascii.eqb Bool.eqb].
    rewrite <- Hl.
    assert (Hlast : forall r : option string,
              match rev (l :: tag_lines) with
              | l' :: _ => Some (Py.strip l')
              | [] => r
              end =
              match rev tag_lines with
              | l' :: _ => Some (Py.strip l')
              | [] => Some (Py.strip l)
              end).
    { intros r. cbn [rev]. destruct (rev tag_lines); reflexivity. }
    rewrite Hlast.
    destruct (negb _); apply IH.
Qed.

(** X24.  [__fetch_tags__] reads the leading lines that begin with [#]
    and stops at the first line that does not: that line, stripped, is the
    row at hand and the lines after it are left in the file.  When every
    line of the file begins with [#], the row at hand is the last tag
    line. *)
Theorem fetch_tags_row_at_hand (self : MyTCSV.t) (tag_lines : list string) :
  Forall (fun l => exists s, Py.strip l = String "#" s) tag_lines ->
  (forall row rest c s,
     MyTCSV.file self = tag_lines ++ row :: rest ->
     Py.strip row = String c s -> c <> "#"%char ->
     exists self',
       MyTCSV.__fetch_tags__ self = Ok self' /\
       MyTCSV.__row__ self' = Some (Py.strip row) /\
       MyTCSV.file self' = rest) /\
  (forall last,
     MyTCSV.file self = tag_lines ++ [last] ->
     (exists s, Py.strip last = String "#" s) ->
     exists self',
       MyTCSV.__fetch_tags__ self = Ok self' /\
       MyTCSV.__row__ self' = Some (Py.strip last) /\
       MyTCSV.file self' = []).
Proof.
  intros Htags. split.
  - intros row rest c s Hfile Hrow Hc. unfold MyTCSV.__fetch_tags__. rewrite Hfile.
    destruct (fetch_tags_loop_tags tag_lines Htags (row :: rest) (MyTCSV.__row__ self) [])
      as (tgs' & ->).
    cbn [MyTCSV.__fetch_tags_loop]. rewrite Hrow.
    cbn [Py.chars list_ascii_of_string].
    destruct (Ascii.eqb_spec c "#") as [-> | _]; [contradiction|].
    rewrite <- Hrow. cbn [bind]. eexists. split; [reflexivity|]. split; reflexivity.
  - intros last Hfile Hlast. unfold MyTCSV.__fetch_tags__. rewrite Hfile.
    assert (Hall : Forall (fun l => exists s, Py.strip l = String "#" s)
                          (tag_lines ++ [last])).
    { apply Forall_app. split; [exact Htags | constructor; [exact Hlast | constructor]]. }
    rewrite <- (app_nil_r (tag_lines ++ [last])).
    destruct (fetch_tags_loop_tags _ Hall [] (MyTCSV.__row__ self) []) as (tgs' & ->).
    rewrite rev_app_distr. cbn [rev app MyTCSV.__fetch_tags_loop bind].
    eexists. split; [reflexivity|]. split; reflexivity.
Qed.

Lemma fetch_tags_row_at_hand_witness :
  exists self',
    MyTCSV.__fetch_tags__
      {| MyTCSV.file := [Scenario.line "#has_header=true"; Scenario.line "a,b";
                         Scenario.line "1,2"];
         MyTCSV.__row__ := None; MyTCSV.data := []; MyTCSV.field_names := [];
         MyTCSV.tags := [] |} = Ok self' /\
    MyTCSV.__row__ self' = Some "a,b" /\
    MyTCSV.file self' = [Scenario.line "1,2"].
Proof.
  refine (proj1 (fetch_tags_row_at_hand _ [Scenario.line "#has_header=true"] _)
            (Scenario.line "a,b") [Scenario.line "1,2"] "a"%char ",b" _ _ _).
  - constructor; [|constructor]. eexists. vm_compute. reflexivity.
  - reflexivity.
  - vm_compute. reflexivity.
  - discriminate.
Defined.

(** ** The geolocations of chosen samples *)

Lemma getitem_in_range {A : Type} (l : list A) (d : A) (i : Z) :
  - Z.of_nat (List.length l) <= i < Z.of_nat (List.length l) ->
  getitem l i = Ok (nth (Z.to_nat (i mod Z.of_nat (List.length l))) l d).
Proof.
  intros Hi. unfold getitem, position.
  set (n := Z.of_nat (List.length l)) in *.
  destruct (Z.leb_spec 0 i) as [Hpos | Hneg].
  - destruct (Z.ltb_spec i n) as [Hlt | Hge]; [|lia]. cbn [andb].
    rewrite Z.mod_small by lia.
    rewrite (nth_error_nth' l d) by (unfold n in Hlt; lia). reflexivity.
  - cbn [andb]. destruct (Z.leb_spec (- n) i) as [_ | Hlow]; [|lia].
    destruct (Z.ltb_spec i 0) as [_ | Hge]; [|lia]. cbn [andb].
    replace (i mod n) with (n + i).
    + rewrite (nth_error_nth' l d) by (unfold n in *; lia). reflexivity.
    + apply Z.mod_unique with (q := -1); lia.
Qed.

Lemma getitem_out_of_range {A : Type} (l : list A) (i : Z) :
  i < - Z.of_nat (List.length l) \/ Z.of_nat (List.length l) <= i ->
  getitem l i = Raise IndexError.
Proof.
  intros Hi. unfold getitem, position.
  destruct (Z.leb_spec 0 i); destruct (Z.ltb_spec i (Z.of_nat (List.length l)));
    destruct (Z.leb_spec (- Z.of_nat (List.length l)) i); destruct (Z.ltb_spec i 0);
    cbn [andb]; try reflexivity; lia.
Qed.

Lemma getitem_Ok_or_IndexError {A : Type} (l : list A) (i : Z) :
  (exists a, getitem l i = Ok a) \/ getitem l i = Raise IndexError.
Proof.
  unfold getitem. destruct (position l i) as [k |]; [|right; reflexivity].
  destruct (nth_error l k) as [a |]; [left; exists a; reflexivity | right; reflexivity].
Qed.

Lemma mapM_getitem_in_range {A : Type} (l : list A) (d : A) (idx : list Z) :
  Forall (fun i => - Z.of_nat (List.length l) <= i < Z.of_nat (List.length l)) idx ->
  mapM (getitem l) idx =
  Ok (map (fun i => nth (Z.to_nat (i mod Z.of_nat (List.length l))) l d) idx).
Proof.
  induction 1 as [| i idx Hi _ IH]; [reflexivity|].
  cbn [mapM map]. rewrite (getitem_in_range l d i Hi). cbn [bind]. rewrite IH. reflexivity.
Qed.

Lemma mapM_getitem_out_of_range {A : Type} (l : list A) (idx : list Z) :
  Exists (fun i => i < - Z.of_nat (List.length l) \/ Z.of_nat (List.length l) <= i) idx ->
  mapM (getitem l) idx = Raise IndexError.
Proof.
  induction 1 as [i idx Hi | i idx _ IH]; cbn [mapM].
  - rewrite (getitem_out_of_range l i Hi). reflexivity.
  - destruct (getitem_Ok_or_IndexError l i) as [[a ->] | ->]; [|reflexivity].
    cbn [bind]. rewrite IH. reflexivity.
Qed.

Lemma transpose_floats (a b : list pyfloat) :
  List.length a = List.length b ->
  Samples.transpose (map VFloat a) (map VFloat b) = Ok (combine a b).
Proof.
  revert b. induction a as [| x a IH]; intros [| y b] Hlen; try discriminate Hlen;
    [reflexivity|].
  cbn [map Samples.transpose as_number combine]. rewrite IH by (cbn in Hlen; lia).
  reflexivity.
Qed.

(** X25.  [read_samples_geolocs] on a table whose x and y columns hold [n]
    numbers each: without indexes it returns the [n] pairs (x, y) of the
    rows; with a list of indexes that all lie between [-n] and [n - 1] it
    returns one pair per index, in the order of the list and with
    repetitions, the pair of the row [i mod n] for the index [i]; an index
    outside this range is an [IndexError]. *)
Theorem read_samples_geolocs_selects (self : Samples.t) (xs ys : list pyfloat)
  (idx : list Z) :
  Samples.column self Samples.TAG_X_FIELD = Ok (map VFloat xs) ->
  Samples.column self Samples.TAG_Y_FIELD = Ok (map VFloat ys) ->
  List.length xs = List.length ys ->
  let n := Z.of_nat (List.length xs) in
  Samples.read_samples_geolocs self None = Ok (combine xs ys) /\
  (Forall (fun i => - n <= i < n) idx ->
   Samples.read_samples_geolocs self (Some idx) =
   Ok (map (fun i => (nth (Z.to_nat (i mod n)) xs NaN, nth (Z.to_nat (i mod n)) ys NaN))
           idx)) /\
  (Exists (fun i => i < - n \/ n <= i) idx ->
   Samples.read_samples_geolocs self (Some idx) = Raise IndexError).
Proof.
  intros Hx Hy Hlen n. unfold Samples.read_samples_geolocs. rewrite Hx, Hy. cbn [bind].
  split; [apply transpose_floats; exact Hlen|]. split.
  - intros Hidx.
    rewrite (mapM_getitem_in_range (map VFloat xs) (VFloat NaN) idx)
      by (rewrite length_map; exact Hidx).
    cbn [bind].
    rewrite (mapM_getitem_in_range (map VFloat ys) (VFloat NaN) idx)
      by (rewrite length_map, <- Hlen; exact Hidx).
    cbn [bind]. rewrite !length_map, <- Hlen. fold n.
    clear Hidx. induction idx as [| i idx IH]; [reflexivity|].
    cbn [map Samples.transpose]. rewrite !(map_nth VFloat). cbn [as_number].
    rewrite IH. reflexivity.
  - intros Hidx.
    rewrite (mapM_getitem_out_of_range (map VFloat xs) idx)
      by (rewrite length_map; exact Hidx).
    reflexivity.
Qed.

Lemma read_samples_geolocs_selects_witness :
  exists self, Scenario.fetched_samples "samples.csv" = Ok self /\
    Samples.read_samples_geolocs self None = Ok [(Fin (7 # 2), Fin (13 # 2))] /\
    Samples.read_samples_geolocs self (Some [0; -1; 0]) =
    Ok [(Fin (7 # 2), Fin (13 # 2)); (Fin (7 # 2), Fin (13 # 2));
        (Fin (7 # 2), Fin (13 # 2))] /\
    Samples.read_samples_geolocs self (Some [0; 1]) = Raise IndexError.
Proof.
  eexists. split; [vm_compute; reflexivity|].
  match goal with
  | |- Samples.read_samples_geolocs ?s _ = _ /\ _ => set (self := s)
  end.
  split; [|split].
  - exact (proj1 (read_samples_geolocs_selects self [Fin (7 # 2)] [Fin (13 # 2)] []
                    eq_refl eq_refl eq_refl)).
  - refine (proj1 (proj2 (read_samples_geolocs_selects self [Fin (7 # 2)] [Fin (13 # 2)]
                            [0; -1; 0] eq_refl eq_refl eq_refl)) _).
    repeat constructor; cbn; lia.
  - refine (proj2 (proj2 (read_samples_geolocs_selects self [Fin (7 # 2)] [Fin (13 # 2)]
                            [0; 1] eq_refl eq_refl eq_refl)) _).
    right. left. right. cbn. lia.
Defined.
